(** * Float Chat prototype: the chat pipeline and the NetCDF synthesizer

    A shallow embedding of
      - [src/lib/data-processing/netcdf-processor.ts]
        (classes [NetCDFProcessor], [VectorEmbeddingsGenerator], [ChatProcessor])
      - [src/app/api/chat/route.ts] (handlers [POST] and [GET])
      - [src/app/api/process-netcdf/route.ts] (handlers [POST] and [GET])
    and the properties of the specification that concern them.

    Modelling conventions.
      - A JavaScript string is a Rocq [string]: a sequence of characters
        below U+0100. The built-ins that inspect characters ([toLowerCase],
        the regular expression classes [\d] and [\s], the flag [i],
        [Number.parseInt]) are those of JavaScript on that range.
      - A JavaScript number is a binary64 [float]. The result of
        [Number.parseInt] is the Number nearest to the integer the digits
        denote, an infinity beyond the range, and [NaN] without a digit.
      - The relational store, the clock and [Math.random] are the world the
        code runs in; effectful methods are functions in a state-and-exception
        monad over that world. The tables [chat_sessions] and
        [data_embeddings] are lists of rows with the constraints of the
        schema; the joined reads of [retrieveRelevantData] are answered by the
        store as it sees fit.
      - The writes of [NetCDFProcessor] and [VectorEmbeddingsGenerator] and
        the reads of the status route go to tables the code never reads back:
        there the store is the environment, each request is recorded in the
        order sent and answered as the store sees fit.
      - Console output and the simulated processing delay are left out. The
        conversion to text of a logged value that was read from a request
        body is kept, since it can throw.
      - The factory [createClient] of the store client is not among the
        sources. In [ChatProcessor] and the route [/api/chat], what its
        promise settles to is a parameter of the methods that await it. In
        [NetCDFProcessor], [VectorEmbeddingsGenerator] and the route
        [/api/process-netcdf] creating the client is taken to succeed. *)

From Stdlib Require Import Bool Arith List ZArith Lia Ascii String PrimFloat.
From Stdlib Require Import Sorting.Sorted Sorting.Permutation Sorting.Mergesort.
From Stdlib Require Import Orders DecimalString.
From Stdlib Require FloatAxioms FloatLemmas SpecFloat FloatOps Uint63.
Import ListNotations.

Set Implicit Arguments.
Local Open Scope string_scope.
Local Open Scope list_scope.
Local Open Scope nat_scope.

(** String concatenation, the [+] of the source on strings. *)
Infix "+++" := String.append (at level 60, right associativity).

(* ===================================================================== *)
(** * JavaScript built-ins used by the code *)
(* ===================================================================== *)

Module Js.

Definition chars (s : string) : list ascii := list_ascii_of_string s.
Definition text (l : list ascii) : string := string_of_list_ascii l.

Definition code (c : ascii) : nat := nat_of_ascii c.

Definition is_digit (c : ascii) : bool := (48 <=? code c) && (code c <=? 57).

(** The upper-case letters below U+0100: A to Z, and U+00C0 to U+00DE
    without the multiplication sign U+00D7. *)
Definition is_upper (c : ascii) : bool :=
  ((65 <=? code c) && (code c <=? 90)) ||
  ((192 <=? code c) && (code c <=? 222) && negb (code c =? 215)).

(** White space below U+0100, as [\s] and [parseInt] take it: TAB, LF, VT,
    FF, CR, SPACE and the no-break space U+00A0. *)
Definition is_space (c : ascii) : bool :=
  ((9 <=? code c) && (code c <=? 13)) || (code c =? 32) || (code c =? 160).

Definition lower_char (c : ascii) : ascii :=
  if is_upper c then ascii_of_nat (code c + 32) else c.

(** [String.prototype.toLowerCase] *)
Fixpoint toLowerCase (s : string) : string :=
  match s with
  | EmptyString => EmptyString
  | String c s' => String (lower_char c) (toLowerCase s')
  end.

Fixpoint starts_with (needle s : string) : bool :=
  match needle, s with
  | EmptyString, _ => true
  | String a n', String b s' => Ascii.eqb a b && starts_with n' s'
  | String _ _, EmptyString => false
  end.

(** [String.prototype.includes]: does [needle] occur in [s] at some position *)
Fixpoint includes (s needle : string) : bool :=
  starts_with needle s ||
  match s with
  | EmptyString => false
  | String _ s' => includes s' needle
  end.

(** Value of a character as a digit in the given radix. *)
Definition digit_value (radix : nat) (c : ascii) : option Z :=
  let n := code c in
  let v := if is_digit c then Some (n - 48)
           else if (97 <=? n) && (n <=? 122) then Some (n - 87)
           else if (65 <=? n) && (n <=? 90) then Some (n - 55)
           else None in
  match v with
  | Some d => if d <? radix then Some (Z.of_nat d) else None
  | None => None
  end.

(** The longest prefix of radix digits, read as a number; [None] when the
    prefix is empty. *)
Fixpoint read_digits (radix : nat) (acc : option Z) (s : list ascii) : option Z :=
  match s with
  | [] => acc
  | c :: s' =>
      match digit_value radix c with
      | Some d =>
          read_digits radix
            (Some (Z.of_nat radix * match acc with Some a => a | None => 0 end + d)%Z) s'
      | None => acc
      end
  end.

Fixpoint skip_spaces (s : list ascii) : list ascii :=
  match s with
  | c :: s' => if is_space c then skip_spaces s' else s
  | [] => []
  end.

(** The Number of an integer given by sign and magnitude: the binary64
    nearest to it, a tie going to the even significand, and an infinity when
    it is out of range; the sign is kept on zero. *)
Definition number (negative : bool) (magnitude : Z) : float :=
  FloatOps.SF2Prim
    (SpecFloat.binary_normalize FloatOps.prec FloatOps.emax
       (if negative then (- magnitude)%Z else magnitude) 0 negative).

(** [Number.parseInt(s)] with no radix argument: leading white space is
    skipped, a sign is read, a [0x] prefix selects radix 16, and the longest
    run of digits is read as an integer, of which the result is the Number;
    with no digit the result is [NaN]. The Number is the nearest one, as V8
    computes it; the language allows an engine to approximate past the
    twentieth digit. *)
Definition parseInt (s : string) : float :=
  let s1 := skip_spaces (chars s) in
  let '(negative, s2) :=
    match s1 with
    | c :: r =>
        if Ascii.eqb c "-" then (true, r)
        else if Ascii.eqb c "+" then (false, r)
        else (false, s1)
    | [] => (false, s1)
    end in
  let '(radix, s3) :=
    match s2 with
    | c1 :: c2 :: r =>
        if Ascii.eqb c1 "0" && (Ascii.eqb c2 "x" || Ascii.eqb c2 "X") then (16, r)
        else (10, s2)
    | _ => (10, s2)
    end in
  match read_digits radix None s3 with
  | Some v => number negative v
  | None => PrimFloat.nan
  end.

(** Truthiness of an optional string: [undefined] and the empty string are
    falsy. *)
Definition truthy_string (o : option string) : bool :=
  match o with
  | Some EmptyString => false
  | Some _ => true
  | None => false
  end.

End Js.

(* ===================================================================== *)
(** * Regular expressions

    The fragment the code's patterns are written in: literal characters,
    the classes [\d], [\s] and bracket sets, a quantifier on a class
    ([+], [*], [{n}], [{n,m}], all greedy), sequence, alternation and numbered
    capture groups. [matches] lists the ways a pattern can match at the start
    of the input in the order a backtracking matcher tries them; [exec] is the
    search of [String.prototype.match] for a pattern without the [g] flag. *)
(* ===================================================================== *)

Module Regex.

Inductive cclass :=
  | Digit                       (* \d *)
  | Space                       (* \s *)
  | OneOf (cs : list ascii).    (* [...] *)

Inductive regex :=
  | Lit (c : ascii)
  | Rep (k : cclass) (lo : nat) (hi : option nat)
  | Seq (r1 r2 : regex)
  | Alt (r1 r2 : regex)
  | Group (n : nat) (r : regex).

Definition in_class (k : cclass) (c : ascii) : bool :=
  match k with
  | Digit => Js.is_digit c
  | Space => Js.is_space c
  | OneOf cs => existsb (Ascii.eqb c) cs
  end.

(** Comparison of a pattern character with an input character; with the flag
    [i] both are compared after case folding. *)
Definition char_eq (icase : bool) (p c : ascii) : bool :=
  if icase then Ascii.eqb (Js.lower_char p) (Js.lower_char c) else Ascii.eqb p c.

Definition room (hi : option nat) : bool :=
  match hi with Some 0 => false | _ => true end.

(** Greedy repetition of a class between [lo] and [hi] times: the inputs left
    after each admissible number of repetitions, the longest first. *)
Fixpoint rep (p : ascii -> bool) (lo : nat) (hi : option nat) (s : list ascii)
  : list (list ascii) :=
  let stop := if lo =? 0 then [s] else [] in
  match s with
  | c :: s' =>
      (if p c && room hi then rep p (pred lo) (option_map pred hi) s' else []) ++ stop
  | [] => stop
  end.

Definition caps := list (nat * list ascii).

(** The part of [s] consumed when [s'] is what is left of it. *)
Definition consumed (s s' : list ascii) : list ascii :=
  firstn (List.length s - List.length s') s.

Fixpoint matches (icase : bool) (r : regex) (s : list ascii) (c : caps)
  : list (list ascii * caps) :=
  match r with
  | Lit a =>
      match s with
      | x :: s' => if char_eq icase a x then [(s', c)] else []
      | [] => []
      end
  | Rep k lo hi => map (fun s' => (s', c)) (rep (in_class k) lo hi s)
  | Seq r1 r2 =>
      flat_map (fun m => matches icase r2 (fst m) (snd m)) (matches icase r1 s c)
  | Alt r1 r2 => matches icase r1 s c ++ matches icase r2 s c
  | Group n r1 =>
      map (fun m => (fst m, (n, consumed s (fst m)) :: snd m)) (matches icase r1 s c)
  end.

(** The first match of the leftmost position that has one; group 0 is the
    whole match. *)
Fixpoint exec_at (icase : bool) (r : regex) (s : list ascii) : option caps :=
  match matches icase r s [] with
  | m :: _ => Some ((0, consumed s (fst m)) :: snd m)
  | [] =>
      match s with
      | [] => None
      | _ :: s' => exec_at icase r s'
      end
  end.

Fixpoint lookup (n : nat) (c : caps) : option (list ascii) :=
  match c with
  | [] => None
  | (k, v) :: c' => if k =? n then Some v else lookup n c'
  end.

(** The array returned by [s.match(r)], as a function from group numbers to
    the text of the group. Every group of the patterns of this code takes part
    in every match; a number that names no group reads as the empty string. *)
Definition match_result := nat -> string.

Definition group (c : caps) (n : nat) : string :=
  match lookup n c with
  | Some v => Js.text v
  | None => EmptyString
  end.

Definition exec (icase : bool) (r : regex) (s : string) : option match_result :=
  match exec_at icase r (Js.chars s) with
  | Some c => Some (group c)
  | None => None
  end.

(** Pattern syntax. *)
Definition plus (k : cclass) : regex := Rep k 1 None.
Definition star (k : cclass) : regex := Rep k 0 None.
Definition exactly (n : nat) (k : cclass) : regex := Rep k n (Some n).
Definition between (n m : nat) (k : cclass) : regex := Rep k n (Some m).
Definition one (k : cclass) : regex := Rep k 1 (Some 1).

Fixpoint word (s : string) : regex :=
  match s with
  | EmptyString => Rep Digit 0 (Some 0)
  | String c EmptyString => Lit c
  | String c s' => Seq (Lit c) (word s')
  end.

End Regex.

Import Regex.
Declare Scope regex_scope.
Delimit Scope regex_scope with re.
Infix ">>" := Seq (at level 61, right associativity) : regex_scope.

(* ===================================================================== *)
(** * The world the code runs in *)
(* ===================================================================== *)

(** A JSON value, as [request.json()] yields it. *)
#[local] Unset Elimination Schemes.
Inductive Json :=
  | JNull
  | JBool (b : bool)
  | JNum (x : float)
  | JStr (s : string)
  | JArr (items : list Json)
  | JObj (fields : list (string * Json)).
#[local] Set Elimination Schemes.

(** A thrown value: an instance of [Error] with its message, or anything else. *)
Inductive Exn :=
  | JsError (message : string)
  | NotAnError (description : string).

(** What a store request resolves to: the pair [{ data, error }] of the
    client, or a rejection. *)
Inductive Answer (A : Type) :=
  | Reply (data : option A) (error : option string)
  | Reject (e : Exn).
Arguments Reply {A} data error.
Arguments Reject {A} e.

(** Rows of [chat_sessions] (schema: [session_id VARCHAR(100) UNIQUE NOT NULL],
    [id] and [created_at] filled in by the store). *)
Record ChatSessionRow := {
  id : string;
  session_id : string;
  user_query : string;
  ai_response : string;
  query_type : string;
  execution_time_ms : Z;
  created_at : Z
}.

(** Rows of [data_embeddings]. *)
Record EmbeddingRow := {
  emb_id : string;
  content_type : string;
  content_id : string;
  embedding_vector : list float;
  content_text : string;
  metadata : Json;
  emb_created_at : Z
}.

(** A measurement as the chat processor reads it from a joined row. *)
Record MeasurementRow := {
  depth_meters : float;
  temperature_celsius : option float
}.

(** A numeric column of a row: a number, [null], or no such column in the
    row ([undefined]). *)
Inductive Column :=
  | Undefined
  | Null
  | Num (x : float).

(** A row handed to the response templates. The three reads of
    [retrieveRelevantData] return rows of different tables in one array, so a
    row carries every column the templates look at; [None] is a column the
    row does not have. *)
Record DataRow := {
  float_id : option string;
  argo_floats : option (option string);   (* joined float and its float_id *)
  depth_measurements : option (list MeasurementRow);
  latitude : Column;
  longitude : Column;
  deployment_latitude : Column;
  deployment_longitude : Column;
  status : option string;
  last_transmission : option string;
  profile_date : option string
}.

(** How the store answers requests on the tables modelled as lists. *)
Inductive Health :=
  | Up
  | Failing (error : string)
  | Rejecting (e : Exn).

Record Store := {
  chat_sessions : list ChatSessionRow;
  data_embeddings : list EmbeddingRow;
  health : Health;
  (* the joined reads of [retrieveRelevantData], answered by the store *)
  floats_by_id : string -> Answer (list DataRow);
  recent_profiles : nat -> Answer (list DataRow);
  measurements_by_float : string -> Answer (list DataRow);
  (* defaults of the schema *)
  gen_random_uuid : nat -> string;
  issued : nat
}.

Record World := {
  store : Store;
  clock : nat -> Z;          (* successive readings of the clock, in ms *)
  ticks : nat;
  random : nat -> float;     (* successive results of [Math.random()] *)
  draws : nat
}.

(** Number and date formatting of the host, used by the templates. *)
Record Host := {
  toFixed : nat -> float -> string;
  numberToString : float -> string;
  toLocaleDateString : option string -> string;
  jsonText : Json -> string
}.

(** ** Computations: state and exceptions *)

Inductive Outcome (A : Type) :=
  | Return (a : A)
  | Throw (e : Exn).
Arguments Return {A} a.
Arguments Throw {A} e.

Definition M (A : Type) : Type := World -> Outcome A * World.

Definition ret {A} (a : A) : M A := fun w => (Return a, w).

Definition throw {A} (e : Exn) : M A := fun w => (Throw e, w).

Definition bind {A B} (m : M A) (k : A -> M B) : M B :=
  fun w =>
    match m w with
    | (Return a, w') => k a w'
    | (Throw e, w') => (Throw e, w')
    end.

(** [try { m } catch (error) { handler(error) }] *)
Definition try_catch {A} (m : M A) (handler : Exn -> M A) : M A :=
  fun w =>
    match m w with
    | (Return a, w') => (Return a, w')
    | (Throw e, w') => handler e w'
    end.

Declare Scope js_scope.
Delimit Scope js_scope with js.
Notation "x <- m ;; k" := (bind m (fun x => k))
  (at level 100, m at next level, right associativity) : js_scope.
Notation "m ;;; k" := (bind m (fun _ => k))
  (at level 100, right associativity) : js_scope.

(** [Date.now()] and [new Date()] *)
Definition Date_now : M Z :=
  fun w => (Return (clock w (ticks w)),
            {| store := store w; clock := clock w; ticks := S (ticks w);
               random := random w; draws := draws w |}).

(** [Math.random()] *)
Definition Math_random : M float :=
  fun w => (Return (random w (draws w)),
            {| store := store w; clock := clock w; ticks := ticks w;
               random := random w; draws := S (draws w) |}).

Definition get_store : M Store := fun w => (Return (store w), w).

(** Awaiting a store request. *)
Definition await {A} (a : Answer A) : M (option A * option string) :=
  match a with
  | Reply d e => ret (d, e)
  | Reject e => throw e
  end.

Fixpoint mapM {A B} (f : A -> M B) (l : list A) : M (list B) :=
  match l with
  | [] => ret []
  | x :: l' => (y <- f x ;; ys <- mapM f l' ;; ret (y :: ys))%js
  end.

(** [Math.max(...xs)] *)
Definition Math_max (xs : list float) : float :=
  fold_left
    (fun acc x =>
       if PrimFloat.is_nan acc then acc
       else if PrimFloat.is_nan x then x
       else if PrimFloat.ltb acc x then x else acc)
    xs neg_infinity.

(** The number a column is in a comparison: [null] is zero, and a column the
    row does not have is [NaN]. *)
Definition number_of (c : Column) : float :=
  match c with
  | Num x => x
  | Null => 0
  | Undefined => nan
  end.

(** Decimal text of a natural number, as a template prints a length. *)
Definition decimal (n : nat) : string :=
  DecimalString.NilEmpty.string_of_uint (Nat.to_uint n).

Definition newline : string := String (ascii_of_nat 10) EmptyString.

(** ** Values read from JSON *)

(** The property [name] of an object read from JSON text; the last of
    duplicate keys is the one kept. *)
Fixpoint property (name : string) (fields : list (string * Json)) : option Json :=
  match fields with
  | [] => None
  | (k, v) :: rest =>
      match property name rest with
      | Some v' => Some v'
      | None => if String.eqb k name then Some v else None
      end
  end.

Section Conversions.
Variable H : Host.

(** The text of a value read from JSON when it stands in a template string:
    an array joins its elements with commas, leaving [null] empty; an object
    is [[object Object]], unless it has a [toString] of its own, which is
    no function then, and the conversion throws a [TypeError]. *)
Fixpoint toString (v : Json) : Outcome string :=
  match v with
  | JNull => Return "null"
  | JBool true => Return "true"
  | JBool false => Return "false"
  | JNum x => Return (numberToString H x)
  | JStr s => Return s
  | JArr items =>
      (fix join (l : list Json) : Outcome string :=
         match l with
         | [] => Return EmptyString
         | x :: rest =>
             match match x with JNull => Return EmptyString | _ => toString x end with
             | Throw e => Throw e
             | Return s =>
                 match rest with
                 | [] => Return s
                 | _ :: _ =>
                     match join rest with
                     | Throw e => Throw e
                     | Return t => Return (s +++ "," +++ t)
                     end
                 end
             end
         end) items
  | JObj fields =>
      match property "toString" fields with
      | Some _ => Throw (JsError "Cannot convert object to primitive value")
      | None => Return "[object Object]"
      end
  end.

(** A template string with [v] in it, as the log lines have: only the
    conversion can be observed. *)
Definition template (v : Json) : M string := fun w => (toString v, w).

End Conversions.

(* ===================================================================== *)
(** * class NetCDFProcessor *)
(* ===================================================================== *)

Module NetCDFProcessor.

Local Open Scope js_scope.

Record Measurement := {
  depth : float;
  pressure : float;
  temperature : float;
  salinity : float
}.

Record BgcMeasurement := {
  bgc_depth : float;
  oxygen : float;
  nitrate : float;
  ph : float;
  chlorophyll : float;
  backscatter : float
}.

Record ArgoProfile := {
  floatId : string;
  platformNumber : string;
  profileDate : Z;
  latitude : float;
  longitude : float;
  cycleNumber : float;
  measurements : list Measurement;
  bgcData : option (list BgcMeasurement)
}.

(** [/R(\d+)_(\d+)\.nc/] *)
Definition filename_pattern : regex :=
  (Lit "R" >> Group 1 (plus Digit) >> Lit "_" >> Group 2 (plus Digit) >>
   Lit "." >> Lit "n" >> Lit "c")%re.

Section Formulas.
Local Open Scope float_scope.
Local Set Warnings "-inexact-float".

Definition calculateTemperature (depth : float) : M float :=
  if depth <? 100 then (r <- Math_random ;; ret (28.5 - depth * 0.02 + (r - 0.5) * 0.5))
  else if depth <? 500 then (r <- Math_random ;; ret (26.5 - depth * 0.01 + (r - 0.5) * 0.3))
  else (r <- Math_random ;; ret (4.2 - depth * 0.001 + (r - 0.5) * 0.2)).

Definition calculateSalinity (depth : float) : M float :=
  if depth <? 100 then (r <- Math_random ;; ret (34.8 + depth * 0.001 + (r - 0.5) * 0.1))
  else if depth <? 500 then (r <- Math_random ;; ret (35.2 + depth * 0.0005 + (r - 0.5) * 0.05))
  else (r <- Math_random ;; ret (34.9 + depth * 0.0001 + (r - 0.5) * 0.03)).

Definition calculateOxygen (depth : float) : M float :=
  if depth <? 100 then (r <- Math_random ;; ret (220 - depth * 0.5 + (r - 0.5) * 10))
  else if depth <? 500 then (r <- Math_random ;; ret (180 - depth * 0.2 + (r - 0.5) * 8))
  else (r <- Math_random ;; ret (150 - depth * 0.05 + (r - 0.5) * 5)).

Definition calculateNitrate (depth : float) : M float :=
  if depth <? 100 then (r <- Math_random ;; ret (2.5 + depth * 0.02 + (r - 0.5) * 0.5))
  else if depth <? 500 then (r <- Math_random ;; ret (8.5 + depth * 0.01 + (r - 0.5) * 1.0))
  else (r <- Math_random ;; ret (25.2 + depth * 0.005 + (r - 0.5) * 2.0)).

Definition calculatePH (depth : float) : M float :=
  if depth <? 100 then (r <- Math_random ;; ret (8.1 - depth * 0.001 + (r - 0.5) * 0.05))
  else if depth <? 500 then (r <- Math_random ;; ret (7.9 - depth * 0.0005 + (r - 0.5) * 0.03))
  else (r <- Math_random ;; ret (7.8 - depth * 0.0001 + (r - 0.5) * 0.02)).

Definition calculateChlorophyll (depth : float) : M float :=
  if depth <? 100 then
    (r <- Math_random ;; ret (Math_max [0; 0.8 - depth * 0.005 + (r - 0.5) * 0.1]))
  else if depth <? 200 then
    (r <- Math_random ;; ret (Math_max [0; 0.3 - depth * 0.001 + (r - 0.5) * 0.05]))
  else (r <- Math_random ;; ret (0.05 + (r - 0.5) * 0.01)).

Definition calculateBackscatter (depth : float) : M float :=
  if depth <? 100 then (r <- Math_random ;; ret (0.001 + depth * 0.00001 + (r - 0.5) * 0.0002))
  else (r <- Math_random ;; ret (0.002 + depth * 0.000001 + (r - 0.5) * 0.0001)).

Definition generateDepthMeasurements : M (list Measurement) :=
  let depths := [5; 10; 20; 30; 50; 75; 100; 125; 150; 200; 250; 300; 400; 500; 600;
                 750; 1000; 1250; 1500; 1750; 2000] in
  mapM (fun depth =>
          t <- calculateTemperature depth ;;
          s <- calculateSalinity depth ;;
          ret {| depth := depth; pressure := depth * 1.02;
                 temperature := t; salinity := s |})
       depths.

Definition generateBGCMeasurements : M (list BgcMeasurement) :=
  let depths := [5; 10; 20; 30; 50; 75; 100; 125; 150; 200; 250; 300; 400; 500; 600;
                 750; 1000] in
  mapM (fun depth =>
          o <- calculateOxygen depth ;;
          n <- calculateNitrate depth ;;
          p <- calculatePH depth ;;
          c <- calculateChlorophyll depth ;;
          b <- calculateBackscatter depth ;;
          ret {| bgc_depth := depth; oxygen := o; nitrate := n; ph := p;
                 chlorophyll := c; backscatter := b |})
       depths.

Definition processNetCDFFile (filename filePath : string) : M ArgoProfile :=
  match Regex.exec false filename_pattern filename with
  | None => throw (JsError ("Invalid NetCDF filename format: " +++ filename))
  | Some floatMatch =>
      let floatId := floatMatch 1%nat in
      let cycleNumber := Js.parseInt (floatMatch 2%nat) in
      now <- Date_now ;;
      r1 <- Math_random ;;
      r2 <- Math_random ;;
      ms <- generateDepthMeasurements ;;
      bgc <- generateBGCMeasurements ;;
      ret {| floatId := floatId;
             platformNumber := floatId;
             profileDate := now;
             latitude := 15.5 + (r1 - 0.5) * 0.1;
             longitude := 68.2 + (r2 - 0.5) * 0.1;
             cycleNumber := cycleNumber;
             measurements := ms;
             bgcData := Some bgc |}
  end.

End Formulas.

End NetCDFProcessor.

(* ===================================================================== *)
(** * The store client: the requests the code sends *)
(* ===================================================================== *)

Module Supabase.

Section OrderBy.
Variable A : Type.
Variable before : A -> A -> bool.

Fixpoint insert (x : A) (l : list A) : list A :=
  match l with
  | [] => [x]
  | y :: l' => if before x y then x :: l else y :: insert x l'
  end.

(** A stable sort: rows that the order does not separate keep the order of
    the table. *)
Definition sort (l : list A) : list A := fold_right insert [] l.

End OrderBy.

(** [.order(column, { ascending })] on a timestamp column *)
Definition order {A} (column : A -> Z) (ascending : bool) (rows : list A) : list A :=
  sort (fun a b => if ascending then (column a <=? column b)%Z
                   else (column b <=? column a)%Z) rows.

(** A read of a table modelled as a list. *)
Definition read {A} (s : Store) (rows : list A) : Answer (list A) :=
  match health s with
  | Up => Reply (Some rows) None
  | Failing e => Reply None (Some e)
  | Rejecting e => Reject e
  end.

(** [from("data_embeddings").select("*")
      .order("created_at", { ascending: false }).limit(limit)] *)
Definition embeddings_newest_first (limit : nat) (s : Store) : Answer (list EmbeddingRow) :=
  read s (firstn limit (order emb_created_at false (data_embeddings s))).

(** [from("chat_sessions").select("*").eq("session_id", sessionId)
      .order("created_at", { ascending: true })] *)
Definition sessions_of (sessionId : string) (s : Store) : Answer (list ChatSessionRow) :=
  read s (order created_at true
            (filter (fun r => String.eqb (session_id r) sessionId) (chat_sessions s))).

(** The text a value takes in a [VARCHAR] column; [null] has none. *)
Definition column_text (H : Host) (v : Json) : option string :=
  match v with
  | JNull => None
  | JStr s => Some s
  | _ => Some (jsonText H v)
  end.

(** [from("chat_sessions").insert({...})]: the row is refused when
    [session_id] is null, longer than 100 characters or already present
    (the column is [VARCHAR(100) UNIQUE NOT NULL]); otherwise it is appended
    with a fresh [id] and the time of the insertion in [created_at]. *)
Definition insert_session (H : Host) (sessionId : Json)
    (userQuery aiResponse queryType : string) (executionTime : Z)
  : M (option unit * option string) :=
  fun w =>
    let s := store w in
    match health s with
    | Rejecting e => (Throw e, w)
    | Failing e => (Return (None, Some e), w)
    | Up =>
        match column_text H sessionId with
        | None => (Return (None, Some "null value in column session_id"), w)
        | Some sid =>
            if 100 <? String.length sid then
              (Return (None, Some "value too long for type character varying(100)"), w)
            else if existsb (fun r => String.eqb (session_id r) sid) (chat_sessions s) then
              (Return (None, Some "duplicate key value violates unique constraint"), w)
            else
              let row := {| id := gen_random_uuid s (issued s);
                            session_id := sid;
                            user_query := userQuery;
                            ai_response := aiResponse;
                            query_type := queryType;
                            execution_time_ms := executionTime;
                            created_at := clock w (ticks w) |} in
              (Return (None, None),
               {| store := {| chat_sessions := chat_sessions s ++ [row];
                              data_embeddings := data_embeddings s;
                              health := health s;
                              floats_by_id := floats_by_id s;
                              recent_profiles := recent_profiles s;
                              measurements_by_float := measurements_by_float s;
                              gen_random_uuid := gen_random_uuid s;
                              issued := S (issued s) |};
                  clock := clock w; ticks := S (ticks w);
                  random := random w; draws := draws w |})
        end
    end.

End Supabase.

(* ===================================================================== *)
(** * class VectorEmbeddingsGenerator *)
(* ===================================================================== *)

Module VectorEmbeddingsGenerator.

Local Open Scope js_scope.

Definition getOceanRegion (lat lon : float) : string :=
  if (0 <=? lat)%float && (lat <=? 30)%float && (40 <=? lon)%float && (lon <=? 100)%float then
    "Arabian Sea"
  else if (-30 <=? lat)%float && (lat <=? 30)%float && (20 <=? lon)%float && (lon <=? 120)%float then
    "Indian Ocean"
  else if (-10 <=? lat)%float && (lat <=? 30)%float && (90 <=? lon)%float && (lon <=? 120)%float then
    "Bay of Bengal"
  else "Indian Ocean region".

(** [searchSimilarContent(query, limit = 5)]; [None] is an omitted [limit]. *)
Definition searchSimilarContent (query : string) (limit : option nat)
  : M (list EmbeddingRow) :=
  let limit := match limit with Some n => n | None => 5 end in
  s <- get_store ;;
  r <- await (Supabase.embeddings_newest_first limit s) ;;
  match r with
  | (_, Some error) => ret []
  | (Some data, None) => ret data
  | (None, None) => ret []
  end.

End VectorEmbeddingsGenerator.

(* ===================================================================== *)
(** * class ChatProcessor *)
(* ===================================================================== *)

Module ChatProcessor.

Local Open Scope js_scope.

Record Parameters := {
  floatId : option string;
  depth : option float;
  date : option string
}.

Record Analysis := {
  type : string;
  parameters : Parameters;
  visualizations : list string;
  dataNeeded : list string
}.

Record ChatMessage := {
  msg_id : string;
  role : string;
  content : string;
  timestamp : Z;
  queryType : string;
  executionTime : Z
}.

Record QueryResult := {
  response : string;
  res_queryType : string;
  res_executionTime : Z;
  dataUsed : list DataRow;
  res_visualizations : list string
}.

(** [/float\s+(\d+)/i] *)
Definition float_pattern : regex :=
  (word "float" >> plus Space >> Group 1 (plus Digit))%re.

(** [/(\d{7})/] *)
Definition seven_digits_pattern : regex := Group 1 (exactly 7 Digit).

(** [/(\d+)\s*(?:m|meter|metre)/i] *)
Definition depth_pattern : regex :=
  (Group 1 (plus Digit) >> star Space >>
   Alt (Lit "m") (Alt (word "meter") (word "metre")))%re.

(** [/(\d{4}[-/]\d{1,2}[-/]\d{1,2})/] *)
Definition date_pattern : regex :=
  Group 1 (exactly 4 Digit >> one (OneOf ["-"; "/"]%char) >> between 1 2 Digit >>
           one (OneOf ["-"; "/"]%char) >> between 1 2 Digit)%re.

Definition or_else {A} (a b : option A) : option A :=
  match a with Some _ => a | None => b end.

Definition extractParameters (query : string) : Parameters :=
  let floatMatch :=
    or_else (Regex.exec true float_pattern query)
            (Regex.exec false seven_digits_pattern query) in
  let depthMatch := Regex.exec true depth_pattern query in
  let dateMatch := Regex.exec false date_pattern query in
  {| floatId := match floatMatch with Some m => Some (m 1) | None => None end;
     depth := match depthMatch with Some m => Some (Js.parseInt (m 1)) | None => None end;
     date := match dateMatch with Some m => Some (m 1) | None => None end |}.

Definition analyzeQuery (query : string) : Analysis :=
  let lowerQuery := Js.toLowerCase query in
  if Js.includes lowerQuery "temperature" || Js.includes lowerQuery "temp" then
    {| type := "temperature_query";
       parameters := extractParameters query;
       visualizations := ["temperature_profile"; "depth_chart"];
       dataNeeded := ["depth_measurements"] |}
  else if Js.includes lowerQuery "salinity" || Js.includes lowerQuery "salt" then
    {| type := "salinity_query";
       parameters := extractParameters query;
       visualizations := ["salinity_profile"; "depth_chart"];
       dataNeeded := ["depth_measurements"] |}
  else if Js.includes lowerQuery "oxygen" || Js.includes lowerQuery "nitrate" ||
          Js.includes lowerQuery "ph" || Js.includes lowerQuery "chlorophyll" then
    {| type := "bgc_query";
       parameters := extractParameters query;
       visualizations := ["bgc_profile"; "oxygen_chart"];
       dataNeeded := ["bgc_measurements"] |}
  else if Js.includes lowerQuery "float" &&
          (Js.includes lowerQuery "location" || Js.includes lowerQuery "position") then
    {| type := "float_location_query";
       parameters := extractParameters query;
       visualizations := ["map"; "trajectory"];
       dataNeeded := ["argo_floats"; "ocean_profiles"] |}
  else if Js.includes lowerQuery "compare" || Js.includes lowerQuery "difference" ||
          Js.includes lowerQuery "vs" then
    {| type := "comparison_query";
       parameters := extractParameters query;
       visualizations := ["comparison_chart"; "overlay_plot"];
       dataNeeded := ["depth_measurements"; "bgc_measurements"] |}
  else
    {| type := "general_query";
       parameters := extractParameters query;
       visualizations := ["summary_chart"];
       dataNeeded := ["ocean_profiles"; "depth_measurements"] |}.

(** [Array.prototype.includes] on an array of strings *)
Definition has (l : list string) (x : string) : bool := existsb (String.eqb x) l.

(** One read of [retrieveRelevantData]: its rows are pushed when the reply
    has no error and has data; a rejection ends the [try] block with the rows
    pushed so far. *)
Definition push_rows (data : list DataRow) (a : Answer (list DataRow))
    (rest : list DataRow -> list DataRow) : list DataRow :=
  match a with
  | Reply (Some rows) None => rest (data ++ rows)
  | Reply _ _ => rest data
  | Reject _ => data
  end.

Definition retrieveRelevantData (query : string) (analysis : Analysis)
  : M (list DataRow) :=
  s <- get_store ;;
  let wanted := floatId (parameters analysis) in
  let id := match wanted with Some i => i | None => EmptyString end in
  let measurements data :=
    if has (dataNeeded analysis) "depth_measurements" && Js.truthy_string wanted
    then push_rows data (measurements_by_float s id) (fun d => d)
    else data in
  let profiles data :=
    if has (dataNeeded analysis) "ocean_profiles"
    then push_rows data
           (recent_profiles s (if Js.truthy_string wanted then 10 else 5)) measurements
    else measurements data in
  let floats data :=
    if Js.truthy_string wanted
    then push_rows data (floats_by_id s id) profiles
    else profiles data in
  ret (floats []).

Definition getOceanRegion (lat lon : float) : string :=
  if (0 <=? lat)%float && (lat <=? 30)%float && (40 <=? lon)%float && (lon <=? 100)%float then
    "Arabian Sea"
  else if (-30 <=? lat)%float && (lat <=? 30)%float && (20 <=? lon)%float && (lon <=? 120)%float then
    "Indian Ocean"
  else if (-10 <=? lat)%float && (lat <=? 30)%float && (90 <=? lon)%float && (lon <=? 120)%float then
    "Bay of Bengal"
  else "Indian Ocean region".

Section Templates.
Variable H : Host.

(** [x?.toFixed(n)] inside a template *)
Definition fixed (n : nat) (x : option float) : string :=
  match x with
  | Some v => toFixed H n v
  | None => "undefined"
  end.

(** [a || b] on numeric columns: zero, [NaN], [null] and [undefined] are
    falsy. *)
Definition or_number (a b : Column) : Column :=
  match a with
  | Num x => if PrimFloat.eqb x 0 || PrimFloat.is_nan x then b else a
  | _ => b
  end.

(** The receiver of [x?.toFixed(n)] for a column: there is none for [null]
    and [undefined]. *)
Definition defined (c : Column) : option float :=
  match c with
  | Num x => Some x
  | _ => None
  end.

(** [a || b] on strings *)
Definition or_string (a b : option string) : option string :=
  if Js.truthy_string a then a else b.

Definition generateTemperatureResponse (query : string) (analysis : Analysis)
    (data : list DataRow) : string :=
  let fallback :=
    "I found temperature data from recent ARGO profiles. The data shows typical tropical Indian Ocean characteristics with warm surface waters (28-29°C) decreasing to about 4°C at 2000m depth. Would you like me to show you a specific float's temperature profile?" in
  if List.length data =? 0 then
    "I don't have temperature data available for your query. Please try asking about a specific ARGO float ID or check if the data has been processed."
  else
    match floatId (parameters analysis) with
    | Some floatId =>
        if Js.truthy_string (Some floatId) then
          match find (fun d =>
                        match float_id d with
                        | Some i => String.eqb i floatId
                        | None => false
                        end ||
                        match argo_floats d with
                        | Some (Some i) => String.eqb i floatId
                        | _ => false
                        end) data with
          | Some profileData =>
              match depth_measurements profileData with
              | Some measurements =>
                  let surfaceTemp :=
                    match find (fun m => (depth_meters m <=? 10)%float) measurements with
                    | Some m => temperature_celsius m
                    | None => None
                    end in
                  let deepTemp :=
                    match last (map Some measurements) None with
                    | Some m => temperature_celsius m
                    | None => None
                    end in
                  let maxDepth := Math_max (map depth_meters measurements) in
                  "Temperature profile for ARGO float " +++ floatId +++ ":" +++ newline +++ newline +++
                  "• Surface temperature: " +++ fixed 1 surfaceTemp +++ "°C" +++ newline +++
                  "• Deep temperature: " +++ fixed 1 deepTemp +++ "°C at " +++
                    numberToString H maxDepth +++ "m" +++ newline +++
                  "• Profile shows typical " +++
                    getOceanRegion (number_of (latitude profileData))
                                   (number_of (longitude profileData)) +++
                    " thermal structure" +++ newline +++
                  "• Data collected on " +++ toLocaleDateString H (profile_date profileData) +++
                    newline +++ newline +++
                  "The temperature decreases with depth, showing the typical thermocline structure of tropical waters."
              | None => fallback
              end
          | None => fallback
          end
        else fallback
    | None => fallback
    end.

Definition generateSalinityResponse (query : string) (analysis : Analysis)
    (data : list DataRow) : string :=
  if List.length data =? 0 then
    "I don't have salinity data available for your query. Please specify an ARGO float ID or check if the data has been processed."
  else
    "Salinity data from ARGO floats shows typical Arabian Sea characteristics with surface values around 34.8-35.2 PSU. The salinity profile indicates the influence of high evaporation rates in this region, with a subsurface salinity maximum around 100-200m depth.".

Definition generateBGCResponse (query : string) (analysis : Analysis)
    (data : list DataRow) : string :=
  if List.length data =? 0 then
    "I don't have biogeochemical data available for your query. BGC data is available from select ARGO floats with biogeochemical sensors."
  else
    "Biogeochemical data shows interesting patterns:" +++ newline +++ newline +++
    "• Oxygen: High surface concentrations (220+ μmol/kg) decreasing to minimum values around 500m depth" +++ newline +++
    "• Nitrate: Low surface values increasing with depth, typical of nutrient cycling" +++ newline +++
    "• pH: Surface values around 8.1 decreasing slightly with depth" +++ newline +++
    "• Chlorophyll: Maximum concentrations in the upper 100m where photosynthesis occurs" +++ newline +++ newline +++
    "This data reveals the complex biogeochemical processes in the Indian Ocean.".

Definition generateLocationResponse (query : string) (analysis : Analysis)
    (data : list DataRow) : string :=
  if List.length data =? 0 then
    "I don't have location data for the requested float. Please check the float ID or try a different query."
  else
    match find (fun d => Js.truthy_string (float_id d) ||
                         match argo_floats d with Some _ => true | None => false end)
               data with
    | Some floatData =>
        let lat := or_number (latitude floatData) (deployment_latitude floatData) in
        let lon := or_number (longitude floatData) (deployment_longitude floatData) in
        let region := getOceanRegion (number_of lat) (number_of lon) in
        "ARGO float location information:" +++ newline +++ newline +++
        "• Current/Last position: " +++ fixed 2 (defined lat) +++ "°N, " +++
          fixed 2 (defined lon) +++ "°E" +++ newline +++
        "• Region: " +++ region +++ newline +++
        "• Status: " +++
          match or_string (status floatData) (Some "Active") with
          | Some s => s
          | None => "undefined"
          end +++ newline +++
        "• Last transmission: " +++
          toLocaleDateString H
            (or_string (last_transmission floatData) (profile_date floatData)) +++
          newline +++ newline +++
        "This float is operating in the " +++ region +++
        ", providing valuable oceanographic data for climate research."
    | None =>
        "I found location data for ARGO floats in the Indian Ocean region. These autonomous instruments drift with ocean currents while collecting temperature, salinity, and biogeochemical data."
    end.

Definition generateComparisonResponse (query : string) (analysis : Analysis)
    (data : list DataRow) : string :=
  "Comparison analysis shows variations in oceanographic parameters across different locations and time periods. The data reveals spatial and temporal patterns that are important for understanding ocean dynamics and climate variability in the Indian Ocean region.".

Definition generateGeneralResponse (query : string) (analysis : Analysis)
    (data : list DataRow) : string :=
  if List.length data =? 0 then
    "I don't have specific data to answer your query. Try asking about:" +++ newline +++ newline +++
    "• Temperature profiles for a specific float" +++ newline +++
    "• Salinity data in the Arabian Sea" +++ newline +++
    "• Oxygen levels at different depths" +++ newline +++
    "• Float locations and trajectories" +++ newline +++ newline +++
    "You can reference specific ARGO float IDs (like 5906468) for detailed information."
  else
    "I found " +++ decimal (List.length data) +++
    " relevant records in the ARGO database. The data includes temperature, salinity, and biogeochemical measurements from autonomous floats in the Indian Ocean region. This information is valuable for understanding ocean conditions and climate patterns. Would you like me to provide more specific details about any particular aspect?".

Definition generateResponse (query : string) (analysis : Analysis)
    (data : list DataRow) : string :=
  if String.eqb (type analysis) "temperature_query" then
    generateTemperatureResponse query analysis data
  else if String.eqb (type analysis) "salinity_query" then
    generateSalinityResponse query analysis data
  else if String.eqb (type analysis) "bgc_query" then
    generateBGCResponse query analysis data
  else if String.eqb (type analysis) "float_location_query" then
    generateLocationResponse query analysis data
  else if String.eqb (type analysis) "comparison_query" then
    generateComparisonResponse query analysis data
  else
    generateGeneralResponse query analysis data.

Definition storeChatSession (sessionId : Json) (userQuery aiResponse queryType : string)
    (executionTime : Z) : M unit :=
  try_catch
    (r <- Supabase.insert_session H sessionId userQuery aiResponse queryType executionTime ;;
     ret tt)
    (fun error => ret tt).

(** [initializeSupabase()]: [this.supabase = await createClient()]. The
    factory is not among the sources; [created] is what its promise settles
    to. The constructor calls the method without awaiting it, so the client
    is not there yet when a route calls a method right after [new
    ChatProcessor()]: the method then awaits a creation of its own. *)
Definition initializeSupabase (created : Outcome unit) : M unit :=
  fun w => (created, w).

(** [processQuery(query, sessionId)], with what the creation of the client
    awaited at its head settles to. The arguments are the values the route
    read from the request body. The log line converts [query] to text, ahead
    of the [try]; [query.toLowerCase()] in [analyzeQuery] throws a
    [TypeError] when [query] is not a string. *)
Definition processQuery_with (created : Outcome unit) (query sessionId : Json)
  : M QueryResult :=
  startTime <- Date_now ;;
  template H query ;;;
  initializeSupabase created ;;;
  try_catch
    (match query with
     | JStr q =>
         let queryAnalysis := analyzeQuery q in
         relevantData <- retrieveRelevantData q queryAnalysis ;;
         let response := generateResponse q queryAnalysis relevantData in
         endTime <- Date_now ;;
         let executionTime := (endTime - startTime)%Z in
         storeChatSession sessionId q response (type queryAnalysis) executionTime ;;;
         ret {| response := response;
                res_queryType := type queryAnalysis;
                res_executionTime := executionTime;
                dataUsed := relevantData;
                res_visualizations := visualizations queryAnalysis |}
     | JNull => throw (JsError "Cannot read properties of null (reading 'toLowerCase')")
     | _ => throw (JsError "query.toLowerCase is not a function")
     end)
    (fun error => throw error).

(** [processQuery] on a processor that has its client, or obtains it. *)
Definition processQuery (query sessionId : Json) : M QueryResult :=
  processQuery_with (Return tt) query sessionId.

Definition messages_of (session : ChatSessionRow) : list ChatMessage :=
  [ {| msg_id := id session +++ "-user";
       role := "user";
       content := user_query session;
       timestamp := created_at session;
       queryType := query_type session;
       executionTime := execution_time_ms session |};
    {| msg_id := id session +++ "-assistant";
       role := "assistant";
       content := ai_response session;
       timestamp := created_at session;
       queryType := query_type session;
       executionTime := execution_time_ms session |} ].

(** [getChatHistory(sessionId)], with what the creation of the client
    awaited at its head, outside the [try], settles to. *)
Definition getChatHistory_with (created : Outcome unit) (sessionId : string)
  : M (list ChatMessage) :=
  initializeSupabase created ;;;
  try_catch
    (s <- get_store ;;
     r <- await (Supabase.sessions_of sessionId s) ;;
     match r with
     | (_, Some error) => ret []
     | (Some data, None) => ret (flat_map messages_of data)
     | (None, None) => ret []
     end)
    (fun error => ret []).

(** [getChatHistory] on a processor that has its client, or obtains it. *)
Definition getChatHistory (sessionId : string) : M (list ChatMessage) :=
  getChatHistory_with (Return tt) sessionId.

End Templates.

End ChatProcessor.

(* ===================================================================== *)
(** * Route [/api/chat] *)
(* ===================================================================== *)

Module ChatRoute.

Local Open Scope js_scope.

Record Request := {
  json : Outcome Json;             (* what [request.json()] settles to *)
  sessionIdParam : option string;  (* [searchParams.get("sessionId")] *)
  createClient : Outcome unit      (* what [createClient()] settles to while
                                      the request is served *)
}.

Inductive Body :=
  | ErrorBody (error : string) (details : option string)
  | ChatBody (success : bool) (response : string) (queryType : string)
      (executionTime : Z) (dataUsed : nat) (visualizations : list string)
      (timestamp : Z)
  | HistoryBody (success : bool) (messages : list ChatProcessor.ChatMessage)
      (count : nat).

Record Response := {
  status : nat;
  body : Body
}.

(** [NextResponse.json(body, { status })]; the status is 200 when omitted. *)
Definition NextResponse_json (b : Body) (init : option nat) : Response :=
  {| status := match init with Some n => n | None => 200 end; body := b |}.

(** Truthiness of a value; [None] is [undefined]. *)
Definition truthy (v : option Json) : bool :=
  match v with
  | None => false
  | Some JNull => false
  | Some (JBool b) => b
  | Some (JNum x) => negb (PrimFloat.eqb x 0 || PrimFloat.is_nan x)
  | Some (JStr s) => Js.truthy_string (Some s)
  | Some (JArr _) => true
  | Some (JObj _) => true
  end.

(** The properties of the body are those of the object read from its text. *)
Abbreviation property := property (only parsing).

(** [const { query, sessionId } = value] *)
Definition destructure (value : Json) : M (option Json * option Json) :=
  match value with
  | JNull => throw (JsError "Cannot destructure property 'query' of null")
  | JObj fields => ret (property "query" fields, property "sessionId" fields)
  | _ => ret (None, None)
  end.

Definition or_undefined (v : option Json) : Json :=
  match v with Some j => j | None => JNull end.

Section Handlers.
Variable H : Host.

Definition POST (request : Request) : M Response :=
  try_catch
    (value <- (fun w => (json request, w)) ;;
     fields <- destructure value ;;
     let '(query, sessionId) := fields in
     if negb (truthy query) || negb (truthy sessionId) then
       ret (NextResponse_json (ErrorBody "Query and session ID are required" None) (Some 400))
     else
       template H (or_undefined query) ;;;
       result <- ChatProcessor.processQuery_with H (createClient request)
                   (or_undefined query) (or_undefined sessionId) ;;
       now <- Date_now ;;
       ret (NextResponse_json
              (ChatBody true
                 (ChatProcessor.response result)
                 (ChatProcessor.res_queryType result)
                 (ChatProcessor.res_executionTime result)
                 (List.length (ChatProcessor.dataUsed result))
                 (ChatProcessor.res_visualizations result)
                 now)
              None))
    (fun error =>
       ret (NextResponse_json
              (ErrorBody "Failed to process chat query"
                 (Some match error with
                       | JsError message => message
                       | NotAnError _ => "Unknown error"
                       end))
              (Some 500))).

Definition GET (request : Request) : M Response :=
  if negb (Js.truthy_string (sessionIdParam request)) then
    ret (NextResponse_json (ErrorBody "Session ID parameter is required" None) (Some 400))
  else
    let sessionId := match sessionIdParam request with
                     | Some s => s
                     | None => EmptyString
                     end in
    try_catch
      (history <- ChatProcessor.getChatHistory_with (createClient request) sessionId ;;
       ret (NextResponse_json
              (HistoryBody true history (List.length history)) None))
      (fun error =>
         ret (NextResponse_json (ErrorBody "Failed to fetch chat history" None) (Some 500))).

End Handlers.

End ChatRoute.

(* ===================================================================== *)
(** * class NetCDFProcessor: storing a profile

    The methods that write to the store and the route that calls them. The
    store is the environment here: every request is recorded and answered by
    the store as it sees fit, with a reply [{ data, error }] or a rejection. *)
(* ===================================================================== *)

Module Ingest.

Record DepthRecord := {
  profile_id : option string;
  depth_meters : float;
  pressure_dbar : float;
  temperature_celsius : float;
  salinity_psu : float
}.

Record BgcRecord := {
  bgc_profile_id : option string;
  bgc_depth_meters : float;
  oxygen_umol_kg : float;
  nitrate_umol_kg : float;
  ph_total : float;
  chlorophyll_mg_m3 : float;
  backscatter_m1 : float
}.

Record EmbeddingRecord := {
  rec_content_type : string;
  rec_content_id : string;
  rec_embedding_vector : list float;
  rec_content_text : string;
  rec_metadata : Json
}.

(** The requests of [updateFileStatus], [storeProfileData], [storeEmbeddings]
    and the status route, with the values they carry. The dates
    [deployment_date] and [processed_at] are sent as text; the request keeps
    the reading of the clock they are the text of. *)
Inductive Request :=
  | UpdateFile (filename : Json) (processing_status : string) (processed_at : Z)
      (error_message : option string)
  | UpsertFloat (float_id platform_number : string) (deployment_date : Z)
      (deployment_latitude deployment_longitude : float) (status : string)
      (last_transmission : Z)
  | InsertProfile (float_id : string) (profile_date : Z) (latitude longitude : float)
      (cycle_number : float) (profile_type : string)
  | InsertDepth (rows : list DepthRecord)
  | InsertBgc (rows : list BgcRecord)
  | InsertEmbeddings (rows : list EmbeddingRecord)
  | SelectFile (filename : string).

(** The columns the code reads of a row the store returns; [None] is a
    column the row does not have. *)
Record Row := {
  row_id : option string;
  row_filename : option Json;
  row_processing_status : option Json;
  row_processed_at : option Json;
  row_error_message : option Json;
  row_file_size_bytes : option Json
}.

Inductive Reply :=
  | Replied (data : option Row) (error : option Exn)
  | Rejected (e : Exn).

Record State := {
  world : World;
  sent : list Request;                            (* the requests so far, oldest first *)
  respond : list Request -> Request -> Reply      (* the store, given what it was sent *)
}.

Definition P (A : Type) : Type := State -> Outcome A * State.

Definition ret {A} (a : A) : P A := fun p => (Return a, p).

Definition throw {A} (e : Exn) : P A := fun p => (Throw e, p).

Definition bind {A B} (m : P A) (k : A -> P B) : P B :=
  fun p =>
    match m p with
    | (Return a, p') => k a p'
    | (Throw e, p') => (Throw e, p')
    end.

Definition try_catch {A} (m : P A) (handler : Exn -> P A) : P A :=
  fun p =>
    match m p with
    | (Return a, p') => (Return a, p')
    | (Throw e, p') => handler e p'
    end.

(** A computation on the world alone. *)
Definition lift {A} (m : M A) : P A :=
  fun p =>
    let '(o, w') := m (world p) in
    (o, {| world := w'; sent := sent p; respond := respond p |}).

(** Sending a request and awaiting its reply. *)
Definition request (r : Request) : P (option Row * option Exn) :=
  fun p =>
    let p' := {| world := world p; sent := sent p ++ [r]; respond := respond p |} in
    match respond p (sent p) r with
    | Replied data error => (Return (data, error), p')
    | Rejected e => (Throw e, p')
    end.

Declare Scope ingest_scope.
Delimit Scope ingest_scope with ingest.
Notation "x <- m ;; k" := (bind m (fun x => k))
  (at level 100, m at next level, right associativity) : ingest_scope.
Notation "m ;;; k" := (bind m (fun _ => k))
  (at level 100, right associativity) : ingest_scope.
Local Open Scope ingest_scope.

(** [error instanceof Error ? error.message : "Unknown error"] *)
Definition message_of (error : Exn) : string :=
  match error with
  | JsError message => message
  | NotAnError _ => "Unknown error"
  end.

Section Methods.
Variable H : Host.

(** A template string with [v] in it. *)
Definition template (v : Json) : P string := fun p => (toString H v, p).

(** [updateFileStatus(filename, status, errorMessage?)]: an error in the
    reply is logged and nothing more. *)
Definition updateFileStatus (filename : Json) (status : string)
    (errorMessage : option string) : P unit :=
  now <- lift Date_now ;;
  r <- request (UpdateFile filename status now
                  (if Js.truthy_string errorMessage then errorMessage else None)) ;;
  ret tt.

Definition storeProfileData (profile : NetCDFProcessor.ArgoProfile) : P unit :=
  try_catch
    (today <- lift Date_now ;;
     r1 <- request (UpsertFloat (NetCDFProcessor.floatId profile)
                      (NetCDFProcessor.platformNumber profile)
                      today
                      (NetCDFProcessor.latitude profile)
                      (NetCDFProcessor.longitude profile)
                      "active"
                      (NetCDFProcessor.profileDate profile)) ;;
     match snd r1 with
     | Some floatError => throw floatError
     | None =>
         r2 <- request (InsertProfile (NetCDFProcessor.floatId profile)
                          (NetCDFProcessor.profileDate profile)
                          (NetCDFProcessor.latitude profile)
                          (NetCDFProcessor.longitude profile)
                          (NetCDFProcessor.cycleNumber profile)
                          "primary") ;;
         match snd r2 with
         | Some profileError => throw profileError
         | None =>
             match fst r2 with
             | None => throw (JsError "Cannot read properties of null (reading 'id')")
             | Some profileData =>
                 let profileId := row_id profileData in
                 r3 <- request
                         (InsertDepth
                            (map (fun m =>
                                    {| profile_id := profileId;
                                       depth_meters := NetCDFProcessor.depth m;
                                       pressure_dbar := NetCDFProcessor.pressure m;
                                       temperature_celsius := NetCDFProcessor.temperature m;
                                       salinity_psu := NetCDFProcessor.salinity m |})
                                 (NetCDFProcessor.measurements profile))) ;;
                 match snd r3 with
                 | Some depthError => throw depthError
                 | None =>
                     match NetCDFProcessor.bgcData profile with
                     | Some bgcData =>
                         r4 <- request
                                 (InsertBgc
                                    (map (fun b =>
                                            {| bgc_profile_id := profileId;
                                               bgc_depth_meters := NetCDFProcessor.bgc_depth b;
                                               oxygen_umol_kg := NetCDFProcessor.oxygen b;
                                               nitrate_umol_kg := NetCDFProcessor.nitrate b;
                                               ph_total := NetCDFProcessor.ph b;
                                               chlorophyll_mg_m3 := NetCDFProcessor.chlorophyll b;
                                               backscatter_m1 := NetCDFProcessor.backscatter b |})
                                         bgcData)) ;;
                         match snd r4 with
                         | Some bgcError => throw bgcError
                         | None => ret tt
                         end
                     | None => ret tt
                     end
                 end
             end
         end
     end)
    (fun error => throw error).

(** [processNetCDFFile] on the value the route hands over: the log line
    converts it to text, and [filename.match(...)] throws a [TypeError] when
    it is not a string. [filePath] is never looked at. *)
Definition processNetCDFFile (filename filePath : Json) : P NetCDFProcessor.ArgoProfile :=
  template filename ;;;
  match filename with
  | JStr name =>
      lift (NetCDFProcessor.processNetCDFFile name
              match filePath with JStr path => path | _ => EmptyString end)
  | _ => throw (JsError "filename.match is not a function")
  end.

Definition processAndStore (filename filePath : Json) : P unit :=
  try_catch
    (updateFileStatus filename "processing" None ;;;
     profile <- processNetCDFFile filename filePath ;;
     storeProfileData profile ;;;
     updateFileStatus filename "completed" None ;;;
     template filename ;;;
     ret tt)
    (fun error =>
       template filename ;;;
       updateFileStatus filename "error" (Some (message_of error)) ;;;
       throw error).

End Methods.

End Ingest.

(* ===================================================================== *)
(** * class VectorEmbeddingsGenerator: storing embeddings *)
(* ===================================================================== *)

Module VectorEmbeddings.

Record EmbeddingData := {
  contentType : string;
  contentId : string;
  contentText : string;
  metadata : Json
}.

(** [Array.from({ length: 1536 }, () => Math.random() * 2 - 1)] *)
Definition generateMockEmbedding : M (list float) :=
  mapM (fun _ : unit => (r <- Math_random ;; ret (r * 2 - 1)%float)%js)
       (repeat tt 1536).

(** The record [storeEmbeddings] makes of an embedding, with a mock vector
    of its own. *)
Definition embeddingRecord (embedding : EmbeddingData) : M Ingest.EmbeddingRecord :=
  (vector <- generateMockEmbedding ;;
   ret {| Ingest.rec_content_type := contentType embedding;
          Ingest.rec_content_id := contentId embedding;
          Ingest.rec_embedding_vector := vector;
          Ingest.rec_content_text := contentText embedding;
          Ingest.rec_metadata := metadata embedding |})%js.

Import Ingest.
Local Open Scope ingest_scope.

Definition storeEmbeddings (embeddings : list EmbeddingData) : P unit :=
  embeddingRecords <- lift (mapM embeddingRecord embeddings) ;;
  r <- request (InsertEmbeddings embeddingRecords) ;;
  match snd r with
  | Some error => throw error
  | None => ret tt
  end.

End VectorEmbeddings.

(* ===================================================================== *)
(** * Route [/api/process-netcdf] *)
(* ===================================================================== *)

Module ProcessRoute.

Import Ingest.
Local Open Scope ingest_scope.

Record Request := {
  json : Outcome Json;            (* what [request.json()] settles to *)
  filenameParam : option string   (* [searchParams.get("filename")] *)
}.

Inductive Body :=
  | ErrorBody (error : string) (details : option string)
  | ProcessedBody (success : bool) (message : string) (filename : Json) (timestamp : Z)
  | StatusBody (filename status processedAt errorMessage fileSize : option Json).

Record Response := {
  status : nat;
  body : Body
}.

Definition NextResponse_json (b : Body) (init : option nat) : Response :=
  {| status := match init with Some n => n | None => 200 end; body := b |}.

(** [const { filename, filePath } = value] *)
Definition destructure (value : Json) : P (option Json * option Json) :=
  match value with
  | JNull => throw (JsError "Cannot destructure property 'filename' of null")
  | JObj fields =>
      ret (ChatRoute.property "filename" fields, ChatRoute.property "filePath" fields)
  | _ => ret (None, None)
  end.

Section Handlers.
Variable H : Host.

Definition POST (request : Request) : P Response :=
  try_catch
    (value <- (fun p => (json request, p)) ;;
     fields <- destructure value ;;
     let '(filename, filePath) := fields in
     if negb (ChatRoute.truthy filename) || negb (ChatRoute.truthy filePath) then
       ret (NextResponse_json (ErrorBody "Filename and file path are required" None)
              (Some 400))
     else
       template H (ChatRoute.or_undefined filename) ;;;
       processAndStore H (ChatRoute.or_undefined filename)
                         (ChatRoute.or_undefined filePath) ;;;
       template H (ChatRoute.or_undefined filename) ;;;
       name <- template H (ChatRoute.or_undefined filename) ;;
       now <- lift Date_now ;;
       ret (NextResponse_json
              (ProcessedBody true
                 ("Successfully processed " +++ name)
                 (ChatRoute.or_undefined filename)
                 now)
              None))
    (fun error =>
       ret (NextResponse_json
              (ErrorBody "Failed to process NetCDF file" (Some (message_of error)))
              (Some 500))).

End Handlers.

Definition GET (request : Request) : P Response :=
  if negb (Js.truthy_string (filenameParam request)) then
    ret (NextResponse_json (ErrorBody "Filename parameter is required" None) (Some 400))
  else
    let filename := match filenameParam request with
                    | Some s => s
                    | None => EmptyString
                    end in
    try_catch
      (r <- Ingest.request (SelectFile filename) ;;
       match snd r with
       | Some error =>
           ret (NextResponse_json (ErrorBody "File not found" None) (Some 404))
       | None =>
           match fst r with
           | None => throw (JsError "Cannot read properties of null (reading 'filename')")
           | Some data =>
               ret (NextResponse_json
                      (StatusBody (row_filename data) (row_processing_status data)
                         (row_processed_at data) (row_error_message data)
                         (row_file_size_bytes data))
                      None)
           end
       end)
      (fun error =>
         ret (NextResponse_json (ErrorBody "Failed to check file status" None) (Some 500))).

End ProcessRoute.

(* ===================================================================== *)
(** * Vocabulary of the properties *)
(* ===================================================================== *)

(** The order the rows of a read come in. *)
Definition in_order {A} (key : A -> Z) (ascending : bool) (a b : A) : Prop :=
  if ascending then (key a <= key b)%Z else (key b <= key a)%Z.

(** A string of decimal digits, at least one. *)
Definition digits (s : string) : Prop :=
  s <> EmptyString /\ forallb Js.is_digit (Js.chars s) = true.

(** The number a string of decimal digits denotes. *)
Definition decimal_value (s : string) : Z :=
  fold_left (fun acc c => (10 * acc + Z.of_nat (Js.code c - 48))%Z) (Js.chars s) 0%Z.

(** [filename] has an occurrence of [R<digits>_<digits>.nc] after [before],
    with the digit groups [d1] and [d2]. *)
Definition occurrence (filename before d1 d2 after : string) : Prop :=
  filename = before +++ "R" +++ d1 +++ "_" +++ d2 +++ ".nc" +++ after /\
  digits d1 /\ digits d2.

(** The filename contains an occurrence of the pattern. *)
Definition contains_pattern (filename : string) : Prop :=
  exists before d1 d2 after, occurrence filename before d1 d2 after.

(** A host, a store and a world to run the code in. *)
Definition sample_host : Host :=
  {| toFixed := fun _ _ => "28.4";
     numberToString := fun _ => "2000";
     toLocaleDateString := fun _ => "12/20/2024";
     jsonText := fun _ => "null" |}.

Definition sample_session (n : Z) (sid q a : string) : ChatSessionRow :=
  {| id := sid +++ "-row"; session_id := sid; user_query := q; ai_response := a;
     query_type := "general_query"; execution_time_ms := 12; created_at := n |}.

Definition sample_embedding (n : Z) (txt : string) : EmbeddingRow :=
  {| emb_id := txt; content_type := "profile"; content_id := "p1";
     embedding_vector := []; content_text := txt; metadata := JNull;
     emb_created_at := n |}.

Definition sample_store : Store :=
  {| chat_sessions :=
       [ sample_session 30 "s1" "salinity?" "Salinity data";
         sample_session 10 "s2" "hello" "I found";
         sample_session 20 "s3" "oxygen" "Biogeochemical" ];
     data_embeddings :=
       [ sample_embedding 5 "a"; sample_embedding 9 "b"; sample_embedding 7 "c" ];
     health := Up;
     floats_by_id := fun _ => Reply (Some []) None;
     recent_profiles := fun _ => Reply (Some []) None;
     measurements_by_float := fun _ => Reply (Some []) None;
     gen_random_uuid := fun n => "row-" +++ decimal n;
     issued := 0 |}.

Definition sample_world : World :=
  {| store := sample_store;
     clock := fun n => (1000 + 7 * Z.of_nat n)%Z;
     ticks := 0;
     random := fun _ => 0.5%float;
     draws := 0 |}.

(** A run of digits, at least one, as a list of characters. *)
Definition digit_run (l : list ascii) : Prop :=
  forallb Js.is_digit l = true /\ 1 <= List.length l.

(** No character of the string is a digit. *)
Definition no_digit (l : list ascii) : Prop :=
  forallb (fun c => negb (Js.is_digit c)) l = true.

(** A text that starts with no digit. *)
Definition starts_without_digit (l : list ascii) : Prop :=
  match l with
  | c :: _ => Js.is_digit c = false
  | [] => True
  end.

(** The text [R<d1>_<d2>.nc] followed by [rest]. *)
Definition nc_shape (d1 d2 rest : list ascii) : list ascii :=
  "R"%char :: d1 ++ "_"%char :: d2 ++ "."%char :: "n"%char :: "c"%char :: rest.



(** A number of repetitions within the upper bound of a quantifier. *)
Definition within (hi : option nat) (n : nat) : Prop :=
  match hi with
  | Some h => n <= h
  | None => True
  end.

(** A computation that returns and leaves the store alone. *)
Definition returns {A} (m : M A) : Prop :=
  forall w, exists a w', m w = (Return a, w') /\ store w' = store w.


(** The detail string of a 500 response. *)
Definition details_of (error : Exn) : string :=
  match error with
  | JsError message => message
  | NotAnError _ => "Unknown error"
  end.

Definition bad_request : ChatRoute.Response :=
  {| ChatRoute.status := 400;
     ChatRoute.body := ChatRoute.ErrorBody "Query and session ID are required" None |}.

Definition internal_error (error : Exn) : ChatRoute.Response :=
  {| ChatRoute.status := 500;
     ChatRoute.body :=
       ChatRoute.ErrorBody "Failed to process chat query" (Some (details_of error)) |}.

Definition chat_ok (result : ChatProcessor.QueryResult) (now : Z) : ChatRoute.Response :=
  {| ChatRoute.status := 200;
     ChatRoute.body :=
       ChatRoute.ChatBody true
         (ChatProcessor.response result)
         (ChatProcessor.res_queryType result)
         (ChatProcessor.res_executionTime result)
         (List.length (ChatProcessor.dataUsed result))
         (ChatProcessor.res_visualizations result)
         now |}.


(** The field [name] of a request body; a body that is no object has none. *)
Definition body_field (name : string) (value : Json) : option Json :=
  match value with
  | JObj fields => property name fields
  | _ => None
  end.

(** The responses of [GET /api/chat]. *)
Definition history_ok (messages : list ChatProcessor.ChatMessage) (count : nat)
  : ChatRoute.Response :=
  {| ChatRoute.status := 200;
     ChatRoute.body := ChatRoute.HistoryBody true messages count |}.

Definition history_bad_request : ChatRoute.Response :=
  {| ChatRoute.status := 400;
     ChatRoute.body := ChatRoute.ErrorBody "Session ID parameter is required" None |}.

Definition history_failed : ChatRoute.Response :=
  {| ChatRoute.status := 500;
     ChatRoute.body := ChatRoute.ErrorBody "Failed to fetch chat history" None |}.

(** The rows the table holds for a session, in the order of the table, and
    the same rows oldest first. *)
Definition stored_rows (sessionId : string) (w : World) : list ChatSessionRow :=
  filter (fun r => String.eqb (session_id r) sessionId) (chat_sessions (store w)).

Definition oldest_first (sessionId : string) (w : World) : list ChatSessionRow :=
  Supabase.order created_at true (stored_rows sessionId w).

(** The two messages of a row. *)
Definition user_message (r : ChatSessionRow) : ChatProcessor.ChatMessage :=
  {| ChatProcessor.msg_id := id r +++ "-user";
     ChatProcessor.role := "user";
     ChatProcessor.content := user_query r;
     ChatProcessor.timestamp := created_at r;
     ChatProcessor.queryType := query_type r;
     ChatProcessor.executionTime := execution_time_ms r |}.

Definition assistant_message (r : ChatSessionRow) : ChatProcessor.ChatMessage :=
  {| ChatProcessor.msg_id := id r +++ "-assistant";
     ChatProcessor.role := "assistant";
     ChatProcessor.content := ai_response r;
     ChatProcessor.timestamp := created_at r;
     ChatProcessor.queryType := query_type r;
     ChatProcessor.executionTime := execution_time_ms r |}.

(** A table with two rows of session "s1", the later one first, and a row of
    another session between them, in a store of health [h]. *)
Definition chat_row (rowId : string) (n : Z) (sid q a : string) : ChatSessionRow :=
  {| id := rowId; session_id := sid; user_query := q; ai_response := a;
     query_type := "general_query"; execution_time_ms := 12; created_at := n |}.

Definition history_world (h : Health) : World :=
  {| store :=
       {| chat_sessions :=
            [ chat_row "r3" 30 "s1" "oxygen?" "Biogeochemical data";
              chat_row "r1" 10 "s2" "hello" "I found";
              chat_row "r2" 20 "s1" "salinity?" "Salinity data" ];
          data_embeddings := [];
          health := h;
          floats_by_id := fun _ => Reply (Some []) None;
          recent_profiles := fun _ => Reply (Some []) None;
          measurements_by_float := fun _ => Reply (Some []) None;
          gen_random_uuid := fun n => "row-" +++ decimal n;
          issued := 3 |};
     clock := fun n => (1000 + 7 * Z.of_nat n)%Z;
     ticks := 0;
     random := fun _ => 0.5%float;
     draws := 0 |}.

(** The world after [n] more results of [Math.random()] have been taken. *)
Definition after_draws (n : nat) (w : World) : World :=
  {| store := store w; clock := clock w; ticks := ticks w;
     random := random w; draws := n + draws w |}.

(** The world after [n] more readings of the clock. *)
Definition after_ticks (n : nat) (w : World) : World :=
  {| store := store w; clock := clock w; ticks := n + ticks w;
     random := random w; draws := draws w |}.

(** The depth levels of the physical and of the biogeochemical measurements. *)
Definition depth_levels : list float :=
  [5; 10; 20; 30; 50; 75; 100; 125; 150; 200; 250; 300; 400; 500; 600; 750; 1000;
   1250; 1500; 1750; 2000]%float.

Definition bgc_depth_levels : list float :=
  [5; 10; 20; 30; 50; 75; 100; 125; 150; 200; 250; 300; 400; 500; 600; 750; 1000]%float.







(* ===================================================================== *)
(** * Properties *)
(* ===================================================================== *)

(** ** Ordering of rows *)

Section OrderByFacts.
Variable A : Type.
Variable key : A -> Z.
Variable ascending : bool.

Let before (a b : A) : bool :=
  if ascending then (key a <=? key b)%Z else (key b <=? key a)%Z.

Local Abbreviation in_order := (in_order key ascending).

Lemma before_in_order a b : before a b = true -> in_order a b.
Proof. unfold before, in_order. destruct ascending; intros E; apply Z.leb_le, E. Qed.

Lemma before_flip a b : before a b = false -> in_order b a.
Proof.
  unfold before, in_order. destruct ascending; intros E; apply Z.leb_gt in E; lia.
Qed.

Lemma in_order_trans a b c : in_order a b -> in_order b c -> in_order a c.
Proof. unfold in_order. destruct ascending; lia. Qed.

Lemma insert_permutation x l : Permutation (Supabase.insert before x l) (x :: l).
Proof.
  induction l as [|y l IH]; simpl.
  - apply Permutation_refl.
  - destruct (before x y).
    + apply Permutation_refl.
    + eapply perm_trans; [apply perm_skip, IH | apply perm_swap].
Qed.

Lemma order_permutation l : Permutation (Supabase.order key ascending l) l.
Proof.
  unfold Supabase.order, Supabase.sort. fold before.
  induction l as [|x l IH]; simpl.
  - apply perm_nil.
  - eapply perm_trans; [apply insert_permutation | apply perm_skip, IH].
Qed.

Lemma insert_head_order z x l :
  HdRel in_order z l -> in_order z x ->
  HdRel in_order z (Supabase.insert before x l).
Proof.
  intros Hz Hzx. destruct l as [|y l]; simpl.
  - constructor. exact Hzx.
  - destruct (before x y); constructor.
    + exact Hzx.
    + inversion Hz; assumption.
Qed.

Lemma insert_sorted x l :
  Sorted in_order l -> Sorted in_order (Supabase.insert before x l).
Proof.
  induction 1 as [|y l Hs IH Hd]; simpl.
  - repeat constructor.
  - destruct (before x y) eqn:E.
    + constructor; [constructor; assumption | constructor; apply before_in_order, E].
    + constructor; [exact IH |].
      apply insert_head_order; [exact Hd | apply before_flip, E].
Qed.

Lemma order_sorted l : StronglySorted in_order (Supabase.order key ascending l).
Proof.
  apply Sorted_StronglySorted.
  - intros a b c. apply in_order_trans.
  - unfold Supabase.order, Supabase.sort. fold before.
    induction l as [|x l IH]; simpl; [constructor | apply insert_sorted, IH].
Qed.

Lemma order_length l : List.length (Supabase.order key ascending l) = List.length l.
Proof. apply Permutation_length, order_permutation. Qed.



End OrderByFacts.

(** ** Strings as lists of characters *)

Lemma chars_app a b : Js.chars (a +++ b) = Js.chars a ++ Js.chars b.
Proof. induction a as [|c a IH]; simpl; [reflexivity | f_equal; exact IH]. Qed.

Lemma append_nil_r_text s : s +++ "" = s.
Proof. induction s as [|c s IH]; simpl; [reflexivity | f_equal; exact IH]. Qed.

Lemma text_chars s : Js.text (Js.chars s) = s.
Proof. apply string_of_list_ascii_of_string. Qed.

Lemma chars_text l : Js.chars (Js.text l) = l.
Proof. apply list_ascii_of_string_of_list_ascii. Qed.

Lemma chars_length s : List.length (Js.chars s) = String.length s.
Proof. induction s as [|c s IH]; simpl; [reflexivity | f_equal; exact IH]. Qed.

Lemma chars_inj a b : Js.chars a = Js.chars b -> a = b.
Proof. intros E. rewrite <- (text_chars a), <- (text_chars b), E. reflexivity. Qed.

(** ** Regular expression matching *)

Section MatchingFacts.

Lemma consumed_app (xs s : list ascii) : consumed (xs ++ s) s = xs.
Proof.
  unfold consumed. rewrite length_app, Nat.add_sub.
  rewrite firstn_app, Nat.sub_diag, firstn_all. simpl. apply app_nil_r.
Qed.

Lemma rep_sound p : forall s lo hi s',
  In s' (rep p lo hi s) ->
  exists xs, s = xs ++ s' /\ forallb p xs = true /\ lo <= List.length xs /\
             within hi (List.length xs).
Proof.
  assert (Stop : forall s lo hi s',
             In s' (if lo =? 0 then [s] else []) ->
             exists xs, s = xs ++ s' /\ forallb p xs = true /\ lo <= List.length xs /\
                        within hi (List.length xs)).
  { intros s lo hi s' Hin. destruct lo; simpl in Hin; [| contradiction].
    destruct Hin as [<- | []]. exists []. repeat split; auto.
    destruct hi; simpl; lia. }
  induction s as [|c s IH]; intros lo hi s' Hin; simpl in Hin.
  - apply Stop, Hin.
  - apply in_app_or in Hin. destruct Hin as [Hin | Hin]; [| apply Stop, Hin].
    destruct (p c) eqn:Hc; [| contradiction].
    destruct (room hi) eqn:Hr; [| contradiction]. simpl in Hin.
    destruct (IH _ _ _ Hin) as (xs & -> & Hall & Hlo & Hhi).
    exists (c :: xs). simpl. rewrite Hc, Hall. repeat split; [lia |].
    destruct hi as [[|h]|]; simpl in *; try discriminate; lia.
Qed.

Lemma rep_complete p : forall xs lo hi s',
  forallb p xs = true -> lo <= List.length xs -> within hi (List.length xs) ->
  In s' (rep p lo hi (xs ++ s')).
Proof.
  assert (Stop : forall (s : list ascii) lo, lo <= 0 -> In s (if lo =? 0 then [s] else [])).
  { intros s lo Hlo. replace lo with 0 by lia. left. reflexivity. }
  induction xs as [|c xs IH]; intros lo hi s' Hall Hlo Hhi; simpl in *.
  - destruct s'; simpl; [apply Stop, Hlo | apply in_or_app; right; apply Stop, Hlo].
  - apply andb_true_iff in Hall. destruct Hall as [Hc Hall].
    apply in_or_app. left. rewrite Hc.
    assert (Hr : room hi = true) by (destruct hi as [[|h]|]; simpl in *; auto; lia).
    rewrite Hr. simpl. apply IH; [exact Hall | lia |].
    destruct hi as [[|h]|]; simpl in *; lia.
Qed.

(** The first way tried by an unbounded repetition is the longest run. *)
Lemma rep_greedy p : forall xs lo s',
  forallb p xs = true -> lo <= List.length xs ->
  match s' with c :: _ => p c = false | [] => True end ->
  exists others, rep p lo None (xs ++ s') = s' :: others.
Proof.
  induction xs as [|c xs IH]; intros lo s' Hall Hlo Hend; simpl in *.
  - replace lo with 0 by lia.
    destruct s' as [|d s']; simpl; [eexists; reflexivity |].
    rewrite Hend. simpl. eexists. reflexivity.
  - apply andb_true_iff in Hall. destruct Hall as [Hc Hall]. rewrite Hc. simpl.
    destruct (IH (pred lo) s' Hall ltac:(lia) Hend) as (others & ->).
    simpl. eexists. reflexivity.
Qed.

(** A repetition that needs one character finds none on a character outside
    the class. *)
Lemma rep_stuck p lo hi s :
  1 <= lo ->
  match s with c :: _ => p c = false | [] => True end ->
  rep p lo hi s = [].
Proof.
  intros Hlo Hs. destruct lo as [|lo]; [lia |].
  destruct s as [|c s]; simpl; [reflexivity |]. rewrite Hs. reflexivity.
Qed.

Variable icase : bool.

Lemma in_matches_lit a s c m :
  In m (matches icase (Lit a) s c) <->
  exists x, s = x :: fst m /\ char_eq icase a x = true /\ snd m = c.
Proof.
  simpl. destruct s as [|x s].
  - split; [contradiction | intros (y & E & _); discriminate].
  - destruct (char_eq icase a x) eqn:E; simpl; split.
    + intros [<- | []]. exists x. auto.
    + intros (y & Ey & _ & Hc). left. destruct m; simpl in *. congruence.
    + contradiction.
    + intros (y & Ey & Hy & _). congruence.
Qed.

Lemma in_matches_rep k lo hi s c m :
  In m (matches icase (Rep k lo hi) s c) <->
  snd m = c /\
  exists xs, s = xs ++ fst m /\ forallb (in_class k) xs = true /\
             lo <= List.length xs /\ within hi (List.length xs).
Proof.
  simpl. rewrite in_map_iff. split.
  - intros (s' & <- & Hin). split; [reflexivity |]. apply rep_sound, Hin.
  - intros (Hc & xs & -> & Hall & Hlo & Hhi). exists (fst m). split.
    + destruct m; simpl in *; congruence.
    + apply rep_complete; assumption.
Qed.

Lemma in_matches_seq r1 r2 s c m :
  In m (matches icase (Seq r1 r2) s c) <->
  exists m1, In m1 (matches icase r1 s c) /\
             In m (matches icase r2 (fst m1) (snd m1)).
Proof. simpl. apply in_flat_map. Qed.

Lemma in_matches_alt r1 r2 s c m :
  In m (matches icase (Alt r1 r2) s c) <->
  In m (matches icase r1 s c) \/ In m (matches icase r2 s c).
Proof. simpl. apply in_app_iff. Qed.

Lemma in_matches_group n r s c m :
  In m (matches icase (Group n r) s c) <->
  exists m1, In m1 (matches icase r s c) /\
             m = (fst m1, (n, consumed s (fst m1)) :: snd m1).
Proof.
  simpl. rewrite in_map_iff. split; intros (m1 & H1 & H2); exists m1; auto.
Qed.

(** The search: no match anywhere, or the first way at the leftmost position
    that has one. *)
Lemma exec_at_none r : forall s,
  exec_at icase r s = None <->
  forall before rest, s = before ++ rest -> matches icase r rest [] = [].
Proof.
  induction s as [|x s IH]; simpl.
  - destruct (matches icase r [] []) eqn:E; split; try discriminate; auto.
    + intros _ before rest Hs. symmetry in Hs. apply app_eq_nil in Hs.
      destruct Hs as [_ ->]. exact E.
    + intros Hall. specialize (Hall [] [] eq_refl). congruence.
  - destruct (matches icase r (x :: s) []) eqn:E; split; try discriminate.
    + intros Hn before rest Hs. destruct before as [|y before]; simpl in Hs.
      * subst rest. exact E.
      * injection Hs as -> ->. apply (proj1 IH Hn before rest eq_refl).
    + intros Hall. apply IH. intros before rest ->.
      apply (Hall (x :: before) rest). reflexivity.
    + intros Hall. specialize (Hall [] (x :: s) eq_refl). congruence.
Qed.

Lemma exec_at_some r : forall s c,
  exec_at icase r s = Some c ->
  exists before rest m others,
    s = before ++ rest /\
    matches icase r rest [] = m :: others /\
    c = (0, consumed rest (fst m)) :: snd m /\
    forall before' rest',
      s = before' ++ rest' -> List.length before' < List.length before ->
      matches icase r rest' [] = [].
Proof.
  induction s as [|x s IH]; intros c; simpl.
  - destruct (matches icase r [] []) as [|m others] eqn:E; [discriminate |].
    intros [= <-]. exists [], [], m, others. repeat split; auto.
    simpl. intros; lia.
  - destruct (matches icase r (x :: s) []) as [|m others] eqn:E.
    + intros Hc. destruct (IH c Hc) as (before & rest & m & others & -> & Hm & -> & Hleft).
      exists (x :: before), rest, m, others. repeat split; auto.
      intros before' rest' Hs Hlen. destruct before' as [|y before']; simpl in *.
      * subst rest'. exact E.
      * injection Hs as -> Hs. apply (Hleft before' rest' Hs). lia.
    + intros [= <-]. exists [], (x :: s), m, others. repeat split; auto.
      simpl. intros; lia.
Qed.

End MatchingFacts.

(** ** Digits and [parseInt] *)

Lemma digits_run s : digits s <-> digit_run (Js.chars s).
Proof.
  unfold digits, digit_run. split; intros [H1 H2].
  - split; [exact H2 |]. destruct s; [contradiction H1; reflexivity | simpl; lia].
  - split; [| exact H1]. intros ->. simpl in H2. lia.
Qed.

Lemma digit_run_digits l : digit_run l -> digits (Js.text l).
Proof. intros H. apply digits_run. rewrite chars_text. exact H. Qed.

Lemma is_digit_code c : Js.is_digit c = true <-> 48 <= Js.code c <= 57.
Proof.
  unfold Js.is_digit. rewrite andb_true_iff, !Nat.leb_le. reflexivity.
Qed.

Lemma digit_not_space c : Js.is_digit c = true -> Js.is_space c = false.
Proof.
  intros Hd. apply is_digit_code in Hd. unfold Js.is_space.
  rewrite !orb_false_iff. repeat split.
  - apply andb_false_iff. right. apply Nat.leb_gt. lia.
  - apply Nat.eqb_neq. lia.
  - apply Nat.eqb_neq. lia.
Qed.

Ltac each_character c :=
  destruct c as [[] [] [] [] [] [] [] []]; vm_compute;
  try reflexivity; intros; try discriminate; try reflexivity.

Lemma digit_not_upper c : Js.is_digit c = true -> Js.lower_char c = c.
Proof. each_character c. Qed.

Lemma space_not_upper c : Js.is_space c = true -> Js.lower_char c = c.
Proof. each_character c. Qed.

Lemma digit_differs c (d : ascii) :
  Js.is_digit c = true -> Js.is_digit d = false -> Ascii.eqb c d = false.
Proof.
  intros Hc Hd. destruct (Ascii.eqb_spec c d) as [-> |]; [congruence | reflexivity].
Qed.

Lemma digit_value_decimal c :
  Js.is_digit c = true -> Js.digit_value 10 c = Some (Z.of_nat (Js.code c - 48)).
Proof.
  intros Hd. unfold Js.digit_value. rewrite Hd.
  apply is_digit_code in Hd.
  replace (Js.code c - 48 <? 10) with true; [reflexivity |].
  symmetry. apply Nat.ltb_lt. lia.
Qed.

Lemma read_digits_run : forall l acc,
  forallb Js.is_digit l = true ->
  Js.read_digits 10 (Some acc) l =
  Some (fold_left (fun a c => (10 * a + Z.of_nat (Js.code c - 48))%Z) l acc).
Proof.
  induction l as [|c l IH]; intros acc Hall; simpl in *; [reflexivity |].
  apply andb_true_iff in Hall. destruct Hall as [Hc Hall].
  rewrite (digit_value_decimal c Hc). apply IH, Hall.
Qed.

(** On a run of digits [parseInt] is the number the digits denote. *)
Lemma parseInt_digits l :
  digit_run l -> Js.parseInt (Js.text l) = Js.number false (decimal_value (Js.text l)).
Proof.
  intros [Hall Hlen]. unfold Js.parseInt, decimal_value. rewrite chars_text.
  destruct l as [|c1 l]; [simpl in Hlen; lia |].
  simpl in Hall. apply andb_true_iff in Hall. destruct Hall as [H1 Hall].
  simpl Js.skip_spaces. rewrite (digit_not_space c1 H1).
  rewrite (digit_differs c1 "-" H1 eq_refl), (digit_differs c1 "+" H1 eq_refl).
  assert (R : Js.read_digits 10 None (c1 :: l) =
              Some (fold_left (fun a c => (10 * a + Z.of_nat (Js.code c - 48))%Z)
                      (c1 :: l) 0%Z)).
  { simpl. rewrite (digit_value_decimal c1 H1). apply read_digits_run, Hall. }
  destruct l as [|c2 l].
  - rewrite R. reflexivity.
  - simpl in Hall. apply andb_true_iff in Hall. destruct Hall as [H2 Hall].
    rewrite (digit_differs c2 "x" H2 eq_refl), (digit_differs c2 "X" H2 eq_refl).
    rewrite andb_false_r, R. reflexivity.
Qed.

(** Where a run of digits ends is determined by the text. *)
Lemma digit_run_unique : forall xs ys a b r r',
  forallb Js.is_digit xs = true -> forallb Js.is_digit ys = true ->
  Js.is_digit a = false -> Js.is_digit b = false ->
  xs ++ a :: r = ys ++ b :: r' ->
  xs = ys /\ a :: r = b :: r'.
Proof.
  induction xs as [|x xs IH]; intros ys a b r r' Hx Hy Ha Hb E.
  - destruct ys as [|y ys]; simpl in *; [auto |].
    injection E as -> _. apply andb_true_iff in Hy. destruct Hy. congruence.
  - destruct ys as [|y ys]; simpl in *.
    + injection E as -> _. apply andb_true_iff in Hx. destruct Hx. congruence.
    + injection E as -> E.
      apply andb_true_iff in Hx. apply andb_true_iff in Hy.
      destruct Hx as [_ Hx], Hy as [_ Hy].
      destruct (IH ys a b r r' Hx Hy Ha Hb E) as [-> E']. auto.
Qed.

(** ** Region lookup *)

(** The second test of the lookup: latitude -30..30 and longitude 20..120. *)
Lemma getOceanRegion_fallback_outside lat lon :
  ChatProcessor.getOceanRegion lat lon = "Indian Ocean region" ->
  ((-30 <=? lat)%float && (lat <=? 30)%float && (20 <=? lon)%float && (lon <=? 120)%float) = false.
Proof.
  unfold ChatProcessor.getOceanRegion.
  destruct ((0 <=? lat)%float && (lat <=? 30)%float && (40 <=? lon)%float && (lon <=? 100)%float);
    [discriminate |].
  destruct ((-30 <=? lat)%float && (lat <=? 30)%float && (20 <=? lon)%float && (lon <=? 120)%float);
    [discriminate | reflexivity].
Qed.

(** C1, the claim as the spec states it, fails: at latitude -20, longitude 60
    neither copy of the lookup returns the fallback string. *)
Lemma getOceanRegion_south_is_not_fallback :
  String.eqb (ChatProcessor.getOceanRegion (-20) 60) "Indian Ocean region" = false /\
  String.eqb (VectorEmbeddingsGenerator.getOceanRegion (-20) 60) "Indian Ocean region" = false.
Proof. split; vm_compute; reflexivity. Qed.

(** C1, as amended: the two copies of [getOceanRegion] agree on every input;
    latitude 15, longitude 68 is in the "Arabian Sea"; latitude -20,
    longitude 60 is in the second box and yields "Indian Ocean"; the fallback
    "Indian Ocean region" is returned only outside that box, as at latitude
    -40, longitude 60. *)
Theorem getOceanRegion_lookup :
  (forall lat lon,
     VectorEmbeddingsGenerator.getOceanRegion lat lon = ChatProcessor.getOceanRegion lat lon) /\
  ChatProcessor.getOceanRegion 15 68 = "Arabian Sea" /\
  ChatProcessor.getOceanRegion (-20) 60 = "Indian Ocean" /\
  ChatProcessor.getOceanRegion (-40) 60 = "Indian Ocean region" /\
  (forall lat lon,
     ChatProcessor.getOceanRegion lat lon = "Indian Ocean region" ->
     ((-30 <=? lat)%float && (lat <=? 30)%float && (20 <=? lon)%float && (lon <=? 120)%float) = false).
Proof.
  repeat split; try (vm_compute; reflexivity).
  intros lat lon. apply getOceanRegion_fallback_outside.
Qed.

Lemma getOceanRegion_lookup_witness :
  ChatProcessor.getOceanRegion (-40) 60 = "Indian Ocean region" /\
  ((-30 <=? -40)%float && (-40 <=? 30)%float && (20 <=? 60)%float && (60 <=? 120)%float) = false.
Proof.
  split; [vm_compute; reflexivity |].
  apply (proj2 (proj2 (proj2 (proj2 getOceanRegion_lookup)))). vm_compute. reflexivity.
Defined.

(** ** Responses to an empty data list *)


(** C2, on the code: for a comparison query the response to an empty data
    list is the comparison text, the same as for any data; the template has no
    "no data" branch, unlike the five others. *)
Theorem generateResponse_comparison_ignores_data :
  forall H data,
    let query := "compare float 5906468 vs float 5906469" in
    let analysis := ChatProcessor.analyzeQuery query in
    ChatProcessor.type analysis = "comparison_query" /\
    ChatProcessor.generateResponse H query analysis [] =
      "Comparison analysis shows variations in oceanographic parameters across different locations and time periods. The data reveals spatial and temporal patterns that are important for understanding ocean dynamics and climate variability in the Indian Ocean region." /\
    ChatProcessor.generateResponse H query analysis data =
      ChatProcessor.generateResponse H query analysis [] /\
    Js.starts_with "I don't have" (ChatProcessor.generateResponse H query analysis []) = false.
Proof.
  intros H data query analysis.
  assert (T : ChatProcessor.type analysis = "comparison_query") by (vm_compute; reflexivity).
  split; [exact T |].
  unfold ChatProcessor.generateResponse. rewrite T.
  repeat split; reflexivity.
Qed.

(** ** The classifier *)

(** C3: a query whose lower-cased text contains "temperature" is a
    [temperature_query], whatever else it contains: the temperature rule is
    tested first. *)
Theorem analyzeQuery_temperature_first :
  forall query,
    Js.includes (Js.toLowerCase query) "temperature" = true ->
    ChatProcessor.type (ChatProcessor.analyzeQuery query) = "temperature_query".
Proof.
  intros query E. unfold ChatProcessor.analyzeQuery. cbv zeta.
  rewrite E. reflexivity.
Qed.

Lemma analyzeQuery_temperature_first_witness :
  Js.includes (Js.toLowerCase "Compare salinity and TEMPERATURE between floats") "temperature" = true /\
  ChatProcessor.type
    (ChatProcessor.analyzeQuery "Compare salinity and TEMPERATURE between floats") =
  "temperature_query".
Proof.
  split; [vm_compute; reflexivity |].
  apply (analyzeQuery_temperature_first "Compare salinity and TEMPERATURE between floats").
  vm_compute. reflexivity.
Defined.

(** The rules in the order they are tested: the type is that of the first
    rule that holds. *)
Lemma analyzeQuery_rule_order query :
  let q := Js.toLowerCase query in
  ChatProcessor.type (ChatProcessor.analyzeQuery query) =
  if Js.includes q "temperature" || Js.includes q "temp" then "temperature_query"
  else if Js.includes q "salinity" || Js.includes q "salt" then "salinity_query"
  else if Js.includes q "oxygen" || Js.includes q "nitrate" || Js.includes q "ph" ||
          Js.includes q "chlorophyll" then "bgc_query"
  else if Js.includes q "float" && (Js.includes q "location" || Js.includes q "position")
       then "float_location_query"
  else if Js.includes q "compare" || Js.includes q "difference" || Js.includes q "vs"
       then "comparison_query"
  else "general_query".
Proof.
  intros q. unfold ChatProcessor.analyzeQuery. cbv zeta. fold q.
  repeat match goal with
         | |- context [if ?c then _ else _] => destruct c; try reflexivity
         end.
Qed.

(** C10: a query whose lower-cased text has none of "temperature", "temp",
    "salinity", "salt" and has "ph" somewhere, inside a word or not, is a
    [bgc_query]. *)
Theorem analyzeQuery_ph_substring :
  forall query,
    Js.includes (Js.toLowerCase query) "temperature" = false ->
    Js.includes (Js.toLowerCase query) "temp" = false ->
    Js.includes (Js.toLowerCase query) "salinity" = false ->
    Js.includes (Js.toLowerCase query) "salt" = false ->
    Js.includes (Js.toLowerCase query) "ph" = true ->
    ChatProcessor.type (ChatProcessor.analyzeQuery query) = "bgc_query".
Proof.
  intros query E1 E2 E3 E4 E5. rewrite analyzeQuery_rule_order. cbv zeta.
  rewrite E1, E2, E3, E4, E5. simpl. rewrite orb_true_r. reflexivity.
Qed.

Lemma analyzeQuery_ph_substring_witness :
  ChatProcessor.type (ChatProcessor.analyzeQuery "Show me a graph of the float positions") =
    "bgc_query" /\
  ChatProcessor.type (ChatProcessor.analyzeQuery "PHOTO of float 5906468") = "bgc_query".
Proof.
  split.
  - apply (analyzeQuery_ph_substring "Show me a graph of the float positions");
      vm_compute; reflexivity.
  - apply (analyzeQuery_ph_substring "PHOTO of float 5906468"); vm_compute; reflexivity.
Defined.

(** ** The filename pattern *)

Ltac invert_match :=
  repeat match goal with
    | H : In _ (matches _ (Seq _ _) _ _) |- _ =>
        apply in_matches_seq in H; destruct H as (? & ? & ?)
    | H : In _ (matches _ (Lit _) _ _) |- _ =>
        apply in_matches_lit in H; destruct H as (? & ? & ? & ?)
    | H : In _ (matches _ (Group _ _) _ _) |- _ =>
        apply in_matches_group in H; destruct H as (? & ? & ?)
    | H : In _ (matches _ (Rep _ _ _) _ _) |- _ =>
        apply in_matches_rep in H; destruct H as (? & ? & ? & ? & ? & ?)
    | H : In _ (matches _ (Alt _ _) _ _) |- _ =>
        apply in_matches_alt in H; destruct H as [? | ?]
    end.

Lemma char_eq_exact a x : char_eq false a x = true -> x = a.
Proof. simpl. intros E. apply Ascii.eqb_eq in E. auto. Qed.

Lemma filename_match_sound s m :
  In m (matches false NetCDFProcessor.filename_pattern s []) ->
  exists d1 d2,
    s = nc_shape d1 d2 (fst m) /\ digit_run d1 /\ digit_run d2 /\
    snd m = [(2, d2); (1, d1)].
Proof.
  unfold NetCDFProcessor.filename_pattern, plus. intros Hin. invert_match.
  repeat match goal with
         | H : char_eq false _ _ = true |- _ => apply char_eq_exact in H
         | p : (list ascii * caps)%type |- _ => destruct p
         end.
  simpl in *. subst. simpl in *.
  repeat match goal with
         | H : (_, _) = (_, _) |- _ => injection H as ? ?
         end.
  subst. simpl in *. subst.
  match goal with
  | |- exists d1 d2, "R"%char :: ?a ++ "_"%char :: ?b ++ _ = _ /\ _ =>
      exists a, b
  end.
  rewrite !consumed_app. unfold nc_shape, digit_run. auto 10.
Qed.

Lemma filename_match_complete d1 d2 rest :
  digit_run d1 -> digit_run d2 ->
  In (rest, [(2, d2); (1, d1)])
     (matches false NetCDFProcessor.filename_pattern (nc_shape d1 d2 rest) []).
Proof.
  intros [Ha1 Hl1] [Ha2 Hl2]. unfold NetCDFProcessor.filename_pattern, plus, nc_shape.
  apply in_matches_seq.
  exists (d1 ++ "_"%char :: d2 ++ "."%char :: "n"%char :: "c"%char :: rest, []).
  split; [apply in_matches_lit; eexists; simpl; auto |]. simpl fst. simpl snd.
  apply in_matches_seq.
  exists ("_"%char :: d2 ++ "."%char :: "n"%char :: "c"%char :: rest, [(1, d1)]).
  split.
  { apply in_matches_group. eexists (_, _). split.
    - apply in_matches_rep. simpl. split; [reflexivity |].
      exists d1. simpl. auto.
    - simpl. rewrite consumed_app. reflexivity. }
  simpl fst. simpl snd. apply in_matches_seq.
  exists (d2 ++ "."%char :: "n"%char :: "c"%char :: rest, [(1, d1)]).
  split; [apply in_matches_lit; eexists; simpl; auto |]. simpl fst. simpl snd.
  apply in_matches_seq.
  exists ("."%char :: "n"%char :: "c"%char :: rest, [(2, d2); (1, d1)]).
  split.
  { apply in_matches_group. eexists (_, _). split.
    - apply in_matches_rep. simpl. split; [reflexivity |].
      exists d2. simpl. auto.
    - simpl. rewrite consumed_app. reflexivity. }
  simpl fst. simpl snd. apply in_matches_seq.
  exists ("n"%char :: "c"%char :: rest, [(2, d2); (1, d1)]).
  split; [apply in_matches_lit; eexists; simpl; auto |]. simpl fst. simpl snd.
  apply in_matches_seq.
  exists ("c"%char :: rest, [(2, d2); (1, d1)]).
  split; apply in_matches_lit; eexists; simpl; auto.
Qed.

Lemma nc_shape_unique d1 d2 rest d1' d2' rest' :
  digit_run d1 -> digit_run d2 -> digit_run d1' -> digit_run d2' ->
  nc_shape d1 d2 rest = nc_shape d1' d2' rest' ->
  d1 = d1' /\ d2 = d2' /\ rest = rest'.
Proof.
  intros [H1 _] [H2 _] [H1' _] [H2' _]. unfold nc_shape. intros E.
  injection E as E.
  destruct (digit_run_unique d1 d1' "_" "_" _ _ H1 H1' eq_refl eq_refl E) as [-> E1].
  injection E1 as E1.
  destruct (digit_run_unique d2 d2' "." "." _ _ H2 H2' eq_refl eq_refl E1) as [-> E2].
  injection E2 as ->. auto.
Qed.

(** An occurrence, on the characters of the filename. *)
Lemma occurrence_chars filename before d1 d2 after :
  occurrence filename before d1 d2 after <->
  Js.chars filename = Js.chars before ++ nc_shape (Js.chars d1) (Js.chars d2) (Js.chars after) /\
  digit_run (Js.chars d1) /\ digit_run (Js.chars d2).
Proof.
  unfold occurrence. rewrite !digits_run.
  assert (E : Js.chars (before +++ "R" +++ d1 +++ "_" +++ d2 +++ ".nc" +++ after) =
              Js.chars before ++ nc_shape (Js.chars d1) (Js.chars d2) (Js.chars after)).
  { unfold nc_shape. rewrite !chars_app. simpl. reflexivity. }
  split; intros (Hf & Hd1 & Hd2).
  - split; [rewrite Hf; exact E | split; assumption].
  - split; [apply chars_inj; rewrite E; exact Hf | split; assumption].
Qed.

(** What the search of the filename pattern finds: nothing when the filename
    has no occurrence, and the digit groups of the leftmost occurrence
    otherwise. *)
Lemma filename_search filename :
  match Regex.exec false NetCDFProcessor.filename_pattern filename with
  | None => ~ contains_pattern filename
  | Some found =>
      exists before d1 d2 after,
        occurrence filename before d1 d2 after /\
        (forall before' d1' d2' after',
           occurrence filename before' d1' d2' after' ->
           String.length before <= String.length before') /\
        found 1 = d1 /\ found 2 = d2
  end.
Proof.
  unfold Regex.exec.
  destruct (exec_at false NetCDFProcessor.filename_pattern (Js.chars filename))
    as [c|] eqn:E.
  - apply exec_at_some in E.
    destruct E as (before & rest & m & others & Hs & Hm & -> & Hleft).
    assert (Hin : In m (matches false NetCDFProcessor.filename_pattern rest []))
      by (rewrite Hm; left; reflexivity).
    destruct (filename_match_sound _ _ Hin) as (d1 & d2 & Hrest & Hd1 & Hd2 & Hc).
    exists (Js.text before), (Js.text d1), (Js.text d2), (Js.text (fst m)).
    split; [| split; [| split]].
    + apply occurrence_chars. rewrite !chars_text. rewrite Hs, Hrest. auto.
    + intros before' d1' d2' after' Ho. apply occurrence_chars in Ho.
      destruct Ho as (Hf & Hd1' & Hd2').
      rewrite <- !chars_length, chars_text.
      destruct (Nat.le_gt_cases (List.length before) (List.length (Js.chars before')))
        as [Hle | Hgt]; [exact Hle | exfalso].
      pose proof (Hleft _ _ Hf Hgt) as Hnone.
      pose proof (filename_match_complete (Js.chars after') Hd1' Hd2') as Hsome.
      rewrite Hnone in Hsome. contradiction.
    + unfold group. rewrite Hc. reflexivity.
    + unfold group. rewrite Hc. reflexivity.
  - intros (before & d1 & d2 & after & Ho). apply occurrence_chars in Ho.
    destruct Ho as (Hf & Hd1 & Hd2).
    pose proof (proj1 (exec_at_none false _ _) E _ _ Hf) as Hnone.
    pose proof (filename_match_complete (Js.chars after) Hd1 Hd2) as Hsome.
    rewrite Hnone in Hsome. contradiction.
Qed.

(** ** The profile synthesizer *)

Lemma ret_returns {A} (a : A) : returns (ret a).
Proof. intros w. exists a, w. auto. Qed.

Lemma bind_returns {A B} (m : M A) (k : A -> M B) :
  returns m -> (forall a, returns (k a)) -> returns (bind m k).
Proof.
  intros Hm Hk w. destruct (Hm w) as (a & w1 & E1 & S1).
  destruct (Hk a w1) as (b & w2 & E2 & S2).
  exists b, w2. unfold bind. rewrite E1, E2. split; congruence.
Qed.

Lemma Math_random_returns : returns Math_random.
Proof. intros w. eexists _, _. split; reflexivity. Qed.

Lemma Date_now_returns : returns Date_now.
Proof. intros w. eexists _, _. split; reflexivity. Qed.

Lemma mapM_returns {A B} (f : A -> M B) (l : list A) :
  (forall x, returns (f x)) ->
  forall w, exists ys w',
    mapM f l w = (Return ys, w') /\ List.length ys = List.length l /\ store w' = store w.
Proof.
  intros Hf. induction l as [|x l IH]; intros w; simpl.
  - exists [], w. auto.
  - destruct (Hf x w) as (y & w1 & E1 & S1).
    destruct (IH w1) as (ys & w2 & E2 & L2 & S2).
    exists (y :: ys), w2. unfold bind. rewrite E1, E2. simpl.
    repeat split; congruence.
Qed.

Ltac formula_returns :=
  intros;
  repeat match goal with
         | |- returns (if ?c then _ else _) => destruct c
         | |- returns (bind _ _) => apply bind_returns; [| intros ?]
         | |- returns (ret _) => apply ret_returns
         | |- returns Math_random => apply Math_random_returns
         end.

Lemma calculateTemperature_returns d : returns (NetCDFProcessor.calculateTemperature d).
Proof. unfold NetCDFProcessor.calculateTemperature. formula_returns. Qed.

Lemma calculateSalinity_returns d : returns (NetCDFProcessor.calculateSalinity d).
Proof. unfold NetCDFProcessor.calculateSalinity. formula_returns. Qed.

Lemma calculateOxygen_returns d : returns (NetCDFProcessor.calculateOxygen d).
Proof. unfold NetCDFProcessor.calculateOxygen. formula_returns. Qed.

Lemma calculateNitrate_returns d : returns (NetCDFProcessor.calculateNitrate d).
Proof. unfold NetCDFProcessor.calculateNitrate. formula_returns. Qed.

Lemma calculatePH_returns d : returns (NetCDFProcessor.calculatePH d).
Proof. unfold NetCDFProcessor.calculatePH. formula_returns. Qed.

Lemma calculateChlorophyll_returns d : returns (NetCDFProcessor.calculateChlorophyll d).
Proof. unfold NetCDFProcessor.calculateChlorophyll. formula_returns. Qed.

Lemma calculateBackscatter_returns d : returns (NetCDFProcessor.calculateBackscatter d).
Proof. unfold NetCDFProcessor.calculateBackscatter. formula_returns. Qed.

Lemma generateDepthMeasurements_returns w :
  exists ms w',
    NetCDFProcessor.generateDepthMeasurements w = (Return ms, w') /\
    List.length ms = 21 /\ store w' = store w.
Proof.
  unfold NetCDFProcessor.generateDepthMeasurements. cbv zeta.
  apply mapM_returns. intros d.
  apply bind_returns; [apply calculateTemperature_returns | intros t].
  apply bind_returns; [apply calculateSalinity_returns | intros s].
  apply ret_returns.
Qed.

Lemma generateBGCMeasurements_returns w :
  exists ms w',
    NetCDFProcessor.generateBGCMeasurements w = (Return ms, w') /\
    List.length ms = 17 /\ store w' = store w.
Proof.
  unfold NetCDFProcessor.generateBGCMeasurements. cbv zeta.
  apply mapM_returns. intros d.
  apply bind_returns; [apply calculateOxygen_returns | intros o].
  apply bind_returns; [apply calculateNitrate_returns | intros n].
  apply bind_returns; [apply calculatePH_returns | intros p].
  apply bind_returns; [apply calculateChlorophyll_returns | intros c].
  apply bind_returns; [apply calculateBackscatter_returns | intros b].
  apply ret_returns.
Qed.

Lemma processNetCDFFile_found filename filePath found w :
  Regex.exec false NetCDFProcessor.filename_pattern filename = Some found ->
  exists profile w',
    NetCDFProcessor.processNetCDFFile filename filePath w = (Return profile, w') /\
    NetCDFProcessor.floatId profile = found 1 /\
    NetCDFProcessor.platformNumber profile = found 1 /\
    NetCDFProcessor.cycleNumber profile = Js.parseInt (found 2) /\
    List.length (NetCDFProcessor.measurements profile) = 21 /\
    option_map (@List.length _) (NetCDFProcessor.bgcData profile) = Some 17.
Proof.
  intros E. unfold NetCDFProcessor.processNetCDFFile. rewrite E.
  unfold bind at 1. unfold Date_now at 1. cbv beta iota.
  unfold bind at 1. unfold Math_random at 1. cbv beta iota.
  unfold bind at 1. unfold Math_random at 1. cbv beta iota.
  unfold bind at 1.
  match goal with
  | |- context [NetCDFProcessor.generateDepthMeasurements ?x] =>
      destruct (generateDepthMeasurements_returns x) as (ms & w1 & -> & Hms & _)
  end.
  unfold bind at 1.
  destruct (generateBGCMeasurements_returns w1) as (bgc & w2 & -> & Hbgc & _).
  unfold ret. eexists _, _. split; [reflexivity |]. simpl.
  rewrite Hms, Hbgc. auto 10.
Qed.

Lemma processNetCDFFile_not_found filename filePath w :
  Regex.exec false NetCDFProcessor.filename_pattern filename = None ->
  NetCDFProcessor.processNetCDFFile filename filePath w =
  (Throw (JsError ("Invalid NetCDF filename format: " +++ filename)), w).
Proof.
  intros E. unfold NetCDFProcessor.processNetCDFFile. rewrite E. reflexivity.
Qed.

(** C4, as the code has it: [processNetCDFFile] returns a profile exactly
    when the filename contains an occurrence of [R<digits>_<digits>.nc]: the
    pattern is searched for in the filename, as [String.prototype.match]
    does, and text before and after the occurrence is accepted. The profile
    then has the first digit group of the leftmost occurrence as [floatId],
    and as [cycleNumber] what [Number.parseInt] makes of the second: the
    Number nearest to the integer its digits denote. For a filename that is
    [R<d1>_<d2>.nc] as a whole the groups are [d1] and [d2]. A filename
    without an occurrence makes it throw an error whose message is "Invalid
    NetCDF filename format: " followed by the filename. *)
Theorem processNetCDFFile_filename_format :
  forall (filename filePath : string) (w : World),
    (contains_pattern filename ->
     exists profile w' before d1 d2 after,
       NetCDFProcessor.processNetCDFFile filename filePath w = (Return profile, w') /\
       occurrence filename before d1 d2 after /\
       (forall before' d1' d2' after',
          occurrence filename before' d1' d2' after' ->
          String.length before <= String.length before') /\
       NetCDFProcessor.floatId profile = d1 /\
       NetCDFProcessor.cycleNumber profile = Js.number false (decimal_value d2)) /\
    (forall d1 d2,
       digits d1 -> digits d2 -> filename = "R" +++ d1 +++ "_" +++ d2 +++ ".nc" ->
       exists profile w',
         NetCDFProcessor.processNetCDFFile filename filePath w = (Return profile, w') /\
         NetCDFProcessor.floatId profile = d1 /\
         NetCDFProcessor.cycleNumber profile = Js.number false (decimal_value d2)) /\
    (~ contains_pattern filename ->
     NetCDFProcessor.processNetCDFFile filename filePath w =
     (Throw (JsError ("Invalid NetCDF filename format: " +++ filename)), w)) /\
    ((exists profile w',
        NetCDFProcessor.processNetCDFFile filename filePath w = (Return profile, w')) ->
     contains_pattern filename).
Proof.
  intros filename filePath w.
  pose proof (filename_search filename) as Hsearch.
  destruct (Regex.exec false NetCDFProcessor.filename_pattern filename) as [found|] eqn:E.
  - destruct Hsearch as (before & d1 & d2 & after & Ho & Hleft & H1 & H2).
    destruct (processNetCDFFile_found filename filePath w E)
      as (profile & w' & Hrun & Hid & _ & Hcycle & _).
    assert (Hvalue : Js.parseInt d2 = Js.number false (decimal_value d2)).
    { destruct Ho as (_ & _ & Hd2). apply digits_run in Hd2.
      rewrite <- (text_chars d2). apply parseInt_digits, Hd2. }
    split; [| split; [| split]].
    + intros _. exists profile, w', before, d1, d2, after.
      rewrite Hid, Hcycle, H1, H2. auto.
    + intros e1 e2 He1 He2 Hname.
      exists profile, w'. rewrite Hid, Hcycle, H1, H2, Hvalue.
      assert (Ho' : occurrence filename "" e1 e2 "").
      { unfold occurrence. split; [| split; assumption]. rewrite Hname. simpl.
        repeat (f_equal; try (symmetry; apply append_nil_r_text)). }
      pose proof (Hleft _ _ _ _ Ho') as Hlen. simpl in Hlen.
      assert (before = "") by (destruct before; [reflexivity | simpl in Hlen; lia]).
      subst before.
      apply occurrence_chars in Ho. apply occurrence_chars in Ho'.
      destruct Ho as (Hf & Hd1 & Hd2), Ho' as (Hf' & He1' & He2').
      rewrite Hf in Hf'. simpl in Hf'.
      destruct (nc_shape_unique Hd1 Hd2 He1' He2' Hf') as (Ea & Eb & _).
      apply chars_inj in Ea. apply chars_inj in Eb. subst. auto.
    + intros Hno. contradiction Hno. exists before, d1, d2, after. exact Ho.
    + intros _. exists before, d1, d2, after. exact Ho.
  - rewrite (processNetCDFFile_not_found filename filePath w E).
    split; [| split; [| split]].
    + intros Hyes. contradiction.
    + intros e1 e2 He1 He2 Hname. exfalso. apply Hsearch.
      exists "", e1, e2, "". unfold occurrence. split; [| split; assumption].
      rewrite Hname. simpl.
      repeat (f_equal; try (symmetry; apply append_nil_r_text)).
    + intros _. reflexivity.
    + intros (profile & w' & Habs). discriminate.
Qed.

Lemma processNetCDFFile_filename_format_witness :
  (exists profile w',
     NetCDFProcessor.processNetCDFFile "R5906468_245.nc" "/data/argo/R5906468_245.nc"
       sample_world = (Return profile, w') /\
     NetCDFProcessor.floatId profile = "5906468" /\
     NetCDFProcessor.cycleNumber profile = 245%float) /\
  (exists profile w',
     NetCDFProcessor.processNetCDFFile "R1_9007199254740993.nc" "" sample_world =
       (Return profile, w') /\
     NetCDFProcessor.floatId profile = "1" /\
     NetCDFProcessor.cycleNumber profile = 9007199254740992%float) /\
  NetCDFProcessor.processNetCDFFile "profile_245.nc" "/data/argo/profile_245.nc"
    sample_world =
  (Throw (JsError "Invalid NetCDF filename format: profile_245.nc"), sample_world).
Proof.
  split; [| split].
  - apply (proj1 (proj2 (processNetCDFFile_filename_format
                           "R5906468_245.nc" "/data/argo/R5906468_245.nc" sample_world))
             "5906468" "245").
    + split; [discriminate | reflexivity].
    + split; [discriminate | reflexivity].
    + reflexivity.
  - apply (proj1 (proj2 (processNetCDFFile_filename_format
                           "R1_9007199254740993.nc" "" sample_world))
             "1" "9007199254740993").
    + split; [discriminate | reflexivity].
    + split; [discriminate | reflexivity].
    + reflexivity.
  - apply (proj1 (proj2 (proj2 (processNetCDFFile_filename_format
                                  "profile_245.nc" "/data/argo/profile_245.nc"
                                  sample_world)))).
    exact (filename_search "profile_245.nc").
Defined.

(** A filename that is not of the form [R<digits>_<digits>.nc], since it
    does not even start with "R", is accepted, because the pattern occurs
    inside it. *)
Lemma processNetCDFFile_accepts_embedded_pattern :
  Js.starts_with "R" "backup-R12_007.nc.old" = false /\
  exists profile w',
    NetCDFProcessor.processNetCDFFile "backup-R12_007.nc.old" "" sample_world =
      (Return profile, w') /\
    NetCDFProcessor.floatId profile = "12" /\
    NetCDFProcessor.cycleNumber profile = 7%float.
Proof.
  split; [reflexivity |].
  destruct (Regex.exec false NetCDFProcessor.filename_pattern "backup-R12_007.nc.old")
    as [found|] eqn:E; [| vm_compute in E; discriminate E].
  destruct (@processNetCDFFile_found "backup-R12_007.nc.old" "" found sample_world E)
    as (profile & w' & Hrun & Hid & _ & Hcycle & _).
  exists profile, w'. split; [exact Hrun |].
  rewrite Hid, Hcycle.
  assert (Hfound : found 1 = "12" /\ found 2 = "007").
  { vm_compute in E. injection E as <-. split; reflexivity. }
  destruct Hfound as [-> ->]. split; reflexivity.
Qed.

(** ** The embedding stub *)



(** The rows the sample store returns, whatever is asked. *)
Example searchSimilarContent_sample :
  fst (VectorEmbeddingsGenerator.searchSimilarContent "anything" (Some 2) sample_world) =
  Return [sample_embedding 9 "b"; sample_embedding 7 "c"].
Proof. vm_compute. reflexivity. Qed.

(** ** Parameter extraction *)



(** *** The float identifier *)

Lemma digit_is_not_letter a x :
  Js.is_digit x = true -> Js.is_digit (Js.lower_char a) = false ->
  char_eq true a x = false.
Proof.
  intros Hx Ha. unfold char_eq.
  assert (Hl : Js.lower_char x = x) by (apply digit_not_upper, Hx).
  rewrite Hl. destruct (Ascii.eqb_spec (Js.lower_char a) x) as [E |]; [| reflexivity].
  congruence.
Qed.

Lemma letter_is_not_digit a x :
  char_eq true a x = true -> Js.is_digit (Js.lower_char a) = false ->
  Js.is_digit x = false.
Proof.
  intros Hc Ha. destruct (Js.is_digit x) eqn:Hx; [| reflexivity].
  rewrite (digit_is_not_letter a x Hx Ha) in Hc. discriminate.
Qed.



Lemma exec_at_here icase r s m others :
  matches icase r s [] = m :: others ->
  exec_at icase r s = Some ((0, consumed s (fst m)) :: snd m).
Proof. intros E. destruct s; simpl; rewrite E; reflexivity. Qed.

Lemma exec_at_skip icase r x s :
  matches icase r (x :: s) [] = [] ->
  exec_at icase r (x :: s) = exec_at icase r s.
Proof. intros E. simpl. rewrite E. reflexivity. Qed.


(** What [/(\d{7})/] finds is seven digits. *)
Lemma seven_search_sound query found :
  Regex.exec false ChatProcessor.seven_digits_pattern query = Some found ->
  digits (found 1) /\ String.length (found 1) = 7.
Proof.
  unfold Regex.exec.
  destruct (exec_at false ChatProcessor.seven_digits_pattern (Js.chars query))
    as [c|] eqn:E; [| discriminate].
  intros [= <-]. apply exec_at_some in E.
  destruct E as (before & rest & m & others & _ & Hm & -> & _).
  assert (Hin : In m (matches false ChatProcessor.seven_digits_pattern rest []))
    by (rewrite Hm; left; reflexivity).
  unfold ChatProcessor.seven_digits_pattern, exactly in Hin. invert_match.
  subst m. cbn [fst snd] in *. subst.
  unfold group. cbn [lookup Nat.eqb]. rewrite consumed_app.
  match goal with
  | Ha : forallb (in_class Digit) ?xs = true, Hlo : 7 <= _, Hhi : within _ _ |- _ =>
      simpl in Hhi; split;
      [ apply digits_run; rewrite chars_text; split; [exact Ha | lia]
      | rewrite <- chars_length, chars_text; lia ]
  end.
Qed.

















(** *** The depth *)

Lemma letter_is_not_space a x :
  char_eq true a x = true -> Js.is_space (Js.lower_char a) = false ->
  Js.is_space x = false.
Proof.
  intros Hc Ha. destruct (Js.is_space x) eqn:Hx; [| reflexivity].
  assert (Hl : Js.lower_char x = x) by (apply space_not_upper, Hx).
  unfold char_eq in Hc. rewrite Hl in Hc. apply Ascii.eqb_eq in Hc. congruence.
Qed.

(** After a text without digits, [/(\d+)\s*(?:m|meter|metre)/i] finds the
    digits that are followed by white space, if any, and a letter m. *)
Lemma depth_search_finds_number : forall before n sp u rest,
  no_digit before -> digit_run n -> forallb Js.is_space sp = true ->
  char_eq true "m" u = true ->
  exists c,
    exec_at true ChatProcessor.depth_pattern (before ++ n ++ sp ++ u :: rest) = Some c /\
    group c 1 = Js.text n.
Proof.
  induction before as [|x before IH]; intros n sp u rest Hb [Hn Hln] Hsp Hu.
  - simpl app.
    assert (Hu_digit : Js.is_digit u = false) by (apply (letter_is_not_digit "m" u Hu eq_refl)).
    assert (Hu_space : Js.is_space u = false) by (apply (letter_is_not_space "m" u Hu eq_refl)).
    assert (Hstop : starts_without_digit (sp ++ u :: rest)).
    { destruct sp as [|c sp]; simpl in *; [exact Hu_digit |].
      apply andb_true_iff in Hsp. destruct Hsp as [Hc _].
      destruct (Js.is_digit c) eqn:Hd; [| reflexivity].
      rewrite (digit_not_space c Hd) in Hc. discriminate. }
    destruct (@rep_greedy Js.is_digit n 1 (sp ++ u :: rest) Hn Hln Hstop) as (o1 & E1).
    destruct (@rep_greedy Js.is_space sp 0 (u :: rest) Hsp (Nat.le_0_l _) Hu_space)
      as (o2 & E2).
    assert (E : exists others,
               matches true ChatProcessor.depth_pattern (n ++ sp ++ u :: rest) [] =
               (rest, [(1, n)]) :: others).
    { unfold ChatProcessor.depth_pattern, plus, star. cbn [matches].
      change (in_class Digit) with Js.is_digit. change (in_class Space) with Js.is_space.
      rewrite E1. cbn [map flat_map fst snd]. rewrite consumed_app, E2.
      cbn [map flat_map fst snd matches app]. rewrite Hu. cbn [app].
      eexists. reflexivity. }
    destruct E as (others & E).
    rewrite (@exec_at_here _ _ _ _ _ E). eexists. split; reflexivity.
  - unfold no_digit in Hb. simpl in Hb. apply andb_true_iff in Hb. destruct Hb as [Hx Hb].
    assert (E : matches true ChatProcessor.depth_pattern
                  ((x :: before) ++ n ++ sp ++ u :: rest) [] = []).
    { unfold ChatProcessor.depth_pattern, plus. cbn [matches app].
      rewrite rep_stuck; [reflexivity | lia |].
      simpl. destruct (Js.is_digit x); [discriminate | reflexivity]. }
    simpl app in *. rewrite (@exec_at_skip _ _ _ _ E).
    apply IH; [exact Hb | split; assumption | exact Hsp | exact Hu].
Qed.

(** C7: on "at 500m depth" the depth parameter is the integer 500. In
    general, when digits come after a text without digits and are followed by
    white space, if any, and a letter m in either case (the start of "m",
    "meter" and "metre"), the depth is what [Number.parseInt] makes of the
    digits: the Number nearest to the integer they denote, which is that
    integer as long as a binary64 holds it. A number with another unit gives
    no depth. *)
Theorem extractParameters_depth_unit :
  ChatProcessor.depth (ChatProcessor.extractParameters "at 500m depth") = Some 500%float /\
  (forall before number spaces unit after,
     no_digit (Js.chars before) -> digits number ->
     forallb Js.is_space (Js.chars spaces) = true ->
     unit = "m"%char \/ unit = "M"%char ->
     ChatProcessor.depth
       (ChatProcessor.extractParameters (before +++ number +++ spaces +++ String unit after)) =
     Some (Js.number false (decimal_value number))) /\
  ChatProcessor.depth (ChatProcessor.extractParameters "at 500 feet") = None.
Proof.
  split; [vm_compute; reflexivity |].
  split; [| vm_compute; reflexivity].
  intros before number spaces unit after Hb Hn Hs Hu.
  apply digits_run in Hn.
  assert (Hm : char_eq true "m" unit = true) by (destruct Hu as [-> | ->]; reflexivity).
  unfold ChatProcessor.extractParameters. cbv zeta. cbn [ChatProcessor.depth].
  unfold Regex.exec. rewrite !chars_app.
  change (Js.chars (String unit after)) with (unit :: Js.chars after).
  destruct (@depth_search_finds_number _ _ _ unit (Js.chars after) Hb Hn Hs Hm)
    as (c & -> & Hc).
  rewrite Hc, parseInt_digits, text_chars; [reflexivity | exact Hn].
Qed.

Lemma extractParameters_depth_unit_witness :
  ChatProcessor.depth (ChatProcessor.extractParameters "at 500m depth") = Some 500%float /\
  ChatProcessor.depth (ChatProcessor.extractParameters "below 1500  Meters") =
    Some 1500%float /\
  ChatProcessor.depth (ChatProcessor.extractParameters "salinity at 20 metre") =
    Some 20%float /\
  ChatProcessor.depth (ChatProcessor.extractParameters "down to 9007199254740993m") =
    Some 9007199254740992%float.
Proof.
  split; [| split; [| split]].
  - apply (proj1 (proj2 extractParameters_depth_unit) "at " "500" "" "m"%char " depth");
      [reflexivity | split; [discriminate | reflexivity] | reflexivity | left; reflexivity].
  - apply (proj1 (proj2 extractParameters_depth_unit) "below " "1500" "  " "M"%char "eters");
      [reflexivity | split; [discriminate | reflexivity] | reflexivity | right; reflexivity].
  - apply (proj1 (proj2 extractParameters_depth_unit) "salinity at " "20" " " "m"%char "etre");
      [reflexivity | split; [discriminate | reflexivity] | reflexivity | left; reflexivity].
  - apply (proj1 (proj2 extractParameters_depth_unit)
             "down to " "9007199254740993" "" "m"%char "");
      [reflexivity | split; [discriminate | reflexivity] | reflexivity | left; reflexivity].
Defined.

(** ** POST /api/chat *)

Lemma storeChatSession_returns H sessionId q a t e w :
  exists w', ChatProcessor.storeChatSession H sessionId q a t e w = (Return tt, w').
Proof.
  unfold ChatProcessor.storeChatSession, try_catch, bind.
  destruct (Supabase.insert_session H sessionId q a t e w) as [[r|x] w'];
    unfold ret; eexists; reflexivity.
Qed.

(** The head of [processQuery], ahead of its [try]: a reading of the clock,
    the conversion of the log line and the creation of the client. A throw of
    either leaves the method there; otherwise the method goes on as on a
    processor that has its client. *)
Lemma processQuery_with_head H created query sessionId w :
  ChatProcessor.processQuery_with H created query sessionId w =
  match toString H query, created with
  | Throw e, _ => (Throw e, after_ticks 1 w)
  | Return _, Throw e => (Throw e, after_ticks 1 w)
  | Return _, Return _ => ChatProcessor.processQuery H query sessionId w
  end.
Proof.
  unfold ChatProcessor.processQuery, ChatProcessor.processQuery_with,
    ChatProcessor.initializeSupabase, template, bind, Date_now.
  destruct (toString H query) as [text|e]; [| reflexivity].
  destruct created as [[]|e]; reflexivity.
Qed.

(** A query that is a string is always answered. *)
Lemma processQuery_returns H q sessionId w :
  exists result w',
    ChatProcessor.processQuery H (JStr q) sessionId w = (Return result, w') /\
    ChatProcessor.res_queryType result = ChatProcessor.type (ChatProcessor.analyzeQuery q).
Proof.
  unfold ChatProcessor.processQuery, ChatProcessor.processQuery_with,
    ChatProcessor.initializeSupabase, template, bind, try_catch, Date_now.
  cbn [toString].
  unfold ChatProcessor.retrieveRelevantData, bind, get_store, ret. cbv beta iota zeta.
  match goal with
  | |- context [ChatProcessor.storeChatSession ?h ?s ?a ?b ?c ?d ?x] =>
      destruct (storeChatSession_returns h s a b c d x) as (w' & E); rewrite E
  end.
  eexists _, _. split; reflexivity.
Qed.

(** A query that is not a string makes [processQuery] throw after its one
    reading of the clock: the error of the conversion in the log line when
    that throws, else the [TypeError] of [query.toLowerCase()], which for
    [null] is another one than for the other values. *)
Lemma processQuery_throws H query sessionId w :
  (forall q, query <> JStr q) ->
  ChatProcessor.processQuery H query sessionId w =
  (Throw match toString H query with
         | Throw e => e
         | Return _ =>
             match query with
             | JNull => JsError "Cannot read properties of null (reading 'toLowerCase')"
             | _ => JsError "query.toLowerCase is not a function"
             end
         end,
   after_ticks 1 w).
Proof.
  intros Hq.
  unfold ChatProcessor.processQuery, ChatProcessor.processQuery_with,
    ChatProcessor.initializeSupabase, template, bind, try_catch, Date_now, throw.
  destruct (toString H query) as [text|e]; [| reflexivity].
  destruct query; try reflexivity.
  exfalso. eapply Hq. reflexivity.
Qed.

(** Taking apart a body that is not [null] gives its two fields. *)
Lemma destructure_fields value w :
  value <> JNull ->
  ChatRoute.destructure value w =
  (Return (body_field "query" value, body_field "sessionId" value), w).
Proof.
  intros Hv. destruct value; try reflexivity. contradiction Hv. reflexivity.
Qed.

(** The handler once the body is read and both fields are there. *)
Lemma POST_with_fields H request w value query sessionId :
  ChatRoute.json request = Return value ->
  body_field "query" value = Some query ->
  body_field "sessionId" value = Some sessionId ->
  ChatRoute.truthy (Some query) = true ->
  ChatRoute.truthy (Some sessionId) = true ->
  ChatRoute.POST H request w =
  match toString H query with
  | Throw error => (Return (internal_error error), w)
  | Return _ =>
      match ChatProcessor.processQuery_with H (ChatRoute.createClient request)
              query sessionId w with
      | (Return result, w') =>
          (Return (chat_ok result (clock w' (ticks w'))), after_ticks 1 w')
      | (Throw error, w') => (Return (internal_error error), w')
      end
  end.
Proof.
  intros Hj Hq Hs Htq Hts.
  assert (Hv : value <> JNull) by (intros ->; discriminate Hq).
  unfold ChatRoute.POST, try_catch, bind. rewrite Hj, (destructure_fields w Hv), Hq, Hs.
  rewrite Htq, Hts. cbv beta iota zeta delta [negb orb ChatRoute.or_undefined].
  unfold template at 1.
  destruct (toString H query) as [text|error]; [| reflexivity].
  destruct (ChatProcessor.processQuery_with H (ChatRoute.createClient request)
              query sessionId w) as [[result|error] w']; reflexivity.
Qed.

(** C8, as the code has it: [POST /api/chat] answers 400 with an error
    object, and leaves the world as it was, when the body is read, is not
    [null], and [query] or [sessionId] is missing or falsy in it. It answers
    200 with [success], [response], [queryType], [executionTime], [dataUsed]
    and [visualizations] (and a time stamp) when both are there and
    [processQuery] returns. It answers 500 with a generic error and a detail
    string when something throws: reading the body, taking apart a body that
    is [null] (whose two fields are missing as well), the conversion of
    [query] in the log line, or [processQuery], which includes the creation
    of the client. *)
Theorem POST_responses :
  forall (H : Host) (request : ChatRoute.Request) (w : World),
    (forall value,
       ChatRoute.json request = Return value ->
       value <> JNull ->
       ChatRoute.truthy (body_field "query" value) = false \/
       ChatRoute.truthy (body_field "sessionId" value) = false ->
       ChatRoute.POST H request w = (Return bad_request, w)) /\
    (forall value query sessionId result w',
       ChatRoute.json request = Return value ->
       body_field "query" value = Some query ->
       body_field "sessionId" value = Some sessionId ->
       ChatRoute.truthy (Some query) = true ->
       ChatRoute.truthy (Some sessionId) = true ->
       ChatProcessor.processQuery_with H (ChatRoute.createClient request)
         query sessionId w = (Return result, w') ->
       ChatRoute.POST H request w =
       (Return (chat_ok result (clock w' (ticks w'))), after_ticks 1 w')) /\
    (forall error,
       ChatRoute.json request = Throw error ->
       ChatRoute.POST H request w = (Return (internal_error error), w)) /\
    (ChatRoute.json request = Return JNull ->
       body_field "query" JNull = None /\ body_field "sessionId" JNull = None /\
       exists message,
         ChatRoute.POST H request w = (Return (internal_error (JsError message)), w)) /\
    (forall value query sessionId error,
       ChatRoute.json request = Return value ->
       body_field "query" value = Some query ->
       body_field "sessionId" value = Some sessionId ->
       ChatRoute.truthy (Some query) = true ->
       ChatRoute.truthy (Some sessionId) = true ->
       toString H query = Throw error ->
       ChatRoute.POST H request w = (Return (internal_error error), w)) /\
    (forall value query sessionId text error w',
       ChatRoute.json request = Return value ->
       body_field "query" value = Some query ->
       body_field "sessionId" value = Some sessionId ->
       ChatRoute.truthy (Some query) = true ->
       ChatRoute.truthy (Some sessionId) = true ->
       toString H query = Return text ->
       ChatProcessor.processQuery_with H (ChatRoute.createClient request)
         query sessionId w = (Throw error, w') ->
       ChatRoute.POST H request w = (Return (internal_error error), w')) /\
    (forall value query sessionId text error,
       ChatRoute.json request = Return value ->
       body_field "query" value = Some query ->
       body_field "sessionId" value = Some sessionId ->
       ChatRoute.truthy (Some query) = true ->
       ChatRoute.truthy (Some sessionId) = true ->
       toString H query = Return text ->
       ChatRoute.createClient request = Throw error ->
       ChatRoute.POST H request w = (Return (internal_error error), after_ticks 1 w)).
Proof.
  intros H request w.
  split; [| split; [| split; [| split; [| split; [| split]]]]].
  - intros value Hj Hv Hf.
    unfold ChatRoute.POST, try_catch, bind. rewrite Hj, (destructure_fields w Hv).
    assert (E : negb (ChatRoute.truthy (body_field "query" value)) ||
                negb (ChatRoute.truthy (body_field "sessionId" value)) = true).
    { destruct Hf as [-> | ->]; [reflexivity | apply orb_true_r]. }
    rewrite E. reflexivity.
  - intros value query sessionId result w' Hj Hq Hs Htq Hts Hp.
    rewrite (POST_with_fields H request w Hj Hq Hs Htq Hts).
    pose proof (processQuery_with_head H (ChatRoute.createClient request)
                  query sessionId w) as Hh.
    rewrite Hp in Hh.
    destruct (toString H query) as [text|e]; [rewrite Hp; reflexivity | discriminate Hh].
  - intros error Hj.
    unfold ChatRoute.POST, try_catch, bind. rewrite Hj. reflexivity.
  - intros Hj. split; [reflexivity |]. split; [reflexivity |]. eexists.
    unfold ChatRoute.POST, try_catch, bind. rewrite Hj. reflexivity.
  - intros value query sessionId error Hj Hq Hs Htq Hts Hlog.
    rewrite (POST_with_fields H request w Hj Hq Hs Htq Hts), Hlog. reflexivity.
  - intros value query sessionId text error w' Hj Hq Hs Htq Hts Hlog Hp.
    rewrite (POST_with_fields H request w Hj Hq Hs Htq Hts), Hlog, Hp. reflexivity.
  - intros value query sessionId text error Hj Hq Hs Htq Hts Hlog Hc.
    rewrite (POST_with_fields H request w Hj Hq Hs Htq Hts), Hlog.
    rewrite processQuery_with_head, Hlog, Hc. reflexivity.
Qed.

Lemma POST_responses_witness :
  ChatRoute.POST sample_host
    {| ChatRoute.json := Return (JObj [("query", JStr "temperature of float 5906468")]);
       ChatRoute.sessionIdParam := None;
       ChatRoute.createClient := Return tt |}
    sample_world = (Return bad_request, sample_world) /\
  (exists result w',
     ChatProcessor.processQuery_with sample_host (Return tt)
       (JStr "compare floats") (JStr "s9") sample_world = (Return result, w') /\
     ChatRoute.POST sample_host
       {| ChatRoute.json :=
            Return (JObj [("query", JStr "compare floats"); ("sessionId", JStr "s9")]);
          ChatRoute.sessionIdParam := None;
          ChatRoute.createClient := Return tt |}
       sample_world =
     (Return (chat_ok result (clock w' (ticks w'))), after_ticks 1 w') /\
     ChatProcessor.res_queryType result = "comparison_query" /\
     List.length (chat_sessions (store w')) = 4) /\
  ChatRoute.POST sample_host
    {| ChatRoute.json := Return (JObj [("query", JNum 7); ("sessionId", JStr "s9")]);
       ChatRoute.sessionIdParam := None;
       ChatRoute.createClient := Return tt |}
    sample_world =
  (Return (internal_error (JsError "query.toLowerCase is not a function")),
   after_ticks 1 sample_world) /\
  ChatRoute.POST sample_host
    {| ChatRoute.json :=
         Return (JObj [("query", JObj [("toString", JNum 1)]); ("sessionId", JStr "s9")]);
       ChatRoute.sessionIdParam := None;
       ChatRoute.createClient := Return tt |}
    sample_world =
  (Return (internal_error (JsError "Cannot convert object to primitive value")),
   sample_world) /\
  ChatRoute.POST sample_host
    {| ChatRoute.json :=
         Return (JObj [("query", JStr "compare floats"); ("sessionId", JStr "s9")]);
       ChatRoute.sessionIdParam := None;
       ChatRoute.createClient := Throw (JsError "no client") |}
    sample_world =
  (Return (internal_error (JsError "no client")), after_ticks 1 sample_world).
Proof.
  split; [| split; [| split; [| split]]].
  - apply (proj1 (POST_responses sample_host
                    {| ChatRoute.json :=
                         Return (JObj [("query", JStr "temperature of float 5906468")]);
                       ChatRoute.sessionIdParam := None;
                       ChatRoute.createClient := Return tt |}
                    sample_world)
             (JObj [("query", JStr "temperature of float 5906468")]));
      [reflexivity | discriminate | right; reflexivity].
  - destruct (ChatProcessor.processQuery_with sample_host (Return tt)
                (JStr "compare floats") (JStr "s9") sample_world)
      as [[result|e] w'] eqn:E; [| vm_compute in E; discriminate E].
    exists result, w'. split; [reflexivity |].
    split.
    + apply (proj1 (proj2 (POST_responses sample_host
                      {| ChatRoute.json :=
                           Return (JObj [("query", JStr "compare floats");
                                         ("sessionId", JStr "s9")]);
                         ChatRoute.sessionIdParam := None;
                         ChatRoute.createClient := Return tt |}
                      sample_world))
               (JObj [("query", JStr "compare floats"); ("sessionId", JStr "s9")])
               (JStr "compare floats") (JStr "s9"));
        [reflexivity | reflexivity | reflexivity | reflexivity | reflexivity | exact E].
    + vm_compute in E. injection E as <- <-. split; reflexivity.
  - apply (proj1 (proj2 (proj2 (proj2 (proj2 (proj2
             (POST_responses sample_host
                {| ChatRoute.json :=
                     Return (JObj [("query", JNum 7); ("sessionId", JStr "s9")]);
                   ChatRoute.sessionIdParam := None;
                   ChatRoute.createClient := Return tt |}
                sample_world))))))
             (JObj [("query", JNum 7); ("sessionId", JStr "s9")])
             (JNum 7) (JStr "s9") "2000");
      reflexivity.
  - apply (proj1 (proj2 (proj2 (proj2 (proj2
             (POST_responses sample_host
                {| ChatRoute.json :=
                     Return (JObj [("query", JObj [("toString", JNum 1)]);
                                   ("sessionId", JStr "s9")]);
                   ChatRoute.sessionIdParam := None;
                   ChatRoute.createClient := Return tt |}
                sample_world)))))
             (JObj [("query", JObj [("toString", JNum 1)]); ("sessionId", JStr "s9")])
             (JObj [("toString", JNum 1)]) (JStr "s9"));
      reflexivity.
  - apply (proj2 (proj2 (proj2 (proj2 (proj2 (proj2
             (POST_responses sample_host
                {| ChatRoute.json :=
                     Return (JObj [("query", JStr "compare floats");
                                   ("sessionId", JStr "s9")]);
                   ChatRoute.sessionIdParam := None;
                   ChatRoute.createClient := Throw (JsError "no client") |}
                sample_world))))))
             (JObj [("query", JStr "compare floats"); ("sessionId", JStr "s9")])
             (JStr "compare floats") (JStr "s9") "compare floats");
      reflexivity.
Defined.

(** A body that is [null] has neither field, and the answer is 500, not
    400. *)
Lemma POST_null_body_answers_500 :
  body_field "query" JNull = None /\
  body_field "sessionId" JNull = None /\
  exists response,
    ChatRoute.POST sample_host
      {| ChatRoute.json := Return JNull;
         ChatRoute.sessionIdParam := None;
         ChatRoute.createClient := Return tt |}
      sample_world = (Return response, sample_world) /\
    ChatRoute.status response = 500 /\
    ChatRoute.body response =
      ChatRoute.ErrorBody "Failed to process chat query"
        (Some "Cannot destructure property 'query' of null").
Proof.
  split; [reflexivity |]. split; [reflexivity |].
  eexists. split; [reflexivity |]. split; reflexivity.
Qed.

(** A request with both fields, on the sample world: the response and the row
    the chat session store gains. *)
Example POST_sample :
  let request :=
    {| ChatRoute.json :=
         Return (JObj [("query", JStr "compare floats"); ("sessionId", JStr "s9")]);
       ChatRoute.sessionIdParam := None;
       ChatRoute.createClient := Return tt |} in
  let result := ChatRoute.POST sample_host request sample_world in
  option_map ChatRoute.status
    (match fst result with Return r => Some r | Throw _ => None end) = Some 200 /\
  List.length (chat_sessions (store (snd result))) = 4.
Proof. vm_compute. split; reflexivity. Qed.

(** X18: The handler never throws: every request gets a response, with status
    200, 400 or 500. *)
Lemma POST_always_responds H request w :
  exists r w',
    ChatRoute.POST H request w = (Return r, w') /\
    (ChatRoute.status r = 200 \/ ChatRoute.status r = 400 \/ ChatRoute.status r = 500).
Proof.
  unfold ChatRoute.POST, try_catch, bind.
  destruct (ChatRoute.json request) as [value|e]; [| eexists _, _; split; [reflexivity | auto]].
  destruct (ChatRoute.destructure value w) as [[[q sid]|e] w1];
    [| eexists _, _; split; [reflexivity | auto]].
  destruct (negb (ChatRoute.truthy q) || negb (ChatRoute.truthy sid));
    [eexists _, _; split; [reflexivity | auto] |].
  destruct (template H (ChatRoute.or_undefined q) w1) as [[text|e] w2];
    [| eexists _, _; split; [reflexivity | auto]].
  destruct (ChatProcessor.processQuery_with H (ChatRoute.createClient request)
              (ChatRoute.or_undefined q) (ChatRoute.or_undefined sid) w2)
    as [[result|e] w3];
    eexists _, _; (split; [reflexivity | auto]).
Qed.

(** ** Chat history *)

Lemma messages_of_flat_length rows :
  List.length (flat_map ChatProcessor.messages_of rows) = 2 * List.length rows.
Proof. induction rows as [|r rows IH]; simpl; [reflexivity | rewrite IH; lia]. Qed.

(** [getChatHistory] by cases: the creation of the client, outside the
    [try], throws on; a read that the store fails or rejects yields no
    message. *)
Lemma getChatHistory_with_run created sessionId w :
  ChatProcessor.getChatHistory_with created sessionId w =
  (match created with
   | Throw e => Throw e
   | Return _ =>
       Return match health (store w) with
              | Up => flat_map ChatProcessor.messages_of (oldest_first sessionId w)
              | _ => []
              end
   end, w).
Proof.
  unfold ChatProcessor.getChatHistory_with, ChatProcessor.initializeSupabase, bind,
    try_catch, get_store, await, Supabase.sessions_of, Supabase.read.
  destruct created as [[]|e]; [| reflexivity].
  destruct (health (store w)); reflexivity.
Qed.

(** The handler of [GET /api/chat] for a session identifier that is there. *)
Lemma GET_run request w sessionId :
  ChatRoute.sessionIdParam request = Some sessionId ->
  Js.truthy_string (Some sessionId) = true ->
  ChatRoute.GET request w =
  (Return match ChatRoute.createClient request with
          | Throw _ => history_failed
          | Return _ =>
              match health (store w) with
              | Up =>
                  history_ok (flat_map ChatProcessor.messages_of (oldest_first sessionId w))
                    (2 * List.length (stored_rows sessionId w))
              | _ => history_ok [] 0
              end
          end, w).
Proof.
  intros Hparam Ht.
  unfold ChatRoute.GET. rewrite Hparam, Ht. cbv beta iota zeta delta [negb].
  unfold try_catch, bind. rewrite getChatHistory_with_run.
  destruct (ChatRoute.createClient request) as [[]|e]; [| reflexivity].
  destruct (health (store w)); try reflexivity.
  unfold ret, ChatRoute.NextResponse_json, history_ok.
  rewrite messages_of_flat_length. unfold oldest_first. rewrite order_length. reflexivity.
Qed.

(** A read that fails, by an error or by a rejection, yields no message. *)
Lemma getChatHistory_on_failure sessionId w :
  health (store w) <> Up ->
  ChatProcessor.getChatHistory sessionId w = (Return [], w).
Proof.
  intros Hdown. unfold ChatProcessor.getChatHistory. rewrite getChatHistory_with_run.
  destruct (health (store w)); [contradiction Hdown; reflexivity | reflexivity | reflexivity].
Qed.

(** C9, as the code has it: when the client is there and the store answers
    the read, [getChatHistory] returns two messages for every row the table
    holds for the session, rows in ascending order of [created_at]: a user
    message with the stored query, then an assistant message with the stored
    response, both with the row's time stamp and query type; their number,
    which [GET /api/chat] reports as [count], is twice the number of rows.
    When the store fails or rejects the read, [getChatHistory] returns no
    message and the route answers 200 with [count] 0, whatever rows are
    stored; when the client cannot be created [getChatHistory] throws and the
    route answers 500. *)
Theorem getChatHistory_two_messages_per_row :
  forall (created : Outcome unit) (sessionId : string) (w : World),
    Permutation (oldest_first sessionId w) (stored_rows sessionId w) /\
    StronglySorted (in_order created_at true) (oldest_first sessionId w) /\
    (forall r, ChatProcessor.messages_of r = [user_message r; assistant_message r]) /\
    (created = Return tt ->
     health (store w) = Up ->
     ChatProcessor.getChatHistory_with created sessionId w =
       (Return (flat_map (fun r => [user_message r; assistant_message r])
                  (oldest_first sessionId w)), w) /\
     List.length (flat_map (fun r => [user_message r; assistant_message r])
                    (oldest_first sessionId w)) =
       2 * List.length (stored_rows sessionId w)) /\
    (created = Return tt ->
     health (store w) <> Up ->
     ChatProcessor.getChatHistory_with created sessionId w = (Return [], w)) /\
    (forall e,
       created = Throw e ->
       ChatProcessor.getChatHistory_with created sessionId w = (Throw e, w)) /\
    (forall request,
       ChatRoute.sessionIdParam request = Some sessionId ->
       Js.truthy_string (Some sessionId) = true ->
       ChatRoute.createClient request = created ->
       ChatRoute.GET request w =
       (Return match created with
               | Throw _ => history_failed
               | Return _ =>
                   match health (store w) with
                   | Up =>
                       history_ok
                         (flat_map (fun r => [user_message r; assistant_message r])
                            (oldest_first sessionId w))
                         (2 * List.length (stored_rows sessionId w))
                   | _ => history_ok [] 0
                   end
               end, w)).
Proof.
  intros created sessionId w.
  split; [apply order_permutation |].
  split; [apply order_sorted |].
  split; [reflexivity |].
  split; [| split; [| split]].
  - intros -> Hup. rewrite getChatHistory_with_run, Hup.
    split; [reflexivity |].
    change (fun r => [user_message r; assistant_message r]) with ChatProcessor.messages_of.
    rewrite messages_of_flat_length. unfold oldest_first. rewrite order_length. reflexivity.
  - intros -> Hdown. rewrite getChatHistory_with_run.
    destruct (health (store w)); [contradiction Hdown; reflexivity | reflexivity | reflexivity].
  - intros e ->. rewrite getChatHistory_with_run. reflexivity.
  - intros request Hparam Ht <-. exact (GET_run request w Hparam Ht).
Qed.

Lemma getChatHistory_two_messages_per_row_witness :
  stored_rows "s1" (history_world Up) =
    [ chat_row "r3" 30 "s1" "oxygen?" "Biogeochemical data";
      chat_row "r2" 20 "s1" "salinity?" "Salinity data" ] /\
  ChatProcessor.getChatHistory_with (Return tt) "s1" (history_world Up) =
    (Return [ user_message (chat_row "r2" 20 "s1" "salinity?" "Salinity data");
              assistant_message (chat_row "r2" 20 "s1" "salinity?" "Salinity data");
              user_message (chat_row "r3" 30 "s1" "oxygen?" "Biogeochemical data");
              assistant_message (chat_row "r3" 30 "s1" "oxygen?" "Biogeochemical data") ],
     history_world Up) /\
  ChatRoute.GET {| ChatRoute.json := Throw (JsError "no body");
                   ChatRoute.sessionIdParam := Some "s1";
                   ChatRoute.createClient := Return tt |} (history_world Up) =
    (Return (history_ok
               [ user_message (chat_row "r2" 20 "s1" "salinity?" "Salinity data");
                 assistant_message (chat_row "r2" 20 "s1" "salinity?" "Salinity data");
                 user_message (chat_row "r3" 30 "s1" "oxygen?" "Biogeochemical data");
                 assistant_message (chat_row "r3" 30 "s1" "oxygen?" "Biogeochemical data") ]
               4),
     history_world Up) /\
  ChatProcessor.getChatHistory_with (Return tt) "s1"
    (history_world (Rejecting (JsError "fetch failed"))) =
    (Return [], history_world (Rejecting (JsError "fetch failed"))) /\
  ChatProcessor.getChatHistory_with (Throw (JsError "no client")) "s1" (history_world Up) =
    (Throw (JsError "no client"), history_world Up).
Proof.
  split; [reflexivity |].
  destruct (getChatHistory_two_messages_per_row (Return tt) "s1" (history_world Up))
    as (_ & _ & _ & Hup & _ & _ & Hget).
  split; [exact (proj1 (Hup eq_refl eq_refl)) |].
  split; [exact (Hget {| ChatRoute.json := Throw (JsError "no body");
                         ChatRoute.sessionIdParam := Some "s1";
                         ChatRoute.createClient := Return tt |}
                   eq_refl eq_refl eq_refl) |].
  split.
  - apply (getChatHistory_two_messages_per_row (Return tt) "s1"
             (history_world (Rejecting (JsError "fetch failed"))));
      [reflexivity | discriminate].
  - apply (getChatHistory_two_messages_per_row (Throw (JsError "no client")) "s1"
             (history_world Up)).
    reflexivity.
Defined.

(** Two rows are stored for the session and the store answers the read with
    an error: the history has no message and [count] is 0, not 4. *)
Lemma getChatHistory_failed_read_counts_nothing :
  List.length (stored_rows "s1" (history_world (Failing "connection lost"))) = 2 /\
  ChatProcessor.getChatHistory "s1" (history_world (Failing "connection lost")) =
    (Return [], history_world (Failing "connection lost")) /\
  ChatRoute.GET {| ChatRoute.json := Throw (JsError "no body");
                   ChatRoute.sessionIdParam := Some "s1";
                   ChatRoute.createClient := Return tt |}
    (history_world (Failing "connection lost")) =
    (Return {| ChatRoute.status := 200;
               ChatRoute.body := ChatRoute.HistoryBody true [] 0 |},
     history_world (Failing "connection lost")).
Proof. repeat split. Qed.

(** The history of session [s1] in the sample store. *)
Example getChatHistory_sample :
  option_map (map (fun m => (ChatProcessor.role m, ChatProcessor.content m)))
    (match fst (ChatProcessor.getChatHistory "s1" sample_world) with
     | Return l => Some l
     | Throw _ => None
     end) =
  Some [("user", "salinity?"); ("assistant", "Salinity data")].
Proof. vm_compute. reflexivity. Qed.

(** Rows are returned oldest first, whatever their order in the table. *)
Example sessions_in_ascending_order :
  map created_at
    (Supabase.order created_at true
       [sample_session 30 "s" "c" "C"; sample_session 10 "s" "a" "A";
        sample_session 20 "s" "b" "B"]) = [10; 20; 30]%Z.
Proof. vm_compute. reflexivity. Qed.

(* ===================================================================== *)
(** * Further properties of the chat pipeline *)
(* ===================================================================== *)

(** ** The classifier, continued *)

Lemma lower_char_lower c : Js.lower_char (Js.lower_char c) = Js.lower_char c.
Proof. each_character c. Qed.

Lemma toLowerCase_lower s : Js.toLowerCase (Js.toLowerCase s) = Js.toLowerCase s.
Proof.
  induction s as [|c s IH]; simpl; [reflexivity |].
  rewrite lower_char_lower, IH. reflexivity.
Qed.

(** X1: The label, the visualizations and the data needed are those of the
    lower-cased query: two queries that differ in case only are classified
    alike, and a lower-cased query is classified as the query itself. *)
Theorem analyzeQuery_ignores_case :
  forall query query',
    Js.toLowerCase query = Js.toLowerCase query' ->
    ChatProcessor.type (ChatProcessor.analyzeQuery query) =
      ChatProcessor.type (ChatProcessor.analyzeQuery query') /\
    ChatProcessor.visualizations (ChatProcessor.analyzeQuery query) =
      ChatProcessor.visualizations (ChatProcessor.analyzeQuery query') /\
    ChatProcessor.dataNeeded (ChatProcessor.analyzeQuery query) =
      ChatProcessor.dataNeeded (ChatProcessor.analyzeQuery query') /\
    ChatProcessor.type (ChatProcessor.analyzeQuery (Js.toLowerCase query)) =
      ChatProcessor.type (ChatProcessor.analyzeQuery query).
Proof.
  intros query query' E. unfold ChatProcessor.analyzeQuery. cbv zeta.
  rewrite toLowerCase_lower, <- E.
  repeat match goal with
         | |- context [if ?c then _ else _] => destruct c
         end; repeat split; reflexivity.
Qed.

Lemma analyzeQuery_ignores_case_witness :
  ChatProcessor.type (ChatProcessor.analyzeQuery "SALINITY near Float 12") =
  ChatProcessor.type (ChatProcessor.analyzeQuery "salinity near float 12").
Proof.
  apply (analyzeQuery_ignores_case "SALINITY near Float 12" "salinity near float 12").
  reflexivity.
Defined.

Lemma starts_with_trans : forall a b s,
  Js.starts_with a b = true -> Js.starts_with b s = true -> Js.starts_with a s = true.
Proof.
  induction a as [|x a IH]; intros b s Hab Hbs; [reflexivity |].
  destruct b as [|y b]; [discriminate |]. destruct s as [|z s]; [discriminate |].
  simpl in *. apply andb_true_iff in Hab. apply andb_true_iff in Hbs.
  destruct Hab as [Hxy Hab], Hbs as [Hyz Hbs].
  apply Ascii.eqb_eq in Hxy. apply Ascii.eqb_eq in Hyz. subst.
  rewrite Ascii.eqb_refl. simpl. eapply IH; eauto.
Qed.

(** A text that includes a word includes each beginning of the word. *)
Lemma includes_beginning : forall s a b,
  Js.starts_with a b = true -> Js.includes s b = true -> Js.includes s a = true.
Proof.
  induction s as [|c s IH]; intros a b Hab Hb; simpl in *.
  - rewrite orb_false_r in *. eapply starts_with_trans; eauto.
  - apply orb_true_iff in Hb. apply orb_true_iff. destruct Hb as [Hb | Hb].
    + left. eapply starts_with_trans; eauto.
    + right. eapply IH; eauto.
Qed.

(** X2: A query is a [temperature_query] exactly when its lower-cased text
    includes "temp": the test for "temperature" adds nothing to the first
    rule. *)
Theorem analyzeQuery_temperature_iff_temp :
  forall query,
    ChatProcessor.type (ChatProcessor.analyzeQuery query) = "temperature_query" <->
    Js.includes (Js.toLowerCase query) "temp" = true.
Proof.
  intros query. rewrite analyzeQuery_rule_order. cbv zeta.
  destruct (Js.includes (Js.toLowerCase query) "temp") eqn:Etemp.
  - rewrite orb_true_r. split; reflexivity.
  - destruct (Js.includes (Js.toLowerCase query) "temperature") eqn:Et.
    + rewrite (includes_beginning (Js.toLowerCase query) "temp" "temperature" eq_refl Et)
        in Etemp. discriminate.
    + cbn [orb].
      repeat match goal with
             | |- context [if ?c then _ else _] => destruct c
             end; split; discriminate.
Qed.

(** X3: The labels the classifier gives are the six that [generateResponse]
    tells apart. *)
Theorem analyzeQuery_labels :
  forall query,
    In (ChatProcessor.type (ChatProcessor.analyzeQuery query))
       ["temperature_query"; "salinity_query"; "bgc_query"; "float_location_query";
        "comparison_query"; "general_query"].
Proof.
  intros query. rewrite analyzeQuery_rule_order. cbv zeta.
  repeat match goal with
         | |- context [if ?c then _ else _] => destruct c
         end; simpl; auto 10.
Qed.

(** X4: A [comparison_query] has one of "compare", "difference", "vs" and none
    of the words of the rules tested before: a query that asks to compare
    temperatures, salinities or oxygen levels is not one. *)
Theorem analyzeQuery_comparison_only_if :
  forall query,
    ChatProcessor.type (ChatProcessor.analyzeQuery query) = "comparison_query" ->
    let q := Js.toLowerCase query in
    (Js.includes q "compare" || Js.includes q "difference" || Js.includes q "vs") = true /\
    Js.includes q "temp" = false /\
    Js.includes q "salinity" = false /\ Js.includes q "salt" = false /\
    Js.includes q "oxygen" = false /\ Js.includes q "nitrate" = false /\
    Js.includes q "ph" = false /\ Js.includes q "chlorophyll" = false /\
    (Js.includes q "float" && (Js.includes q "location" || Js.includes q "position")) = false.
Proof.
  intros query. rewrite analyzeQuery_rule_order. cbv zeta.
  destruct (Js.includes (Js.toLowerCase query) "temperature") eqn:E0;
    [discriminate |].
  destruct (Js.includes (Js.toLowerCase query) "temp") eqn:E1; [discriminate |].
  destruct (Js.includes (Js.toLowerCase query) "salinity") eqn:E2; [discriminate |].
  destruct (Js.includes (Js.toLowerCase query) "salt") eqn:E3; [discriminate |].
  destruct (Js.includes (Js.toLowerCase query) "oxygen") eqn:E4; [discriminate |].
  destruct (Js.includes (Js.toLowerCase query) "nitrate") eqn:E5; [discriminate |].
  destruct (Js.includes (Js.toLowerCase query) "ph") eqn:E6; [discriminate |].
  destruct (Js.includes (Js.toLowerCase query) "chlorophyll") eqn:E7; [discriminate |].
  cbn [orb].
  destruct (Js.includes (Js.toLowerCase query) "float" &&
            (Js.includes (Js.toLowerCase query) "location" ||
             Js.includes (Js.toLowerCase query) "position")) eqn:E8; [discriminate |].
  destruct (Js.includes (Js.toLowerCase query) "compare" ||
            Js.includes (Js.toLowerCase query) "difference" ||
            Js.includes (Js.toLowerCase query) "vs") eqn:E9; [| discriminate].
  intros _. repeat split; reflexivity.
Qed.

Lemma analyzeQuery_comparison_only_if_witness :
  Js.includes (Js.toLowerCase "Difference between float 1 and float 2") "temp" = false.
Proof.
  apply (analyzeQuery_comparison_only_if "Difference between float 1 and float 2").
  vm_compute. reflexivity.
Defined.

(** ** Parameter extraction, continued *)

(** What a search returns is the first way of matching at some place of the
    text. *)
Lemma exec_found icase r query found :
  Regex.exec icase r query = Some found ->
  exists before rest m,
    Js.chars query = before ++ rest /\
    In m (matches icase r rest []) /\
    found = group ((0, consumed rest (fst m)) :: snd m).
Proof.
  unfold Regex.exec.
  destruct (exec_at icase r (Js.chars query)) as [c|] eqn:E; [| discriminate].
  intros [= <-]. apply exec_at_some in E.
  destruct E as (before & rest & m & others & Hs & Hm & -> & _).
  exists before, rest, m. repeat split; [exact Hs |]. rewrite Hm. left. reflexivity.
Qed.

(** What [/float\s+(\d+)/i] finds is digits. *)
Lemma float_search_sound query found :
  Regex.exec true ChatProcessor.float_pattern query = Some found ->
  digits (found 1).
Proof.
  intros E. apply exec_found in E. destruct E as (before & rest & m & _ & Hin & ->).
  unfold ChatProcessor.float_pattern, plus, word in Hin. invert_match.
  repeat match goal with
         | p : (list ascii * caps)%type |- _ => destruct p
         end.
  cbn [fst snd] in *. subst.
  repeat match goal with
         | H : (_, _) = (_, _) |- _ => injection H as ? ?
         end.
  subst. unfold group. cbn [lookup Nat.eqb]. rewrite consumed_app.
  apply digit_run_digits. split; assumption.
Qed.

Lemma digits_truthy id : digits id -> Js.truthy_string (Some id) = true.
Proof.
  intros [Hne _]. destruct id; [contradiction Hne; reflexivity | reflexivity].
Qed.

(** The identifier is the first group of one of the two searches. *)
Lemma floatId_found query id :
  ChatProcessor.floatId (ChatProcessor.extractParameters query) = Some id ->
  exists found,
    id = found 1 /\
    (Regex.exec true ChatProcessor.float_pattern query = Some found \/
     Regex.exec false ChatProcessor.seven_digits_pattern query = Some found).
Proof.
  unfold ChatProcessor.extractParameters. cbv zeta. cbn [ChatProcessor.floatId].
  destruct (Regex.exec true ChatProcessor.float_pattern query) as [found|] eqn:E1.
  - cbn [ChatProcessor.or_else]. intros [= <-]. exists found. auto.
  - cbn [ChatProcessor.or_else].
    destruct (Regex.exec false ChatProcessor.seven_digits_pattern query) as [found|] eqn:E2;
      [| discriminate].
    intros [= <-]. exists found. auto.
Qed.

(** X5: The float identifier, when there is one, is a string of digits: it is
    never empty, so the tests [if (floatId)] of the callers hold whenever the
    parameter is set. *)
Theorem extractParameters_floatId_digits :
  forall query id,
    ChatProcessor.floatId (ChatProcessor.extractParameters query) = Some id ->
    digits id /\ Js.truthy_string (Some id) = true.
Proof.
  intros query id Hid.
  assert (Hd : digits id).
  { destruct (floatId_found query Hid) as (found & -> & [E | E]).
    - eapply float_search_sound, E.
    - eapply seven_search_sound, E. }
  split; [exact Hd | apply digits_truthy, Hd].
Qed.

Lemma extractParameters_floatId_digits_witness :
  digits "0042" /\ Js.truthy_string (Some "0042") = true.
Proof.
  apply (extractParameters_floatId_digits "Where is Float  0042 now?" (id := "0042")).
  vm_compute. reflexivity.
Defined.















(** X7: The date, when there is one, is four digits, a separator, one or two
    digits, a separator and one or two digits, the separators being "-" or
    "/" and not necessarily the same; nothing more is checked, so a month 99
    is accepted. *)
Theorem extractParameters_date_shape :
  forall query d,
    ChatProcessor.date (ChatProcessor.extractParameters query) = Some d ->
    exists year sep1 month sep2 day,
      Js.chars d = year ++ sep1 :: month ++ sep2 :: day /\
      (forallb Js.is_digit year = true /\ List.length year = 4) /\
      (forallb Js.is_digit month = true /\ 1 <= List.length month <= 2) /\
      (forallb Js.is_digit day = true /\ 1 <= List.length day <= 2) /\
      (sep1 = "-"%char \/ sep1 = "/"%char) /\ (sep2 = "-"%char \/ sep2 = "/"%char).
Proof.
  intros query d. unfold ChatProcessor.extractParameters. cbv zeta.
  cbn [ChatProcessor.date].
  destruct (Regex.exec false ChatProcessor.date_pattern query) as [found|] eqn:E;
    [| discriminate].
  intros [= <-]. apply exec_found in E.
  destruct E as (before & rest & m & _ & Hin & ->).
  unfold ChatProcessor.date_pattern, exactly, one, between in Hin. invert_match.
  repeat match goal with
         | p : (list ascii * caps)%type |- _ => destruct p
         end.
  cbn [fst snd] in *. subst.
  repeat match goal with
         | H : (_, _) = (_, _) |- _ => injection H as ? ?
         end.
  subst. unfold group. cbn [lookup Nat.eqb].
  match goal with
  | Hy : forallb (in_class Digit) ?year = true,
    Hy4 : 4 <= List.length ?year,
    H1 : forallb (in_class (OneOf _)) ?s1 = true,
    Hm : forallb (in_class Digit) ?month = true,
    Hm2 : within (Some 2) (List.length ?month),
    H2 : forallb (in_class (OneOf _)) ?s2 = true,
    Hd : forallb (in_class Digit) ?day = true,
    Hd2 : within (Some 2) (List.length ?day)
    |- context [consumed (?year ++ ?s1 ++ ?month ++ ?s2 ++ ?day ++ ?tail) ?tail] =>
      replace (year ++ s1 ++ month ++ s2 ++ day ++ tail)
        with ((year ++ s1 ++ month ++ s2 ++ day) ++ tail)
        by (rewrite <- !app_assoc; reflexivity);
      rewrite consumed_app, chars_text;
      destruct s1 as [|a1 [|? ?]]; simpl in *; try lia;
      destruct s2 as [|a2 [|? ?]]; simpl in *; try lia;
      exists year, a1, month, a2, day
  end.
  repeat match goal with
         | H : _ && true = true |- _ => rewrite andb_true_r in H
         | H : _ || false = true |- _ => rewrite orb_false_r in H
         | H : _ || _ = true |- _ => apply orb_true_iff in H
         | H : Ascii.eqb _ _ = true |- _ => apply Ascii.eqb_eq in H
         end.
  repeat split; try assumption; try lia.
  - match goal with
    | H : Ascii.eqb ?a _ = true \/ _ |- ?a = _ \/ _ =>
        destruct H as [H | H]; [left | right; rewrite orb_false_r in H];
        apply Ascii.eqb_eq, H
    end.
  - match goal with
    | H : Ascii.eqb ?a _ = true \/ _ |- ?a = _ \/ _ =>
        destruct H as [H | H]; [left | right; rewrite orb_false_r in H];
        apply Ascii.eqb_eq, H
    end.
Qed.

Lemma extractParameters_date_shape_witness :
  exists year sep1 month sep2 day,
    Js.chars "2024/99-71" = year ++ sep1 :: month ++ sep2 :: day /\
    (forallb Js.is_digit year = true /\ List.length year = 4) /\
    (forallb Js.is_digit month = true /\ 1 <= List.length month <= 2) /\
    (forallb Js.is_digit day = true /\ 1 <= List.length day <= 2) /\
    (sep1 = "-"%char \/ sep1 = "/"%char) /\ (sep2 = "-"%char \/ sep2 = "/"%char).
Proof.
  apply (extractParameters_date_shape "profiles since 2024/99-7123" (d := "2024/99-71")).
  vm_compute. reflexivity.
Defined.

(** ** Retrieval and [processQuery] *)









(** X10: The answer does not depend on the session: the response, the label, the
    time taken and the data used, or the error thrown, are the same for any
    two session identifiers, whether or not the session row can be stored. *)
Theorem processQuery_ignores_session :
  forall (H : Host) (query sessionId sessionId' : Json) (w : World),
    fst (ChatProcessor.processQuery H query sessionId w) =
    fst (ChatProcessor.processQuery H query sessionId' w).
Proof.
  intros H query sessionId sessionId' w.
  destruct query as [| b | x | q | items | fields];
    try (rewrite !processQuery_throws by (intros q; discriminate); reflexivity).
  unfold ChatProcessor.processQuery, ChatProcessor.processQuery_with,
    ChatProcessor.initializeSupabase, template, bind, try_catch, Date_now, throw.
  cbn [toString].
  cbv beta iota zeta.
  unfold ChatProcessor.retrieveRelevantData, bind, get_store, ret. cbv beta iota zeta.
  repeat match goal with
  | |- context [ChatProcessor.storeChatSession ?h ?s ?a ?b ?c ?d ?x] =>
      destruct (storeChatSession_returns h s a b c d x) as (? & ->)
  end.
  reflexivity.
Qed.

(** ** The chat session store *)


(** What [insert_session] leaves behind: the table as it was, or the table
    with one more row, of a session that was not in it. *)
Lemma insert_session_effect H sessionId q a t e w :
  let '(_, w') := Supabase.insert_session H sessionId q a t e w in
  chat_sessions (store w') = chat_sessions (store w) \/
  exists row,
    chat_sessions (store w') = chat_sessions (store w) ++ [row] /\
    existsb (fun r => String.eqb (session_id r) (session_id row))
      (chat_sessions (store w)) = false /\
    user_query row = q /\ ai_response row = a.
Proof.
  unfold Supabase.insert_session.
  destruct (health (store w)); auto.
  destruct (Supabase.column_text H sessionId) as [sid|]; auto.
  destruct (100 <? String.length sid); auto.
  destruct (existsb _ _) eqn:E; auto.
  right. eexists. cbn. split; [reflexivity |]. split; [exact E | split; reflexivity].
Qed.

Lemma processQuery_sessions H query sessionId w :
  let '(_, w') := ChatProcessor.processQuery H query sessionId w in
  chat_sessions (store w') = chat_sessions (store w) \/
  exists row,
    chat_sessions (store w') = chat_sessions (store w) ++ [row] /\
    existsb (fun r => String.eqb (session_id r) (session_id row))
      (chat_sessions (store w)) = false /\
    JStr (user_query row) = query.
Proof.
  destruct query as [| b | x | q | items | fields];
    try (rewrite processQuery_throws by (intros q; discriminate); left; reflexivity).
  unfold ChatProcessor.processQuery, ChatProcessor.processQuery_with,
    ChatProcessor.initializeSupabase, template, bind, try_catch, Date_now, throw.
  cbn [toString].
  cbv beta iota zeta.
  unfold ChatProcessor.retrieveRelevantData, bind, get_store, ret. cbv beta iota zeta.
  unfold ChatProcessor.storeChatSession, try_catch, bind.
  match goal with
  | |- context [Supabase.insert_session ?h ?s ?a ?b ?c ?d ?x] =>
      pose proof (insert_session_effect h s a b c d x) as Heff;
      destruct (Supabase.insert_session h s a b c d x) as [[r | x'] w1]
  end; cbn in *.
  - destruct Heff as [Heff | (row & Hrow & Hnew & Hq & _)]; [left; exact Heff |].
    right. exists row. subst. repeat split; (assumption || reflexivity).
  - destruct Heff as [Heff | (row & Hrow & Hnew & Hq & _)]; [left; exact Heff |].
    right. exists row. subst. repeat split; (assumption || reflexivity).
Qed.

(** X11: [POST /api/chat] adds at most one row to [chat_sessions] and keeps the
    session identifiers of the table distinct, as the schema requires: a
    session that has a row gets no second one. *)
Theorem POST_keeps_sessions_unique :
  forall (H : Host) (request : ChatRoute.Request) (w : World),
    NoDup (map session_id (chat_sessions (store w))) ->
    let w' := snd (ChatRoute.POST H request w) in
    NoDup (map session_id (chat_sessions (store w'))) /\
    (chat_sessions (store w') = chat_sessions (store w) \/
     exists row, chat_sessions (store w') = chat_sessions (store w) ++ [row]).
Proof.
  intros H request w Hnodup.
  assert (Hstep : forall w1 : World,
             chat_sessions (store w1) = chat_sessions (store w) \/
             (exists row,
                chat_sessions (store w1) = chat_sessions (store w) ++ [row] /\
                existsb (fun r => String.eqb (session_id r) (session_id row))
                  (chat_sessions (store w)) = false) ->
             NoDup (map session_id (chat_sessions (store w1))) /\
             (chat_sessions (store w1) = chat_sessions (store w) \/
              exists row, chat_sessions (store w1) = chat_sessions (store w) ++ [row])).
  { intros w1 [E | (row & E & Hnew)].
    - rewrite E. auto.
    - split; [| right; exists row; exact E].
      rewrite E, map_app. simpl.
      apply NoDup_app; [exact Hnodup | repeat constructor; intros [] |].
      intros sid Hin [<- | []]. apply in_map_iff in Hin.
      destruct Hin as (r & Hr & Hin).
      assert (Hex : existsb (fun r0 => String.eqb (session_id r0) (session_id row))
                      (chat_sessions (store w)) = true).
      { apply existsb_exists. exists r. split; [exact Hin |]. apply String.eqb_eq, Hr. }
      congruence. }
  cbv zeta. unfold ChatRoute.POST, try_catch, bind.
  destruct (ChatRoute.json request) as [value|e]; [| apply Hstep; left; reflexivity].
  destruct value as [| b | x | s | items | fields];
    try (apply Hstep; left; reflexivity).
  unfold ChatRoute.destructure, ret. cbv beta iota.
  destruct (negb (ChatRoute.truthy (ChatRoute.property "query" fields)) ||
            negb (ChatRoute.truthy (ChatRoute.property "sessionId" fields)));
    [apply Hstep; left; reflexivity |].
  unfold template. cbv beta iota. rewrite processQuery_with_head.
  pose proof (processQuery_sessions H
                (ChatRoute.or_undefined (ChatRoute.property "query" fields))
                (ChatRoute.or_undefined (ChatRoute.property "sessionId" fields)) w) as Hp.
  destruct (toString H (ChatRoute.or_undefined (ChatRoute.property "query" fields)));
    [| apply Hstep; left; reflexivity].
  destruct (ChatRoute.createClient request) as [[]|e];
    [| apply Hstep; left; reflexivity].
  destruct (ChatProcessor.processQuery H _ _ w) as [[result | e] w1]; cbn.
  - apply Hstep.
    destruct Hp as [Hp | (row & Hp & Hnew & _)];
      [left; exact Hp | right; exists row; split; assumption].
  - apply Hstep.
    destruct Hp as [Hp | (row & Hp & Hnew & _)];
      [left; exact Hp | right; exists row; split; assumption].
Qed.

Lemma POST_keeps_sessions_unique_witness :
  NoDup (map session_id
           (chat_sessions
              (store (snd (ChatRoute.POST sample_host
                             {| ChatRoute.json :=
                                  Return (JObj [("query", JStr "salinity near the equator");
                                                ("sessionId", JStr "s4")]);
                                ChatRoute.sessionIdParam := None;
                                ChatRoute.createClient := Return tt |}
                             sample_world))))).
Proof.
  apply (POST_keeps_sessions_unique sample_host
           {| ChatRoute.json :=
                Return (JObj [("query", JStr "salinity near the equator");
                              ("sessionId", JStr "s4")]);
              ChatRoute.sessionIdParam := None;
              ChatRoute.createClient := Return tt |}
           sample_world).
  repeat constructor; simpl; intuition discriminate.
Defined.








(** ** The region lookup, continued *)

Lemma float_at_least_minus_30 x :
  (-10 <=? x)%float = true -> (-30 <=? x)%float = true.
Proof.
  rewrite !FloatAxioms.leb_spec.
  replace (FloatOps.Prim2SF (-10)%float)
    with (SpecFloat.S754_finite true 5629499534213120 (-49)) by (vm_compute; reflexivity).
  replace (FloatOps.Prim2SF (-30)%float)
    with (SpecFloat.S754_finite true 8444249301319680 (-48)) by (vm_compute; reflexivity).
  destruct (FloatOps.Prim2SF x) as [s | s | | s m e];
    unfold SpecFloat.SFleb, SpecFloat.SFcompare; try (intros E; exact E).
  destruct s; [| intros E; exact E].
  destruct (Z.compare_spec (-49) e); destruct (Z.compare_spec (-48) e);
    try lia; try (intros E; reflexivity); try discriminate.
Qed.

Lemma float_at_least_20 x :
  (90 <=? x)%float = true -> (20 <=? x)%float = true.
Proof.
  rewrite !FloatAxioms.leb_spec.
  replace (FloatOps.Prim2SF 90%float)
    with (SpecFloat.S754_finite false 6333186975989760 (-46)) by (vm_compute; reflexivity).
  replace (FloatOps.Prim2SF 20%float)
    with (SpecFloat.S754_finite false 5629499534213120 (-48)) by (vm_compute; reflexivity).
  destruct (FloatOps.Prim2SF x) as [s | s | | s m e];
    unfold SpecFloat.SFleb, SpecFloat.SFcompare; try (intros E; exact E).
  destruct s; [intros E; exact E |].
  destruct (Z.compare_spec (-46) e); destruct (Z.compare_spec (-48) e);
    try lia; try (intros E; reflexivity); try discriminate.
Qed.

(** X14: The lookup never answers "Bay of Bengal": the box of the third test lies
    inside the box of the second, which is tested before it. Every answer is
    "Arabian Sea", "Indian Ocean" or "Indian Ocean region". *)
Theorem getOceanRegion_never_bay_of_bengal :
  forall lat lon,
    In (ChatProcessor.getOceanRegion lat lon)
       ["Arabian Sea"; "Indian Ocean"; "Indian Ocean region"] /\
    String.eqb (ChatProcessor.getOceanRegion lat lon) "Bay of Bengal" = false /\
    String.eqb (VectorEmbeddingsGenerator.getOceanRegion lat lon) "Bay of Bengal" = false.
Proof.
  intros lat lon.
  assert (G : In (ChatProcessor.getOceanRegion lat lon)
                ["Arabian Sea"; "Indian Ocean"; "Indian Ocean region"]).
  { unfold ChatProcessor.getOceanRegion.
    destruct ((0 <=? lat)%float && (lat <=? 30)%float && (40 <=? lon)%float &&
              (lon <=? 100)%float); [simpl; auto |].
    destruct ((-30 <=? lat)%float && (lat <=? 30)%float && (20 <=? lon)%float &&
              (lon <=? 120)%float) eqn:E2; [simpl; auto |].
    destruct ((-10 <=? lat)%float && (lat <=? 30)%float && (90 <=? lon)%float &&
              (lon <=? 120)%float) eqn:E3; [| simpl; auto].
    exfalso. apply andb_true_iff in E3. destruct E3 as [E3 H4].
    apply andb_true_iff in E3. destruct E3 as [E3 H3].
    apply andb_true_iff in E3. destruct E3 as [H1 H2].
    rewrite (@float_at_least_minus_30 lat H1), H2, (@float_at_least_20 lon H3), H4 in E2.
    discriminate. }
  split; [exact G |].
  change (VectorEmbeddingsGenerator.getOceanRegion lat lon)
    with (ChatProcessor.getOceanRegion lat lon).
  simpl in G. destruct G as [<- | [<- | [<- | []]]]; split; reflexivity.
Qed.

(** ** GET /api/chat and the search, when the store fails *)

(** X15: [GET /api/chat] never throws and leaves the world as it was. It
    answers 400 exactly when there is no session identifier; otherwise it
    answers 500, with "Failed to fetch chat history", exactly when the client
    cannot be created, and 200 else. With a client, a read that the store
    fails or rejects is reported as a history of no message with
    [success: true]. *)
Theorem GET_chat_responses :
  forall (request : ChatRoute.Request) (w : World),
    exists r,
      ChatRoute.GET request w = (Return r, w) /\
      (ChatRoute.status r = 400 <->
       Js.truthy_string (ChatRoute.sessionIdParam request) = false) /\
      (ChatRoute.status r = 500 <->
       Js.truthy_string (ChatRoute.sessionIdParam request) = true /\
       exists e, ChatRoute.createClient request = Throw e) /\
      (ChatRoute.status r = 200 <->
       Js.truthy_string (ChatRoute.sessionIdParam request) = true /\
       ChatRoute.createClient request = Return tt) /\
      (ChatRoute.status r = 400 -> r = history_bad_request) /\
      (ChatRoute.status r = 500 -> r = history_failed) /\
      (ChatRoute.status r = 200 -> health (store w) <> Up -> r = history_ok [] 0).
Proof.
  intros request w.
  destruct (Js.truthy_string (ChatRoute.sessionIdParam request)) eqn:Et.
  - destruct (ChatRoute.sessionIdParam request) as [sessionId|] eqn:Hparam;
      [| discriminate Et].
    rewrite (GET_run request w Hparam Et).
    destruct (ChatRoute.createClient request) as [[]|e].
    + destruct (health (store w)) eqn:Hh; eexists; (split; [reflexivity |]);
        cbn [ChatRoute.status history_ok];
        repeat split; intros; try discriminate; try reflexivity;
        try (exfalso; auto; fail).
      all: match goal with
           | Hx : _ /\ _ |- _ => destruct Hx as (_ & ? & Hx); discriminate Hx
           end.
    + eexists; (split; [reflexivity |]); cbn [ChatRoute.status history_failed];
        repeat split; intros; try discriminate; try reflexivity; eauto.
      match goal with
      | Hx : _ /\ _ |- _ => destruct Hx as (_ & Hx); discriminate Hx
      end.
  - unfold ChatRoute.GET. rewrite Et. cbn [negb].
    eexists; (split; [reflexivity |]);
      cbn [ChatRoute.status ChatRoute.NextResponse_json];
      repeat split; intros; try discriminate; try reflexivity.
    all: match goal with
         | Hx : _ /\ _ |- _ => destruct Hx as (Hx & _); discriminate Hx
         end.
Qed.

Lemma GET_chat_responses_witness :
  (exists r,
     ChatRoute.GET {| ChatRoute.json := Throw (JsError "no body");
                      ChatRoute.sessionIdParam := Some "";
                      ChatRoute.createClient := Return tt |} sample_world =
       (Return r, sample_world) /\
     r = history_bad_request) /\
  (exists r,
     ChatRoute.GET {| ChatRoute.json := Throw (JsError "no body");
                      ChatRoute.sessionIdParam := Some "s1";
                      ChatRoute.createClient := Throw (JsError "no client") |}
       sample_world = (Return r, sample_world) /\
     r = history_failed) /\
  (exists r,
     ChatRoute.GET {| ChatRoute.json := Throw (JsError "no body");
                      ChatRoute.sessionIdParam := Some "s1";
                      ChatRoute.createClient := Return tt |}
       (history_world (Rejecting (JsError "fetch failed"))) =
       (Return r, history_world (Rejecting (JsError "fetch failed"))) /\
     r = history_ok [] 0).
Proof.
  split; [| split].
  - destruct (GET_chat_responses
                {| ChatRoute.json := Throw (JsError "no body");
                   ChatRoute.sessionIdParam := Some "";
                   ChatRoute.createClient := Return tt |} sample_world)
      as (r & Hr & H400 & _ & _ & Hbody & _).
    exists r. split; [exact Hr | apply Hbody, H400; reflexivity].
  - destruct (GET_chat_responses
                {| ChatRoute.json := Throw (JsError "no body");
                   ChatRoute.sessionIdParam := Some "s1";
                   ChatRoute.createClient := Throw (JsError "no client") |} sample_world)
      as (r & Hr & _ & H500 & _ & _ & Hbody & _).
    exists r. split; [exact Hr |].
    apply Hbody, H500. split; [reflexivity | eexists; reflexivity].
  - destruct (GET_chat_responses
                {| ChatRoute.json := Throw (JsError "no body");
                   ChatRoute.sessionIdParam := Some "s1";
                   ChatRoute.createClient := Return tt |}
                (history_world (Rejecting (JsError "fetch failed"))))
      as (r & Hr & _ & _ & H200 & _ & _ & Hbody).
    exists r. split; [exact Hr |].
    apply Hbody; [apply H200; split; reflexivity | discriminate].
Defined.



(** ** The synthesized profile *)

#[local] Set Warnings "-inexact-float".

Lemma after_draws_add a b w : after_draws a (after_draws b w) = after_draws (b + a) w.
Proof. unfold after_draws. cbn. f_equal. lia. Qed.

Lemma after_draws_zero w : after_draws 0 w = w.
Proof. destruct w. reflexivity. Qed.

Lemma mapM_draws {A B} (f : A -> M B) (P : A -> B -> Prop) (k : nat) (l : list A) :
  (forall x w, exists y, f x w = (Return y, after_draws k w) /\ P x y) ->
  forall w, exists ys,
    mapM f l w = (Return ys, after_draws (k * List.length l) w) /\ Forall2 P l ys.
Proof.
  intros Hf. induction l as [|x l IH]; intros w; cbn [mapM List.length].
  - exists []. rewrite Nat.mul_0_r, after_draws_zero. split; [reflexivity | constructor].
  - destruct (Hf x w) as (y & E1 & Hy).
    destruct (IH (after_draws k w)) as (ys & E2 & Hys).
    exists (y :: ys). unfold bind. rewrite E1, E2. unfold ret.
    rewrite after_draws_add. split; [| constructor; assumption].
    do 2 f_equal. lia.
Qed.

Ltac one_draw :=
  intros; unfold bind, Math_random, ret;
  repeat match goal with
         | |- context [if ?c then _ else _] => destruct c
         end; eexists; reflexivity.

Lemma calculateTemperature_draw d w :
  exists v, NetCDFProcessor.calculateTemperature d w = (Return v, after_draws 1 w).
Proof. unfold NetCDFProcessor.calculateTemperature. one_draw. Qed.

Lemma calculateSalinity_draw d w :
  exists v, NetCDFProcessor.calculateSalinity d w = (Return v, after_draws 1 w).
Proof. unfold NetCDFProcessor.calculateSalinity. one_draw. Qed.

Lemma calculateOxygen_draw d w :
  exists v, NetCDFProcessor.calculateOxygen d w = (Return v, after_draws 1 w).
Proof. unfold NetCDFProcessor.calculateOxygen. one_draw. Qed.

Lemma calculateNitrate_draw d w :
  exists v, NetCDFProcessor.calculateNitrate d w = (Return v, after_draws 1 w).
Proof. unfold NetCDFProcessor.calculateNitrate. one_draw. Qed.

Lemma calculatePH_draw d w :
  exists v, NetCDFProcessor.calculatePH d w = (Return v, after_draws 1 w).
Proof. unfold NetCDFProcessor.calculatePH. one_draw. Qed.

Lemma calculateChlorophyll_draw d w :
  exists v, NetCDFProcessor.calculateChlorophyll d w = (Return v, after_draws 1 w).
Proof. unfold NetCDFProcessor.calculateChlorophyll. one_draw. Qed.

Lemma calculateBackscatter_draw d w :
  exists v, NetCDFProcessor.calculateBackscatter d w = (Return v, after_draws 1 w).
Proof. unfold NetCDFProcessor.calculateBackscatter. one_draw. Qed.

Lemma generateDepthMeasurements_levels w :
  exists ms,
    NetCDFProcessor.generateDepthMeasurements w = (Return ms, after_draws 42 w) /\
    Forall2 (fun d m => NetCDFProcessor.depth m = d /\
                        NetCDFProcessor.pressure m = (d * 1.02)%float)
            depth_levels ms.
Proof.
  unfold NetCDFProcessor.generateDepthMeasurements. cbv zeta.
  apply (@mapM_draws _ _ _ (fun d m => NetCDFProcessor.depth m = d /\
                                        NetCDFProcessor.pressure m = (d * 1.02)%float)
           2 depth_levels).
  intros d w0. unfold bind.
  destruct (calculateTemperature_draw d w0) as (t & ->).
  destruct (calculateSalinity_draw d (after_draws 1 w0)) as (s & ->).
  unfold ret. rewrite after_draws_add. eexists. split; [reflexivity |]. split; reflexivity.
Qed.

Lemma generateBGCMeasurements_levels w :
  exists ms,
    NetCDFProcessor.generateBGCMeasurements w = (Return ms, after_draws 85 w) /\
    Forall2 (fun d m => NetCDFProcessor.bgc_depth m = d) bgc_depth_levels ms.
Proof.
  unfold NetCDFProcessor.generateBGCMeasurements. cbv zeta.
  apply (@mapM_draws _ _ _ (fun d m => NetCDFProcessor.bgc_depth m = d) 5
           bgc_depth_levels).
  intros d w0. unfold bind.
  destruct (calculateOxygen_draw d w0) as (o & ->).
  destruct (calculateNitrate_draw d (after_draws 1 w0)) as (n & ->).
  destruct (calculatePH_draw d (after_draws 1 (after_draws 1 w0))) as (p & ->).
  destruct (calculateChlorophyll_draw d (after_draws 1 (after_draws 1 (after_draws 1 w0))))
    as (c & ->).
  destruct (calculateBackscatter_draw d
              (after_draws 1 (after_draws 1 (after_draws 1 (after_draws 1 w0)))))
    as (b & ->).
  unfold ret. rewrite !after_draws_add. eexists. split; reflexivity.
Qed.

Lemma Forall2_map_eq {A B} (g : B -> A) (l : list A) (ys : list B) :
  Forall2 (fun x y => g y = x) l ys -> map g ys = l.
Proof. induction 1; simpl; [reflexivity | congruence]. Qed.

(** X17: Every profile [processNetCDFFile] returns has the same depth levels: the
    21 levels of the physical measurements from 5 m to 2000 m, each with the
    pressure [depth * 1.02], and the 17 levels of the biogeochemical ones from
    5 m to 1000 m. Its platform number is its float identifier and its date is
    the reading of the clock. Making it takes one reading of the clock and
    129 results of [Math.random()], and leaves the store alone. *)
Theorem processNetCDFFile_profile_shape :
  forall (filename filePath : string) (w w' : World) (profile : NetCDFProcessor.ArgoProfile),
    NetCDFProcessor.processNetCDFFile filename filePath w = (Return profile, w') ->
    map NetCDFProcessor.depth (NetCDFProcessor.measurements profile) = depth_levels /\
    (forall m, In m (NetCDFProcessor.measurements profile) ->
               NetCDFProcessor.pressure m = (NetCDFProcessor.depth m * 1.02)%float) /\
    option_map (map NetCDFProcessor.bgc_depth) (NetCDFProcessor.bgcData profile) =
      Some bgc_depth_levels /\
    NetCDFProcessor.platformNumber profile = NetCDFProcessor.floatId profile /\
    NetCDFProcessor.profileDate profile = clock w (ticks w) /\
    store w' = store w /\ ticks w' = S (ticks w) /\ draws w' = 129 + draws w.
Proof.
  intros filename filePath w w' profile.
  unfold NetCDFProcessor.processNetCDFFile.
  destruct (Regex.exec false NetCDFProcessor.filename_pattern filename) as [found|];
    [| discriminate].
  unfold bind at 1. unfold Date_now at 1. cbv beta iota.
  unfold bind at 1. unfold Math_random at 1. cbv beta iota.
  unfold bind at 1. unfold Math_random at 1. cbv beta iota.
  unfold bind at 1.
  match goal with
  | |- context [NetCDFProcessor.generateDepthMeasurements ?x] =>
      destruct (generateDepthMeasurements_levels x) as (ms & -> & Hms)
  end.
  unfold bind at 1.
  match goal with
  | |- context [NetCDFProcessor.generateBGCMeasurements ?x] =>
      destruct (generateBGCMeasurements_levels x) as (bgc & -> & Hbgc)
  end.
  unfold ret. intros [= <- <-]. cbn.
  repeat split.
  - apply Forall2_map_eq.
    eapply Forall2_impl; [| exact Hms]. intros d m [Hd _]. exact Hd.
  - intros m Hm. clear Hbgc.
    induction Hms as [|d m0 ds ms0 [Hd Hp] _ IH]; [contradiction |].
    destruct Hm as [<- | Hm]; [rewrite Hp, Hd; reflexivity | apply IH, Hm].
  - f_equal. apply Forall2_map_eq, Hbgc.
Qed.

Lemma processNetCDFFile_profile_shape_witness :
  exists profile w',
    NetCDFProcessor.processNetCDFFile "R5906468_245.nc" "" sample_world =
      (Return profile, w') /\
    map NetCDFProcessor.depth (NetCDFProcessor.measurements profile) = depth_levels /\
    draws w' = 129 + draws sample_world.
Proof.
  destruct (Regex.exec false NetCDFProcessor.filename_pattern "R5906468_245.nc")
    as [found|] eqn:E; [| vm_compute in E; discriminate E].
  destruct (@processNetCDFFile_found "R5906468_245.nc" "" found sample_world E)
    as (profile & w' & Hrun & _).
  exists profile, w'.
  destruct (processNetCDFFile_profile_shape _ _ _ Hrun) as (H1 & _ & _ & _ & _ & _ & _ & H8).
  repeat split; assumption.
Defined.

(* ===================================================================== *)
(** * Storing a profile and the route that asks for it *)
(* ===================================================================== *)

Lemma updateFileStatus_run filename status msg p :
  Ingest.updateFileStatus filename status msg p =
  (match Ingest.respond p (Ingest.sent p)
           (Ingest.UpdateFile filename status (clock (Ingest.world p) (ticks (Ingest.world p)))
              (if Js.truthy_string msg then msg else None)) with
   | Ingest.Replied _ _ => Return tt
   | Ingest.Rejected e => Throw e
   end,
   {| Ingest.world := after_ticks 1 (Ingest.world p);
      Ingest.sent := Ingest.sent p ++
        [Ingest.UpdateFile filename status (clock (Ingest.world p) (ticks (Ingest.world p)))
           (if Js.truthy_string msg then msg else None)];
      Ingest.respond := Ingest.respond p |}).
Proof.
  unfold Ingest.updateFileStatus, Ingest.bind, Ingest.lift, Ingest.request, Date_now, Ingest.ret.
  cbn.
  destruct (Ingest.respond p _ _); reflexivity.
Qed.



Lemma after_ticks_add a b w : after_ticks a (after_ticks b w) = after_ticks (b + a) w.
Proof. unfold after_ticks. cbn. f_equal. lia. Qed.

Lemma ingest_bind_return {A B} (m : Ingest.P A) (k : A -> Ingest.P B) p b p' :
  Ingest.bind m k p = (Return b, p') ->
  exists a p1, m p = (Return a, p1) /\ k a p1 = (Return b, p').
Proof.
  unfold Ingest.bind. destruct (m p) as [[a|e] p1]; [| discriminate].
  intros E. exists a, p1. split; [reflexivity | exact E].
Qed.

Lemma ingest_bind_throws {A B} (m : Ingest.P A) (k : A -> Ingest.P B) p :
  (forall a p1, exists e p2, k a p1 = (Throw e, p2)) ->
  exists e p2, Ingest.bind m k p = (Throw e, p2).
Proof.
  intros Hk. unfold Ingest.bind. destruct (m p) as [[a|e] p1].
  - apply Hk.
  - exists e, p1. reflexivity.
Qed.

(** The handler of [processAndStore] never returns. *)
Lemma processAndStore_handler_throws H filename error p :
  exists e p2,
    Ingest.bind (Ingest.template H filename)
      (fun _ => Ingest.bind (Ingest.updateFileStatus filename "error"
                               (Some (Ingest.message_of error)))
                  (fun _ => Ingest.throw error)) p = (@Throw unit e, p2).
Proof.
  apply ingest_bind_throws. intros _ p1.
  apply ingest_bind_throws. intros _ p2.
  exists error, p2. reflexivity.
Qed.

Lemma processAndStore_returned H filename filePath p p' :
  Ingest.processAndStore H filename filePath p = (Return tt, p') ->
  exists name before t,
    filename = JStr name /\
    Ingest.sent p' = before ++ [Ingest.UpdateFile (JStr name) "completed" t None].
Proof.
  unfold Ingest.processAndStore, Ingest.try_catch.
  match goal with
  | |- context [match ?body p with _ => _ end] => destruct (body p) as [[[]|e] p1] eqn:E
  end.
  - intros [= <-].
    apply ingest_bind_return in E. destruct E as ([] & q1 & _ & E).
    apply ingest_bind_return in E. destruct E as (profile & q2 & E2 & E).
    apply ingest_bind_return in E. destruct E as ([] & q3 & _ & E).
    apply ingest_bind_return in E. destruct E as ([] & q4 & E4 & E).
    apply ingest_bind_return in E. destruct E as (s & q5 & E5 & E).
    unfold Ingest.ret in E. injection E as <-.
    unfold Ingest.template in E5. injection E5 as _ <-.
    rewrite updateFileStatus_run in E4.
    unfold Ingest.processNetCDFFile in E2.
    apply ingest_bind_return in E2. destruct E2 as (s' & q6 & _ & E2).
    destruct filename; try discriminate E2.
    eexists _, _, _. split; [reflexivity |].
    destruct (Ingest.respond q3 _ _); [| discriminate].
    injection E4 as <-. reflexivity.
  - destruct (processAndStore_handler_throws H filename e p1) as (e' & p2 & ->).
    discriminate.
Qed.

Lemma after_draws_ticks a b w :
  after_draws a (after_ticks b w) = after_ticks b (after_draws a w).
Proof. reflexivity. Qed.













(** X23: [POST /api/process-netcdf] always answers, whatever the body and the
    store: with 400 and nothing sent to the store, or with 200, the filename
    being a string and the last request to the store the update of the file to
    "completed", or with 500 and the message of the error as [details]. *)
Theorem POST_process_netcdf_responses :
  forall (H : Host) (request : ProcessRoute.Request) (p : Ingest.State),
    exists response p',
      ProcessRoute.POST H request p = (Return response, p') /\
      ((response =
          {| ProcessRoute.status := 400;
             ProcessRoute.body :=
               ProcessRoute.ErrorBody "Filename and file path are required" None |} /\
        p' = p) \/
       (exists name requests t now,
          response =
            {| ProcessRoute.status := 200;
               ProcessRoute.body :=
                 ProcessRoute.ProcessedBody true ("Successfully processed " +++ name)
                   (JStr name) now |} /\
          Ingest.sent p' =
            requests ++ [Ingest.UpdateFile (JStr name) "completed" t None]) \/
       (exists error,
          response =
            {| ProcessRoute.status := 500;
               ProcessRoute.body :=
                 ProcessRoute.ErrorBody "Failed to process NetCDF file"
                   (Some (Ingest.message_of error)) |})).
Proof.
  intros H request p.
  unfold ProcessRoute.POST, Ingest.try_catch.
  unfold Ingest.bind at 1.
  destruct (ProcessRoute.json request) as [value|e];
    [| eexists _, _; split; [reflexivity | right; right; eexists; reflexivity]].
  unfold Ingest.bind at 1.
  destruct (ProcessRoute.destructure value p) as [[[filename filePath]|e] p0] eqn:Ed;
    [| eexists _, _; split; [reflexivity | right; right; eexists; reflexivity]].
  assert (p0 = p) as ->.
  { destruct value; unfold ProcessRoute.destructure, Ingest.ret, Ingest.throw in Ed;
      inversion Ed; reflexivity. }
  destruct (negb (ChatRoute.truthy filename) || negb (ChatRoute.truthy filePath)).
  { eexists _, _. split; [reflexivity | left; split; reflexivity]. }
  unfold Ingest.bind at 1. unfold Ingest.template at 1.
  destruct (toString H (ChatRoute.or_undefined filename)) as [s|e] eqn:Es;
    [| eexists _, _; split; [reflexivity | right; right; eexists; reflexivity]].
  unfold Ingest.bind at 1.
  destruct (Ingest.processAndStore H (ChatRoute.or_undefined filename)
              (ChatRoute.or_undefined filePath) p) as [[[]|e] p1] eqn:Erun;
    [| eexists _, _; split; [reflexivity | right; right; eexists; reflexivity]].
  destruct (@processAndStore_returned _ _ _ _ _ Erun) as (name & requests & t & Ename & Hsent).
  rewrite Ename in *.
  unfold Ingest.bind, Ingest.template, Ingest.lift, Date_now, Ingest.ret.
  cbn [toString fst snd Ingest.world Ingest.sent Ingest.respond].
  eexists _, _. split; [reflexivity |].
  right; left. exists name, requests, t. eexists. split; [reflexivity | exact Hsent].
Qed.


Lemma generateMockEmbedding_draws w :
  exists vector,
    VectorEmbeddings.generateMockEmbedding w = (Return vector, after_draws 1536 w) /\
    List.length vector = 1536.
Proof.
  unfold VectorEmbeddings.generateMockEmbedding.
  match goal with
  | |- context [mapM ?f ?l w] =>
      destruct (@mapM_draws _ _ f (fun _ _ => True) 1 l) with (w := w) as (ys & E & Hys)
  end.
  - intros [] w0. eexists. split; [reflexivity | exact I].
  - exists ys. rewrite E, repeat_length. split; [reflexivity |].
    rewrite <- (Forall2_length Hys). apply repeat_length.
Qed.

Lemma embeddingRecord_draws embedding w :
  exists record,
    VectorEmbeddings.embeddingRecord embedding w = (Return record, after_draws 1536 w) /\
    (Ingest.rec_content_type record = VectorEmbeddings.contentType embedding /\
     Ingest.rec_content_id record = VectorEmbeddings.contentId embedding /\
     Ingest.rec_content_text record = VectorEmbeddings.contentText embedding /\
     Ingest.rec_metadata record = VectorEmbeddings.metadata embedding /\
     List.length (Ingest.rec_embedding_vector record) = 1536).
Proof.
  unfold VectorEmbeddings.embeddingRecord, bind.
  destruct (generateMockEmbedding_draws w) as (vector & -> & Hlen).
  eexists. split; [reflexivity |]. cbn. auto.
Qed.

(** X27: [storeEmbeddings] sends one insert with one record per embedding, in the
    order given, each with the type, id, text and metadata of its embedding
    and a vector of 1536 components, as the column [VECTOR(1536)] takes; it
    takes 1536 results of [Math.random()] per embedding. It returns when the
    store answers without error and throws the store's error otherwise. *)
Theorem storeEmbeddings_one_insert :
  forall (embeddings : list VectorEmbeddings.EmbeddingData) (p : Ingest.State),
    exists rows p',
      VectorEmbeddings.storeEmbeddings embeddings p =
        (match Ingest.respond p (Ingest.sent p) (Ingest.InsertEmbeddings rows) with
         | Ingest.Replied _ None => Return tt
         | Ingest.Replied _ (Some error) => Throw error
         | Ingest.Rejected e => Throw e
         end, p') /\
      Ingest.sent p' = Ingest.sent p ++ [Ingest.InsertEmbeddings rows] /\
      Ingest.world p' = after_draws (1536 * List.length embeddings) (Ingest.world p) /\
      map Ingest.rec_content_type rows = map VectorEmbeddings.contentType embeddings /\
      map Ingest.rec_content_id rows = map VectorEmbeddings.contentId embeddings /\
      map Ingest.rec_content_text rows = map VectorEmbeddings.contentText embeddings /\
      map Ingest.rec_metadata rows = map VectorEmbeddings.metadata embeddings /\
      Forall (fun r => List.length (Ingest.rec_embedding_vector r) = 1536) rows.
Proof.
  intros embeddings p.
  unfold VectorEmbeddings.storeEmbeddings.
  destruct (@mapM_draws _ _ VectorEmbeddings.embeddingRecord
              (fun embedding record =>
                 Ingest.rec_content_type record = VectorEmbeddings.contentType embedding /\
                 Ingest.rec_content_id record = VectorEmbeddings.contentId embedding /\
                 Ingest.rec_content_text record = VectorEmbeddings.contentText embedding /\
                 Ingest.rec_metadata record = VectorEmbeddings.metadata embedding /\
                 List.length (Ingest.rec_embedding_vector record) = 1536)
              1536 embeddings embeddingRecord_draws (Ingest.world p))
    as (rows & E & Hrows).
  exists rows.
  unfold Ingest.bind, Ingest.lift, Ingest.request, Ingest.throw, Ingest.ret.
  rewrite E. cbn [fst snd Ingest.world Ingest.sent Ingest.respond].
  destruct (Ingest.respond p (Ingest.sent p) (Ingest.InsertEmbeddings rows))
    as [data [error|]|e]; cbn [fst snd];
    (eexists; split; [reflexivity |]; split; [reflexivity |]; split; [reflexivity |]);
    clear E; induction Hrows as [|x y l l' (H1 & H2 & H3 & H4 & H5) _ IH]; cbn [map];
    try (repeat split; constructor);
    destruct IH as (I1 & I2 & I3 & I4 & I5);
    repeat split; try (f_equal; assumption); constructor; assumption.
Qed.









